(** * CorgiAI fraud detection: scoring store, task map and notification hub

    A shallow embedding of the stateful core of the repository:

    - [MCPIntegration] ([agents_excel.py]): the per-claim score store with
      [update_score] and [get_consensus];
    - [ConnectionManager] ([backend/main.py]): the per-task WebSocket
      registry with its pending-update buffers;
    - [Backend] ([backend/main.py]): the [batch_tasks] dictionary, the
      opening part of [websocket_endpoint] and [process_excel_background];
      also the heartbeat task and the upload, status and download routes;
    - [ExcelProcessor] and [CorgiAgentSystem] ([agents_excel.py]): the
      path of the results file, the reply handlers, [process_claim] and
      [process_excel];
    - [ClaimRoute] and [StatsRoute] ([backend/main.py]):
      [analyze_single_claim] and [get_system_stats].

    Python dictionaries are finite maps ([gmap]) over strings, lists are
    lists, and a method that mutates [self] is a function in a state and
    exception monad.  Scores are Python floats in the source; they are
    modelled as exact rationals, so the IEEE rounding of sums is abstracted
    while comparisons and averages keep their meaning.  The two-decimal
    [round] of the library works on the binary value of a float; it is a
    parameter of the model, of which the properties assume no more than
    that it yields a nearest hundredth. *)

From Stdlib Require Import QArith Qround Qabs Lqa ZArith String List Lia Sorted.
From stdpp Require Import gmap strings list fin_maps.

Close Scope Q_scope.

(** ** Python-level conventions *)

Module Py.

(** An exception carries its class name and its message. *)
Inductive exn : Type := Exn (cls msg : string).

(** Result of running a statement: normal completion or a raised
    exception.  The state is returned in both cases, since mutations made
    before a [raise] persist. *)
Inductive res (A : Type) : Type :=
| Ret (a : A)
| Raise (e : exn).
Arguments Ret {A} a.
Arguments Raise {A} e.

Definition M (S A : Type) : Type := S -> res A * S.

Definition ret {S A} (a : A) : M S A := fun s => (Ret a, s).
Definition raise {S A} (e : exn) : M S A := fun s => (Raise e, s).
Definition bind {S A B} (m : M S A) (k : A -> M S B) : M S B :=
  fun s => match m s with
           | (Ret a, s') => k a s'
           | (Raise e, s') => (Raise e, s')
           end.
Definition gets {S A} (f : S -> A) : M S A := fun s => (Ret (f s), s).
Definition modify {S} (f : S -> S) : M S unit := fun s => (Ret tt, f s).

(** [try: body except Exception as e: handler e] *)
Definition try_except {S A} (body : M S A) (handler : exn -> M S A) : M S A :=
  fun s => match body s with
           | (Ret a, s') => (Ret a, s')
           | (Raise e, s') => handler e s'
           end.

(** [l[-n:]] for a list [l] and [n > 0]. *)
Definition last_n {A} (n : nat) (l : list A) : list A :=
  drop (length l - n) l.

(** Values stored in the dictionaries that travel as JSON. *)
Inductive value : Type :=
| VStr (s : string)
| VInt (n : Z)
| VFloat (q : Q).

(** A [dict] with string keys. *)
Abbreviation dict := (gmap string value).

(** [d.update(e)]: the keys of [e] win. *)
Definition update (e d : dict) : dict := e ∪ d.

(** The integer nearest to a rational, the even one of the two at a
    tie. *)
Definition round_half_even (x : Q) : Z :=
  let f := Qfloor x in
  let r := (x - inject_Z f)%Q in
  match (r ?= 1 # 2)%Q with
  | Lt => f
  | Gt => (f + 1)%Z
  | Eq => if Z.even f then f else (f + 1)%Z
  end.

(** *** Strings *)

(** [s.endswith(suffix)] *)
Definition endswith (s suffix : string) : bool :=
  bool_decide
    (list_ascii_of_string suffix `suffix_of` list_ascii_of_string s).

(** [s.replace(old, new)] for a non-empty [old]: the occurrences of [old]
    are found from the left and do not overlap.  [skip] counts the
    characters of a found occurrence that are still to be passed over. *)
Fixpoint replace_from (old new : string) (skip : nat) (s : string)
    : string :=
  match s with
  | EmptyString => EmptyString
  | String c s' =>
      match skip with
      | S k => replace_from old new k s'
      | O =>
          if String.prefix old s
          then new +:+ replace_from old new (String.length old - 1) s'
          else String c (replace_from old new 0 s')
      end
  end.

Definition replace (old new s : string) : string :=
  replace_from old new 0 s.

(** [old in s] *)
Fixpoint occurs (old s : string) : bool :=
  String.prefix old s
  || match s with
     | EmptyString => false
     | String _ s' => occurs old s'
     end.

(** [os.path.join(a, b)] with POSIX paths. *)
Definition path_join (a b : string) : string :=
  if String.prefix "/" b then b
  else if String.eqb a "" || endswith a "/" then a +:+ b
  else a +:+ "/" +:+ b.

End Py.

(** The monad is registered with stdpp's classes, which gives the
    notations [x ← m; k] and [m ;; k]. *)
#[global] Instance M_ret {S} : MRet (Py.M S) := fun A => @Py.ret S A.
#[global] Instance M_bind {S} : MBind (Py.M S) :=
  fun A B k m => @Py.bind S A B m k.

(** ** agents_excel.py *)

Module Config.

Record t : Type := {
  FRAUD_THRESHOLD : Q;
  CONSENSUS_THRESHOLD : nat
}.

(** The class attributes as written in the source. *)
Definition default : t :=
  {| FRAUD_THRESHOLD := 7 # 10; CONSENSUS_THRESHOLD := 3 |}.

End Config.

Module MCPIntegration.
Import Py.

(** [self.scores[claim_id][agent]] *)
Record agent_vote : Type := {
  score : Q;
  timestamp : string;
  metadata : gmap string string
}.

(** An element of [self.history]; [metadata] is stored as passed, so it
    may be [None]. *)
Record history_entry : Type := {
  h_claim_id : string;
  h_agent : string;
  h_score : Q;
  h_timestamp : string;
  h_metadata : option (gmap string string)
}.

Record t : Type := {
  scores : gmap string (gmap string agent_vote);
  history : list history_entry
}.

(** [__init__] *)
Definition init : t := {| scores := ∅; history := [] |}.

(** [0 <= score <= 1] *)
Definition valid_score (s : Q) : bool := Qle_bool 0 s && Qle_bool s 1.

(** The body of the [with self.lock:] block of [update_score]. *)
Definition store_vote (claim_id agent : string) (s : Q)
    (md : option (gmap string string)) (now : string) (self : t) : t :=
  let scores1 :=
    match scores self !! claim_id with
    | None => <[claim_id := ∅]> (scores self)
    | Some _ => scores self
    end in
  let per_claim := default ∅ (scores1 !! claim_id) in
  let vote := {| score := s; timestamp := now; metadata := default ∅ md |} in
  let entry := {| h_claim_id := claim_id; h_agent := agent; h_score := s;
                  h_timestamp := now; h_metadata := md |} in
  {| scores := <[claim_id := <[agent := vote]> per_claim]> scores1;
     history := history self ++ [entry] |}.

(** [update_score]; [now] is the reading of [datetime.now().isoformat()]. *)
Definition update_score (claim_id agent : string) (s : Q)
    (md : option (gmap string string)) (now : string) : M t bool :=
  try_except
    (if negb (valid_score s)
     then raise (Exn "ValueError" "Invalid score. Must be between 0-1")
     else modify (store_vote claim_id agent s md now) ;; ret true)
    (fun _ => ret false).

(** The second component of the result of [get_consensus]: the empty
    dictionary or the five-key dictionary. *)
Inductive detail : Type :=
| EmptyDetail
| Detail (d_scores : gmap string Q) (average_score max_score : Q)
         (fraud_count : nat) (agent_details : gmap string agent_vote).

(** [simple_scores.values()] *)
Definition values (simple_scores : gmap string Q) : list Q :=
  (map_to_list simple_scores).*2.

Definition Qsum (l : list Q) : Q := foldr Qplus 0%Q l.

(** [max] of a non-empty list; the first element seeds the fold. *)
Definition Qmax_list (l : list Q) : Q :=
  match l with
  | [] => 0%Q
  | x :: l' => foldl (fun m y => if Qle_bool y m then m else y) x l'
  end.

(** [sum(1 for s in values if s >= threshold)] *)
Definition count_above (threshold : Q) (l : list Q) : nat :=
  length (List.filter (fun s => Qle_bool threshold s) l).

Section Rounding.

(** [round(_, 2)] of the library. *)
Variable round2 : Q -> Q.

(** The body of the [with self.lock:] block of [get_consensus]. *)
Definition consensus_of (cfg : Config.t) (claim_id : string) (self : t)
    : bool * detail :=
  match scores self !! claim_id with
  | None => (false, EmptyDetail)
  | Some scores_data =>
      let simple_scores := score <$> scores_data in
      let vals := values simple_scores in
      let fraud_count := count_above (Config.FRAUD_THRESHOLD cfg) vals in
      let has_consensus :=
        (Config.CONSENSUS_THRESHOLD cfg <=? fraud_count)%nat in
      let avg_score :=
        match vals with
        | [] => 0%Q
        | _ => (Qsum vals / inject_Z (Z.of_nat (length vals)))%Q
        end in
      let max_score :=
        match vals with [] => 0%Q | _ => Qmax_list vals end in
      (has_consensus,
       Detail simple_scores (round2 avg_score) (round2 max_score)
              fraud_count scores_data)
  end.

Definition get_consensus (cfg : Config.t) (claim_id : string)
    : M t (bool * detail) :=
  try_except
    (gets (consensus_of cfg claim_id))
    (fun _ => ret (false, EmptyDetail)).

End Rounding.

(** What is assumed of [round(_, 2)]: the result is a whole number of
    hundredths and lies at most half a hundredth from the argument.
    Which of the two nearest hundredths a tie goes to is left open; the
    library decides it on the binary value of the float. *)
Definition rounds_to_hundredths (round2 : Q -> Q) : Prop :=
  forall x, exists k : Z,
    round2 x = (inject_Z k / 100)%Q /\ (Qabs (x - round2 x) <= 1 # 200)%Q.

(** A stand-in for [round(_, 2)] in sample runs: the nearest hundredth of
    the rational, the even one at a tie. *)
Definition sample_round2 (x : Q) : Q :=
  (inject_Z (round_half_even (x * 100)) / 100)%Q.

(** The votes currently stored for [agent] under [claim_id]: the items of
    [self.scores[claim_id]] whose key is [agent]. *)
Definition active_votes (self : t) (claim_id agent : string)
    : list agent_vote :=
  (List.filter (fun kv => String.eqb kv.1 agent)
     (map_to_list (default ∅ (scores self !! claim_id)))).*2.

(** [self.scores[claim_id][agent]['score']], when present. *)
Definition latest_score (self : t) (claim_id agent : string) : option Q :=
  m ← scores self !! claim_id; v ← m !! agent; Some (score v).

(** The stores a program can build: [__init__] followed by calls of
    [update_score], the only method that writes. *)
Inductive reachable : t -> Prop :=
| reachable_init : reachable init
| reachable_update self claim_id agent s md now :
    reachable self ->
    reachable (update_score claim_id agent s md now self).2.

(** The store holding the latest votes [{A: 0.8, B: 0.75, C: 0.9, D: 0.2}]
    for claim [X]. *)
Definition four_votes : t :=
  let vote agent s self := (update_score "X" agent s None "t" self).2 in
  vote "D" (2 # 10)%Q (vote "C" (9 # 10)%Q
    (vote "B" (75 # 100)%Q (vote "A" (8 # 10)%Q init))).

(** [0 <= q <= 1] *)
Definition in_unit (q : Q) : Prop := (0 <= q)%Q /\ (q <= 1)%Q.

(** The arguments of a call of [update_score], and a sequence of calls
    made one after the other. *)
Record call : Type := {
  c_claim_id : string;
  c_agent : string;
  c_score : Q;
  c_metadata : option (gmap string string);
  c_now : string
}.

Fixpoint update_scores (calls : list call) (self : t) : t :=
  match calls with
  | [] => self
  | c :: rest =>
      update_scores rest
        (update_score (c_claim_id c) (c_agent c) (c_score c) (c_metadata c)
           (c_now c) self).2
  end.

(** The history entry an accepted call appends. *)
Definition entry_of (c : call) : history_entry :=
  {| h_claim_id := c_claim_id c; h_agent := c_agent c;
     h_score := c_score c; h_timestamp := c_now c;
     h_metadata := c_metadata c |}.

End MCPIntegration.

(** ** backend/main.py: the transport and the connection manager *)

Module WebSocket.

(** [websocket.client_state] *)
Inductive state_name : Type := CONNECTING | CONNECTED | DISCONNECTED.

(** A WebSocket object as the server sees it.  [sent] is what the peer has
    been sent so far; the text of a frame is [json.dumps] of a dictionary
    and is identified with that dictionary.  [script] fixes the outcome of
    the coming calls of [send_text]: [true] delivers, [false] raises; once
    it is used up every call delivers. *)
Record t : Type := {
  client_state : state_name;
  sent : list Py.dict;
  script : list bool
}.

(** How many of [n] successive sends are delivered before the first one
    that raises. *)
Fixpoint deliverable (script : list bool) (n : nat) : nat :=
  match n, script with
  | O, _ => O
  | S n', [] => n
  | S n', true :: rest => S (deliverable rest n')
  | S n', false :: _ => O
  end.

End WebSocket.

Module ConnectionManager.
Import Py.

(** Sockets are referred to by identity; the manager stores references. *)
Abbreviation ws_id := nat.

(** [sockets] is the store of WebSocket objects the references point to;
    [active_connections] and [pending_updates] are the two attributes set
    by [__init__]. *)
Record t : Type := {
  sockets : gmap ws_id WebSocket.t;
  active_connections : gmap string ws_id;
  pending_updates : gmap string (list dict)
}.

Definition init : t :=
  {| sockets := ∅; active_connections := ∅; pending_updates := ∅ |}.

Definition set_socket (ws : ws_id) (w : WebSocket.t) (self : t) : t :=
  {| sockets := <[ws := w]> (sockets self);
     active_connections := active_connections self;
     pending_updates := pending_updates self |}.

Definition set_active (f : gmap string ws_id -> gmap string ws_id)
    (self : t) : t :=
  {| sockets := sockets self;
     active_connections := f (active_connections self);
     pending_updates := pending_updates self |}.

Definition set_pending
    (f : gmap string (list dict) -> gmap string (list dict)) (self : t) : t :=
  {| sockets := sockets self;
     active_connections := active_connections self;
     pending_updates := f (pending_updates self) |}.

Definition dangling : exn := Exn "RuntimeError" "no such socket".

(** [await websocket.accept()]: a socket is accepted once, while it is
    in the [CONNECTING] state, and is [CONNECTED] afterwards. *)
Definition accept (ws : ws_id) : M t unit := fun self =>
  match sockets self !! ws with
  | Some w =>
      match WebSocket.client_state w with
      | WebSocket.CONNECTING =>
          (Ret tt,
           set_socket ws {| WebSocket.client_state := WebSocket.CONNECTED;
                            WebSocket.sent := WebSocket.sent w;
                            WebSocket.script := WebSocket.script w |} self)
      | _ => (Raise (Exn "RuntimeError" "accept in a wrong state"), self)
      end
  | None => (Raise dangling, self)
  end.

(** [websocket.client_state] *)
Definition client_state (ws : ws_id) : M t WebSocket.state_name := fun self =>
  match sockets self !! ws with
  | Some w => (Ret (WebSocket.client_state w), self)
  | None => (Raise dangling, self)
  end.

(** [await websocket.send_text(json.dumps(data))] *)
Definition send_text (ws : ws_id) (data : dict) : M t unit := fun self =>
  match sockets self !! ws with
  | Some w =>
      match WebSocket.script w with
      | false :: rest =>
          (Raise (Exn "RuntimeError" "send failed"),
           set_socket ws {| WebSocket.client_state := WebSocket.client_state w;
                            WebSocket.sent := WebSocket.sent w;
                            WebSocket.script := rest |} self)
      | script =>
          (Ret tt,
           set_socket ws {| WebSocket.client_state := WebSocket.client_state w;
                            WebSocket.sent := WebSocket.sent w ++ [data];
                            WebSocket.script := tail script |} self)
      end
  | None => (Raise dangling, self)
  end.

(** The [for update in self.pending_updates[task_id]] loop of [connect]:
    the first send that raises ends the loop ([break]). *)
Fixpoint replay (ws : ws_id) (updates : list dict) : M t unit :=
  match updates with
  | [] => mret tt
  | update :: rest =>
      sent_ok ← try_except (send_text ws update ;; mret true)
                           (fun _ => mret false);
      if (sent_ok : bool) then replay ws rest else mret tt
  end.

Definition connect (websocket : ws_id) (task_id : string) : M t unit :=
  accept websocket ;;
  modify (set_active <[task_id := websocket]>) ;;
  pending ← gets pending_updates;
  match pending !! task_id with
  | Some updates =>
      replay websocket updates ;;
      modify (set_pending (delete task_id))
  | None => mret tt
  end.

Definition disconnect (task_id : string) (self : t) : t :=
  match active_connections self !! task_id with
  | Some _ => set_active (delete task_id) self
  | None => self
  end.

(** [data.get('type') == 'heartbeat'] *)
Definition is_heartbeat (data : dict) : bool :=
  match data !! "type" with
  | Some (VStr ty) => String.eqb ty "heartbeat"
  | _ => false
  end.

Definition _store_pending_update (task_id : string) (data : dict)
    (self : t) : t :=
  let self1 :=
    match pending_updates self !! task_id with
    | None => set_pending <[task_id := []]> self
    | Some _ => self
    end in
  if negb (is_heartbeat data) then
    let appended := default [] (pending_updates self1 !! task_id) ++ [data] in
    set_pending <[task_id := last_n 10 appended]> self1
  else self1.

Definition send_progress_update (task_id : string) (data : dict) : M t unit :=
  conns ← gets active_connections;
  match conns !! task_id with
  | Some websocket =>
      try_except
        (st ← client_state websocket;
         match st with
         | WebSocket.CONNECTED => send_text websocket data
         | _ =>
             modify (_store_pending_update task_id data) ;;
             modify (disconnect task_id)
         end)
        (fun _ =>
           modify (_store_pending_update task_id data) ;;
           modify (disconnect task_id))
  | None => modify (_store_pending_update task_id data)
  end.

(** First loop of [broadcast_to_all]: returns [disconnected_tasks].  The
    items are visited in the order of [map_to_list]; each socket is sent
    to once, whatever the order. *)
Fixpoint broadcast_sends (items : list (string * ws_id)) (data : dict)
    (disconnected_tasks : list string) : M t (list string) :=
  match items with
  | [] => mret disconnected_tasks
  | (task_id, websocket) :: rest =>
      acc ← try_except
              (st ← client_state websocket;
               match st with
               | WebSocket.CONNECTED =>
                   send_text websocket data ;; mret disconnected_tasks
               | _ => mret (disconnected_tasks ++ [task_id])
               end)
              (fun _ => mret (disconnected_tasks ++ [task_id]));
      broadcast_sends rest data acc
  end.

(** Second loop of [broadcast_to_all]. *)
Fixpoint broadcast_cleanup (disconnected_tasks : list string) (data : dict)
    (self : t) : t :=
  match disconnected_tasks with
  | [] => self
  | task_id :: rest =>
      broadcast_cleanup rest data
        (disconnect task_id (_store_pending_update task_id data self))
  end.

Definition broadcast_to_all (data : dict) : M t unit :=
  conns ← gets active_connections;
  disconnected_tasks ← broadcast_sends (map_to_list conns) data [];
  modify (broadcast_cleanup disconnected_tasks data).

(** One call on the manager, or a move of the transport (a new socket
    object, a peer closing, a change of fortune for future sends). *)
Inductive step : t -> t -> Prop :=
| step_connect ws task_id self :
    step self (connect ws task_id self).2
| step_disconnect task_id self :
    step self (disconnect task_id self)
| step_send task_id data self :
    step self (send_progress_update task_id data self).2
| step_broadcast data self :
    step self (broadcast_to_all data self).2
| step_transport socks self :
    step self {| sockets := socks;
                 active_connections := active_connections self;
                 pending_updates := pending_updates self |}.

Inductive reachable : t -> Prop :=
| reachable_init : reachable init
| reachable_step self self' : reachable self -> step self self' -> reachable self'.

(** Emitting a sequence of events for one task, in order. *)
Fixpoint emit_all (task_id : string) (events : list dict) : M t unit :=
  match events with
  | [] => mret tt
  | data :: rest => send_progress_update task_id data ;; emit_all task_id rest
  end.

(** [self.pending_updates.get(task_id, [])] *)
Definition buffer (self : t) (task_id : string) : list dict :=
  default [] (pending_updates self !! task_id).

(** What socket [ws] has been sent so far. *)
Definition sent_to (self : t) (ws : ws_id) : list dict :=
  match sockets self !! ws with
  | Some w => WebSocket.sent w
  | None => []
  end.

(** A send to [ws] goes through: the object exists, is in the
    [CONNECTED] state, and its next [send_text] does not raise. *)
Definition can_deliver (self : t) (ws : ws_id) : bool :=
  match sockets self !! ws with
  | Some w =>
      match WebSocket.client_state w, WebSocket.script w with
      | WebSocket.CONNECTED, false :: _ => false
      | WebSocket.CONNECTED, _ => true
      | _, _ => false
      end
  | None => false
  end.

(** No observer is registered for [task_id], or the send to the
    registered one fails. *)
Definition observer_gone (self : t) (task_id : string) : Prop :=
  match active_connections self !! task_id with
  | Some ws => can_deliver self ws = false
  | None => True
  end.

(** Every pending buffer holds at most ten updates, none a heartbeat. *)
Definition buffers_ok (self : t) : Prop :=
  forall task_id updates,
    pending_updates self !! task_id = Some updates ->
    length updates <= 10 /\
    Forall (fun data => is_heartbeat data = false) updates.

(** The updates of a list that are not heartbeats, in order. *)
Definition important (events : list dict) : list dict :=
  List.filter (fun data => negb (is_heartbeat data)) events.

(** [websocket.client_state] of the object [ws] refers to, if any. *)
Definition socket_state (self : t) (ws : ws_id)
    : option WebSocket.state_name :=
  WebSocket.client_state <$> sockets self !! ws.

(** What [_store_pending_update] leaves in the buffer of [task_id]. *)
Definition stored (self : t) (task_id : string) (data : dict) : list dict :=
  if is_heartbeat data then buffer self task_id
  else last_n 10 (buffer self task_id ++ [data]).

(** The object [ws] refers to exists, is [CONNECTED], and its next
    [send_text] does not raise. *)
Definition delivers (self : t) (ws : ws_id) : bool :=
  match sockets self !! ws with
  | Some w =>
      match WebSocket.client_state w, WebSocket.script w with
      | WebSocket.CONNECTED, false :: _ => false
      | WebSocket.CONNECTED, _ => true
      | _, _ => false
      end
  | None => false
  end.

End ConnectionManager.

(** ** backend/main.py: the task dictionary, the endpoint and the runner *)

Module Backend.
Import Py.
Import ConnectionManager (ws_id).

(** The module-level globals [manager] and [batch_tasks], and the number
    of clock readings made so far. *)
Record state : Type := {
  manager : ConnectionManager.t;
  batch_tasks : gmap string dict;
  clock : nat
}.

Definition set_batch_tasks (f : gmap string dict -> gmap string dict)
    (s : state) : state :=
  {| manager := manager s; batch_tasks := f (batch_tasks s);
     clock := clock s |}.

(** A method of [manager] run on the global. *)
Definition on_manager {A} (m : M ConnectionManager.t A) : M state A :=
  fun s => let '(r, mg) := m (manager s) in
           (r, {| manager := mg; batch_tasks := batch_tasks s;
                  clock := clock s |}).

(** Outcomes of the calls the runner makes outside this program. *)
Record run_env : Type := {
  fraud_system : bool;            (* truth value of the global *)
  read_excel : res nat;           (* [len(pd.read_excel(file_path))] *)
  process_excel : res string;     (* [fraud_system.process_excel(file_path)] *)
  processing_time : Q             (* [time.time() - start_time] *)
}.

Section Formatting.

(** Text produced by the standard library: the [n]-th reading of
    [datetime.now().isoformat()], the ["{:.2f}"] format and [str]. *)
Variable isoformat : nat -> string.
Variable format_2f : value -> string.
Variable str : value -> string.

Definition now : M state string := fun s =>
  (Ret (isoformat (clock s)),
   {| manager := manager s; batch_tasks := batch_tasks s;
      clock := S (clock s) |}).

(** [await manager.send_progress_update(task_id, {..., "timestamp": now})] *)
Definition send (task_id : string) (data : string -> dict) : M state unit :=
  t ← now;
  on_manager (ConnectionManager.send_progress_update task_id (data t)).

(** [v == s] for a string literal [s]. *)
Definition value_is (v : value) (s : string) : bool :=
  match v with
  | VStr x => String.eqb x s
  | _ => false
  end.

(** *** The dictionaries sent over the socket *)

Definition connection_established (task_id t : string) : dict :=
  list_to_map [("type", VStr "connection_established");
               ("task_id", VStr task_id);
               ("message", VStr "Connected to batch processing updates");
               ("timestamp", VStr t)].

Definition completed_event (task_id processing_time output_path t : string)
    : dict :=
  list_to_map [("type", VStr "completed");
               ("task_id", VStr task_id);
               ("status", VStr "completed");
               ("progress", VInt 100);
               ("message", VStr "Batch processing completed successfully!");
               ("processing_time", VStr processing_time);
               ("output_path", VStr output_path);
               ("timestamp", VStr t)].

Definition error_event (task_id : string) (error : value) (t : string)
    : dict :=
  list_to_map [("type", VStr "error");
               ("task_id", VStr task_id);
               ("status", VStr "failed");
               ("error", error);
               ("timestamp", VStr t)].

Definition progress_event (task_id status : string) (progress : value)
    (message t : string) : dict :=
  list_to_map [("type", VStr "progress");
               ("task_id", VStr task_id);
               ("status", VStr status);
               ("progress", progress);
               ("message", VStr message);
               ("timestamp", VStr t)].

(** The [progress] event that also reports [total_items]. *)
Definition found_event (task_id : string) (total_rows : nat) (t : string)
    : dict :=
  <["total_items" := VInt (Z.of_nat total_rows)]>
    (progress_event task_id "processing" (VInt 20)
       ("Found " +:+ str (VInt (Z.of_nat total_rows))
          +:+ " claims to process...") t).

(** [str] of a value used as a path or a message. *)
Definition text_of (v : value) : string :=
  match v with
  | VStr x => x
  | _ => str v
  end.

(** *** [websocket_endpoint]

    The coroutine up to the start of the keep-alive loop: [connect], the
    confirmation and the status snapshot.  If the body raises, the
    [finally] clause runs at once.  [snapshot_event] is the [if]/[elif]
    chain that picks the dictionary to send, if any. *)
Definition snapshot_event (task_id : string) (task_data : dict)
    : option (string -> dict) :=
  let status := default (VStr "unknown") (task_data !! "status") in
  let progress := default (VInt 0) (task_data !! "progress") in
  if value_is status "completed" then
    Some (completed_event task_id
            (format_2f (default (VInt 0) (task_data !! "processing_time"))
               +:+ " seconds")
            (text_of (default (VStr "") (task_data !! "output_path"))))
  else if value_is status "failed" then
    Some (error_event task_id
            (default (VStr "Unknown error") (task_data !! "error")))
  else if value_is status "processing" then
    Some (progress_event task_id "processing" progress
            ("Processing in progress... " +:+ str progress +:+ "%"))
  else None.

Definition status_snapshot (task_id : string) (task_data : dict)
    : M state unit :=
  match snapshot_event task_id task_data with
  | Some event => send task_id event
  | None => mret tt
  end.

Definition websocket_endpoint (websocket : ws_id) (task_id : string)
    : M state unit :=
  on_manager (ConnectionManager.connect websocket task_id) ;;
  try_except
    (send task_id (connection_established task_id) ;;
     tasks ← gets batch_tasks;
     match tasks !! task_id with
     | Some task_data => status_snapshot task_id task_data
     | None => mret tt
     end)
    (fun _ => on_manager (modify (ConnectionManager.disconnect task_id))).

(** *** [upload_excel_file]: the entry it creates in [batch_tasks] *)
Definition upload_excel_file (task_id file_path : string) : M state unit :=
  t ← now;
  modify (set_batch_tasks
    <[task_id := list_to_map [("status", VStr "processing");
                              ("file_path", VStr file_path);
                              ("created_at", VStr t);
                              ("progress", VInt 0)]]>).

(** *** [process_excel_background] *)

(** [batch_tasks[task_id][key] = v] *)
Definition setitem (task_id key : string) (v : value) : M state unit :=
  fun s =>
    match batch_tasks s !! task_id with
    | Some task_data =>
        (Ret tt, set_batch_tasks <[task_id := <[key := v]> task_data]> s)
    | None => (Raise (Exn "KeyError" task_id), s)
    end.

(** [batch_tasks[task_id].update(e)] *)
Definition update_task (task_id : string) (e : dict) : M state unit :=
  fun s =>
    match batch_tasks s !! task_id with
    | Some task_data =>
        (Ret tt, set_batch_tasks <[task_id := update e task_data]> s)
    | None => (Raise (Exn "KeyError" task_id), s)
    end.

(** [await asyncio.sleep(_)]: a point where other coroutines may run. *)
Definition sleep : M state unit := mret tt.

Definition processing_steps : list (Z * string) :=
  [(30, "Validating claim data...");
   (40, "Initializing AI agents...");
   (50, "Running fraud detection analysis...");
   (70, "Evaluating risk factors...");
   (85, "Generating recommendations...");
   (95, "Finalizing results...")]%Z.

Definition unavailable : string :=
  "Fraud detection system not available. Please check OpenAI API key configuration.".

(** The statements of the [try] block, one list element per statement
    (a loop iteration contributes its three statements). *)
Definition body (env : run_env) (task_id : string) : list (M state unit) :=
  [ sleep;
    send task_id (progress_event task_id "starting" (VInt 0)
                    "Initializing batch processing...");
    setitem task_id "status" (VStr "processing");
    setitem task_id "progress" (VInt 5);
    (if fraud_system env then mret tt
     else send task_id (error_event task_id (VStr unavailable)) ;;
          raise (Exn "Exception" unavailable));
    send task_id (progress_event task_id "processing" (VInt 10)
                    "Loading Excel file...");
    try_except
      (match read_excel env with
       | Ret total_rows => send task_id (found_event task_id total_rows)
       | Raise e => raise e
       end)
      (fun _ => send task_id (progress_event task_id "processing" (VInt 20)
                                "Processing Excel file...")) ]
  ++ flat_map (fun '(progress, message) =>
       [ sleep;
         setitem task_id "progress" (VInt progress);
         send task_id (progress_event task_id "processing" (VInt progress)
                         message) ]) processing_steps
  ++ match process_excel env with
     | Raise e => [ raise e ]
     | Ret output_path =>
       [ mret tt;
         send task_id
           (completed_event task_id
              (format_2f (VFloat (processing_time env)) +:+ " seconds")
              output_path);
         (t ← now;
          update_task task_id
            (list_to_map [("status", VStr "completed");
                          ("output_path", VStr output_path);
                          ("completed_at", VStr t);
                          ("progress", VInt 100);
                          ("processing_time",
                           VFloat (processing_time env))])) ]
     end.

(** The statements of the [except Exception as e] block. *)
Definition handler (task_id : string) (e : exn) : list (M state unit) :=
  let error_msg := match e with Exn _ msg => msg end in
  [ send task_id (error_event task_id (VStr error_msg));
    (t ← now;
     update_task task_id
       (list_to_map [("status", VStr "failed");
                     ("error", VStr error_msg);
                     ("completed_at", VStr t)])) ].

(** Statements run in sequence. *)
Fixpoint run (stmts : list (M state unit)) : M state unit :=
  match stmts with
  | [] => mret tt
  | stmt :: rest => stmt ;; run rest
  end.

Definition process_excel_background (env : run_env) (task_id : string)
    : M state unit :=
  try_except (run (body env task_id))
             (fun e => run (handler task_id e)).

(** The states that follow each executed statement, up to and including
    the one that raises. *)
Fixpoint states_of (stmts : list (M state unit)) (s : state)
    : res unit * list state :=
  match stmts with
  | [] => (Ret tt, [])
  | stmt :: rest =>
      match stmt s with
      | (Ret _, s') =>
          let '(r, tr) := states_of rest s' in (r, s' :: tr)
      | (Raise e, s') => (Raise e, [s'])
      end
  end.

(** The successive states of one run of [process_excel_background]
    started in [s], [s] included. *)
Definition lifetime (env : run_env) (task_id : string) (s : state)
    : list state :=
  match states_of (body env task_id) s with
  | (Ret _, tr) => s :: tr
  | (Raise e, tr) =>
      s :: tr ++ (states_of (handler task_id e) (List.last tr s)).2
  end.

(** [batch_tasks[task_id]["status"]] and [["progress"]] *)
Definition status_of (s : state) (task_id : string) : option value :=
  task_data ← batch_tasks s !! task_id; task_data !! "status".

Definition progress_of (s : state) (task_id : string) : option value :=
  task_data ← batch_tasks s !! task_id; task_data !! "progress".

(** A value that is the integer [n]. *)
Definition as_int (v : option value) : option Z :=
  match v with
  | Some (VInt n) => Some n
  | _ => None
  end.

(** The stored status and progress of a task. *)
Definition view (task_id : string) (s : state)
    : option value * option value :=
  (status_of s task_id, progress_of s task_id).

(** [stmt], run where the task has an entry, completes normally, keeps
    the entry, and changes the stored status and progress by [g]. *)
Definition effect_on (task_id : string) (stmt : M state unit)
    (g : option value * option value -> option value * option value)
    : Prop :=
  forall s, is_Some (batch_tasks s !! task_id) ->
    exists s', stmt s = (Ret tt, s') /\
               is_Some (batch_tasks s' !! task_id) /\
               view task_id s' = g (view task_id s).

(** [stmt], run where the task has an entry, raises [e] and leaves the
    stored status and progress as they were. *)
Definition raises_on (task_id : string) (stmt : M state unit) (e : exn)
    : Prop :=
  forall s, is_Some (batch_tasks s !! task_id) ->
    exists s', stmt s = (Raise e, s') /\
               is_Some (batch_tasks s' !! task_id) /\
               view task_id s' = view task_id s.

(** The successive values obtained by applying a list of functions. *)
Fixpoint scan {A} (gs : list (A -> A)) (a : A) : list A :=
  match gs with
  | [] => []
  | g :: gs' => g a :: scan gs' (g a)
  end.

Definition set_status (v : string)
    : option value * option value -> option value * option value :=
  fun '(_, progress) => (Some (VStr v), progress).

Definition set_progress (n : Z)
    : option value * option value -> option value * option value :=
  fun '(status, _) => (status, Some (VInt n)).

(** What the statements of [body] up to the call of [process_excel] do to
    the stored status and progress. *)
Definition effects_before_processing
    : list (option value * option value -> option value * option value) :=
  [id; id; set_status "processing"; set_progress 5; id; id; id]
  ++ flat_map (fun '(progress, _) => [id; set_progress progress; id])
       processing_steps.

(** What the statements executed in one run do to the stored status and
    progress: those of [body] up to a raised exception, then those of
    [handler]. *)
Definition effects (env : run_env)
    : list (option value * option value -> option value * option value) :=
  if fraud_system env then
    match process_excel env with
    | Ret _ =>
        effects_before_processing
        ++ [id; id; fun _ => (Some (VStr "completed"), Some (VInt 100))]
    | Raise _ =>
        effects_before_processing ++ [id] ++ [id; set_status "failed"]
    end
  else
    [id; id; set_status "processing"; set_progress 5; id]
    ++ [id; set_status "failed"].

(** *** [send_periodic_heartbeat]

    [ticks] is the number of intervals that elapse before the task is
    cancelled; the cancellation arrives during a sleep. *)
Definition heartbeat_event (task_id t : string) : dict :=
  list_to_map [("type", VStr "heartbeat");
               ("task_id", VStr task_id);
               ("message", VStr "Connection alive");
               ("timestamp", VStr t)].

Fixpoint heartbeat_loop (task_id : string) (ticks : nat) : M state unit :=
  match ticks with
  | O => mret tt
  | S ticks' =>
      sleep ;;
      send task_id (heartbeat_event task_id) ;;
      heartbeat_loop task_id ticks'
  end.

Definition send_periodic_heartbeat (task_id : string) (ticks : nat)
    : M state unit :=
  try_except (heartbeat_loop task_id ticks) (fun _ => mret tt).

(** *** The status and download routes *)

(** [HTTPException(status_code=..., detail=...)] *)
Definition HTTPException (status_code detail : string) : exn :=
  Exn ("HTTPException " +:+ status_code) detail.

Definition get_batch_status (task_id : string) : M state dict :=
  tasks ← gets batch_tasks;
  match tasks !! task_id with
  | None => raise (HTTPException "404" "Task not found")
  | Some task => mret task
  end.

(** [d[key]] *)
Definition getitem (d : dict) (key : string) : M state value :=
  match d !! key with
  | Some v => mret v
  | None => raise (Exn "KeyError" key)
  end.

(** [download_results]; [path_exists] is [os.path.exists] and the value
    returned is the path handed to [FileResponse]. *)
Definition download_results (path_exists : value -> bool)
    (task_id : string) : M state value :=
  tasks ← gets batch_tasks;
  match tasks !! task_id with
  | None => raise (HTTPException "404" "Task not found")
  | Some task =>
      status ← getitem task "status";
      if negb (value_is status "completed")
      then raise (HTTPException "400" "Task not completed")
      else
        output_path ← getitem task "output_path";
        if negb (path_exists output_path)
        then raise (HTTPException "404" "Results file not found")
        else mret output_path
  end.

(** *** The upload route

    [upload_excel_file] above is the statement of this route that creates
    the task.  [fraud_system] is the truth value of the global, [task_id]
    the fresh [uuid4], [stored] the outcome of creating the directory and
    writing the file.  The result is the response together with the
    arguments of the background run that has been scheduled. *)
Variable str_exn : exn -> string.

Record BatchProcessResponse : Type := {
  task_id : string;
  status : string;
  message : string
}.

Definition upload_excel_file_route (fraud_system : bool)
    (filename task_id : string) (stored : res unit)
    : M state (BatchProcessResponse * (string * string)) :=
  if negb fraud_system
  then raise (HTTPException "503"
                "Fraud detection system not available. Please check OpenAI API key configuration.")
  else
    try_except
      (if negb (endswith filename ".xlsx" || endswith filename ".xls")
       then raise (HTTPException "400"
                     "File must be an Excel file (.xlsx or .xls)")
       else
         let file_path :=
           path_join "uploads" (task_id +:+ "_" +:+ filename) in
         match stored with
         | Raise e => raise e
         | Ret _ =>
             upload_excel_file task_id file_path ;;
             mret ({| task_id := task_id; status := "processing";
                      message :=
                        "File uploaded successfully. Processing started." |},
                   (task_id, file_path))
         end)
      (fun e => raise (HTTPException "500" (str_exn e))).

(** *** What an observer of a run receives *)

(** The task has a registered observer whose socket is connected and
    whose sends do not fail. *)
Definition observed_by (ws : ws_id) (task_id : string) (s : state) : Prop :=
  ConnectionManager.active_connections (manager s) !! task_id = Some ws /\
  exists sent0,
    ConnectionManager.sockets (manager s) !! ws
    = Some {| WebSocket.client_state := WebSocket.CONNECTED;
              WebSocket.sent := sent0; WebSocket.script := [] |}.

(** The type and the progress of an event. *)
Definition kind (event : dict) : option value * option value :=
  (event !! "type", event !! "progress").

Definition progress_kind (n : Z) : option value * option value :=
  (Some (VStr "progress"), Some (VInt n)).

(** The types and progress values of what socket [ws] has received. *)
Definition received (ws : ws_id) (s : state)
    : list (option value * option value) :=
  kind <$> ConnectionManager.sent_to (manager s) ws.

(** [stmt], run where the task has an entry and such an observer,
    completes normally, keeps both, and delivers events of kinds [ks]. *)
Definition emits (ws : ws_id) (task_id : string) (stmt : M state unit)
    (ks : list (option value * option value)) : Prop :=
  forall s,
    observed_by ws task_id s -> is_Some (batch_tasks s !! task_id) ->
    exists s',
      stmt s = (Ret tt, s') /\
      observed_by ws task_id s' /\ is_Some (batch_tasks s' !! task_id) /\
      received ws s' = received ws s ++ ks.

(** The same for a statement that raises [e]. *)
Definition emits_raising (ws : ws_id) (task_id : string)
    (stmt : M state unit) (e : exn)
    (ks : list (option value * option value)) : Prop :=
  forall s,
    observed_by ws task_id s -> is_Some (batch_tasks s !! task_id) ->
    exists s',
      stmt s = (Raise e, s') /\
      observed_by ws task_id s' /\ is_Some (batch_tasks s' !! task_id) /\
      received ws s' = received ws s ++ ks.

(** *** What a run leaves in the record of its task *)

(** [stmt], run where the task has a record, completes normally, writes
    at most the [status] and the [progress] of that record and leaves
    the records of the other tasks alone. *)
Definition keeps_fields (task_id : string) (stmt : M state unit) : Prop :=
  forall s d,
    batch_tasks s !! task_id = Some d ->
    exists s' d',
      stmt s = (Ret tt, s') /\
      batch_tasks s' !! task_id = Some d' /\
      (forall key, key <> "status" -> key <> "progress" ->
                   d' !! key = d !! key) /\
      (forall other, other <> task_id ->
                     batch_tasks s' !! other = batch_tasks s !! other).

(** What the [try] block of the runner ends with: the path returned by
    [fraud_system.process_excel], or the exception raised there or by
    the check of [fraud_system]. *)
Definition outcome (env : run_env) : res string :=
  if fraud_system env then process_excel env
  else Raise (Exn "Exception" unavailable).

(** The argument of the [update] call that ends a run, [t] being the
    time read there. *)
Definition final_fields (env : run_env) (t : string) : dict :=
  match outcome env with
  | Ret output_path =>
      list_to_map [("status", VStr "completed");
                   ("output_path", VStr output_path);
                   ("completed_at", VStr t);
                   ("progress", VInt 100);
                   ("processing_time", VFloat (processing_time env))]
  | Raise (Exn _ error_msg) =>
      list_to_map [("status", VStr "failed");
                   ("error", VStr error_msg);
                   ("completed_at", VStr t)]
  end.

(** *** What a run leaves in the buffer when nobody observes it *)

(** The types and progress values of the updates buffered for a task. *)
Definition buffered (task_id : string) (s : state)
    : list (option value * option value) :=
  kind <$> ConnectionManager.buffer (manager s) task_id.

(** The task has an entry, no observer and at most ten buffered
    updates. *)
Definition unobserved (task_id : string) (s : state) : Prop :=
  ConnectionManager.active_connections (manager s) !! task_id = None /\
  is_Some (batch_tasks s !! task_id) /\
  length (ConnectionManager.buffer (manager s) task_id) <= 10.

(** From [s] to [s'] no socket has been touched, and updates of kinds
    [ks] have been put in the buffer of the task, of which the last ten
    are kept. *)
Definition stored_in (task_id : string) (s s' : state)
    (ks : list (option value * option value)) : Prop :=
  ConnectionManager.sockets (manager s')
  = ConnectionManager.sockets (manager s) /\
  buffered task_id s' = last_n 10 (buffered task_id s ++ ks).

(** [stmt], run where the task is unobserved, completes normally, leaves
    it unobserved and stores updates of kinds [ks]. *)
Definition stores (task_id : string) (stmt : M state unit)
    (ks : list (option value * option value)) : Prop :=
  forall s,
    unobserved task_id s ->
    exists s',
      stmt s = (Ret tt, s') /\ unobserved task_id s' /\
      stored_in task_id s s' ks.

(** The same for a statement that raises [e]. *)
Definition stores_raising (task_id : string) (stmt : M state unit)
    (e : exn) (ks : list (option value * option value)) : Prop :=
  forall s,
    unobserved task_id s ->
    exists s',
      stmt s = (Raise e, s') /\ unobserved task_id s' /\
      stored_in task_id s s' ks.

(** The kinds of the updates a run emits, in order. *)
Definition run_kinds (env : run_env) : list (option value * option value) :=
  if fraud_system env then
    (progress_kind <$> [0; 10; 20; 30; 40; 50; 70; 85; 95]%Z)
    ++ match process_excel env with
       | Ret _ => [(Some (VStr "completed"), Some (VInt 100))]
       | Raise _ => [(Some (VStr "error"), None)]
       end
  else [progress_kind 0; (Some (VStr "error"), None);
        (Some (VStr "error"), None)].

End Formatting.

Definition init : state :=
  {| manager := ConnectionManager.init; batch_tasks := ∅; clock := 0 |}.

(** *** Sample runs *)

(** Stand-ins for the library's formatting. *)
Definition sample_isoformat (n : nat) : string := "2025-01-01T00:00:00".
Definition sample_format_2f (v : value) : string := "1.00".
Definition sample_str (v : value) : string :=
  match v with
  | VStr x => x
  | _ => "n"
  end.

(** A run in which everything outside the program succeeds. *)
Definition env_ok : run_env :=
  {| fraud_system := true; read_excel := Ret 3;
     process_excel := Ret "uploads/claims_processed.xlsx";
     processing_time := 1 |}.

(** A state in which task [t] has the given status and progress. *)
Definition with_task (status : string) (progress : Z) : state :=
  {| manager := ConnectionManager.init;
     batch_tasks := {[ "t" := list_to_map [("status", VStr status);
                                           ("progress", VInt progress)] ]};
     clock := 0 |}.

(** Task [t] has been uploaded and run to completion with no observer
    connected; a socket, numbered 0, now asks to connect. *)
Definition reconnecting : state :=
  let uploaded :=
    (upload_excel_file sample_isoformat "t" "uploads/claims.xlsx" init).2 in
  let finished :=
    (process_excel_background sample_isoformat sample_format_2f sample_str
       env_ok "t" uploaded).2 in
  {| manager :=
       ConnectionManager.set_socket 0
         {| WebSocket.client_state := WebSocket.CONNECTING;
            WebSocket.sent := []; WebSocket.script := [] |}
         (manager finished);
     batch_tasks := batch_tasks finished;
     clock := clock finished |}.

(** [event["type"] == kind] *)
Definition has_type (kind : string) (event : dict) : bool :=
  match event !! "type" with
  | Some v => value_is v kind
  | None => false
  end.

(** Task [t] has been uploaded and socket 0, whose sends never fail, is
    connected as its observer. *)
Definition observed : state :=
  let uploaded :=
    (upload_excel_file sample_isoformat "t" "uploads/claims.xlsx" init).2 in
  {| manager :=
       {| ConnectionManager.sockets :=
            {[ 0 := {| WebSocket.client_state := WebSocket.CONNECTED;
                       WebSocket.sent := []; WebSocket.script := [] |} ]};
          ConnectionManager.active_connections := {[ "t" := 0 ]};
          ConnectionManager.pending_updates := ∅ |};
     batch_tasks := batch_tasks uploaded;
     clock := clock uploaded |}.

(** A run in which [fraud_system.process_excel] raises. *)
Definition env_raising : run_env :=
  {| fraud_system := true; read_excel := Ret 3;
     process_excel := Raise (Exn "ValueError" "Invalid Excel file structure");
     processing_time := 1 |}.

(** [os.path.exists] where only the sample results file exists. *)
Definition sample_path_exists (v : value) : bool :=
  value_is v "uploads/claims_processed.xlsx".

(** A stand-in for [str] of an exception: its message. *)
Definition sample_str_exn (e : exn) : string :=
  match e with Exn _ msg => msg end.

End Backend.

(** ** agents_excel.py: where the results go, and the processing of claims *)

Module ExcelProcessor.
Import Py.

(** [save_results]: the path the results are written to, which is also
    the value the method returns. *)
Definition output_path (input_path : string) : string :=
  replace ".xlsx" "_processed.xlsx" input_path.

End ExcelProcessor.

Module CorgiAgentSystem.
Import Py.

(** The dictionary [process_claim] returns.  A key the dictionary lacks
    is [None]; the keys that copy an argument ([claimant], [claim_text],
    [metadata]) and [agent_versions] are left out. *)
Record report : Type := {
  claim_id : string;
  decision : string;
  decision_timestamp : string;
  processing_time_seconds : option Q;
  agent_scores : option MCPIntegration.detail;
  error : option string
}.

(** The reply handler that [make_advanced_handler agent_name] builds,
    called with a dictionary [context]: [claim_id] is
    [context.get('claim_id')], [score] the outcome of
    [float(context.get('score', 0))], [md] the metadata it assembles. *)
Definition handler (agent_name claim_id : string) (score : res Q)
    (md : gmap string string) (now : string) : M MCPIntegration.t bool :=
  try_except
    (match score with
     | Ret s =>
         MCPIntegration.update_score claim_id agent_name s (Some md) now ;;
         mret tt
     | Raise e => raise e
     end)
    (fun _ => mret tt) ;;
  mret false.

Section Reporting.

(** [str(e)] for an exception, and [round(_, 2)]. *)
Variable str_exn : exn -> string.
Variable round2 : Q -> Q.

(** [process_claim] from its [try] statement on.  [claim_id] is the
    identifier computed at entry, [chat] what the statements up to and
    including [initiate_chat] do to [self.mcp] and whether they raise,
    [t] the time of the decision and [elapsed] the rounded duration. *)
Definition process_claim (cfg : Config.t) (chat : M MCPIntegration.t unit)
    (claim_id t : string) (elapsed : Q) : M MCPIntegration.t report :=
  try_except
    (chat ;;
     '(is_fraud, agent_scores) ←
       MCPIntegration.get_consensus round2 cfg claim_id;
     mret {| claim_id := claim_id;
             decision := if is_fraud : bool then "REJECT" else "APPROVE";
             decision_timestamp := t;
             processing_time_seconds := Some elapsed;
             agent_scores := Some agent_scores;
             error := None |})
    (fun e =>
       mret {| claim_id := claim_id;
               decision := "ERROR";
               decision_timestamp := t;
               processing_time_seconds := None;
               agent_scores := None;
               error := Some (str_exn e) |}).

(** A row of the sheet as [process_excel] uses it: the arguments of the
    [process_claim] call made for it. *)
Record row : Type := {
  r_claim_id : string;
  r_chat : M MCPIntegration.t unit;
  r_time : string;
  r_elapsed : Q
}.

(** The [for] loop of [process_excel]. *)
Fixpoint process_rows (cfg : Config.t) (rows : list row)
    (results : list report) : M MCPIntegration.t (list report) :=
  match rows with
  | [] => mret results
  | r :: rows' =>
      result ← process_claim cfg (r_chat r) (r_claim_id r) (r_time r)
                 (r_elapsed r);
      process_rows cfg rows' (results ++ [result])
  end.

(** [process_excel].  [valid] is the answer of
    [ExcelProcessor.validate_input], [rows] the outcome of reading the
    sheet, [save] that of writing the results. *)
Definition process_excel (cfg : Config.t) (valid : bool)
    (rows : res (list row)) (save : list report -> res unit)
    (file_path : string) : M MCPIntegration.t string :=
  try_except
    (if negb valid
     then raise (Exn "ValueError" "Invalid Excel file structure")
     else
       match rows with
       | Raise e => raise e
       | Ret rows =>
           results ← process_rows cfg rows [];
           match save results with
           | Raise e => raise e
           | Ret _ => mret (ExcelProcessor.output_path file_path)
           end
       end)
    (fun e => raise e).

(** [results] are the reports of [rows], in order, the chats having run
    one after the other from [self] to [self']: a row whose chat raises is
    reported as [ERROR], with the text of the exception and without
    scores or duration; any other row is reported as [REJECT] or
    [APPROVE], as the consensus on the votes present after its chat says,
    with the detail of that consensus and the duration. *)
Fixpoint reported (cfg : Config.t) (rows : list row)
    (results : list report) (self self' : MCPIntegration.t) : Prop :=
  match rows, results with
  | [], [] => self' = self
  | r :: rows', result :: results' =>
      let after := (r_chat r self).2 in
      let consensus :=
        MCPIntegration.consensus_of round2 cfg (r_claim_id r) after in
      claim_id result = r_claim_id r /\
      decision_timestamp result = r_time r /\
      match (r_chat r self).1 with
      | Raise e =>
          decision result = "ERROR" /\
          error result = Some (str_exn e) /\
          agent_scores result = None /\
          processing_time_seconds result = None
      | Ret _ =>
          decision result = (if consensus.1 then "REJECT" else "APPROVE") /\
          error result = None /\
          agent_scores result = Some consensus.2 /\
          processing_time_seconds result = Some (r_elapsed r)
      end /\
      reported cfg rows' results' after self'
  | _, _ => False
  end.

End Reporting.

(** Stand-ins and samples: [str] of an exception as its message, a chat
    in which three agents report on claim [X], and one that fails. *)
Definition sample_str_exn (e : exn) : string :=
  match e with Exn _ msg => msg end.

Definition sample_chat : M MCPIntegration.t unit :=
  handler "social" "X" (Ret (8 # 10)%Q) ∅ "t1" ;;
  handler "network" "X" (Ret (7 # 10)%Q) ∅ "t2" ;;
  handler "medical" "X" (Ret (7 # 10)%Q) ∅ "t3" ;;
  handler "geospatial" "X" (Raise (Exn "ValueError" "could not convert"))
    ∅ "t4" ;;
  mret tt.

Definition failing_chat : M MCPIntegration.t unit :=
  raise (Exn "TimeoutError" "Request timed out").

End CorgiAgentSystem.

(** ** backend/main.py: the route that analyses one claim

    The state is the [mcp] of the global [fraud_system]. *)

Module ClaimRoute.
Import Py.

Record ClaimResponse : Type := {
  claim_id : string;
  decision : string;
  confidence : Q;
  processing_time : Q;
  agent_scores : MCPIntegration.detail;
  risk_factors : list string;
  recommendations : list string
}.

Section Formatting.

(** The ["{:.2f}"] format of a score, [str] of an exception, the order
    in which [scores.items()] yields the entries of a dictionary, and
    [round(_, 2)]. *)
Variable format_2f : Q -> string.
Variable str_exn : exn -> string.
Variable items : gmap string Q -> list (string * Q).
Variable round2 : Q -> Q.

(** [x > y] *)
Definition gt (x y : Q) : bool := negb (Qle_bool x y).

(** One iteration of the loop over [scores.items()]. *)
Definition sort_score (acc : list string * list string)
    (item : string * Q) : list string * list string :=
  let '(risk_factors, recommendations) := acc in
  let '(agent, score) := item in
  if gt score (7 # 10) then
    (risk_factors
       ++ ["High risk detected by " +:+ agent +:+ " (score: "
             +:+ format_2f score +:+ ")"],
     recommendations)
  else if gt score (5 # 10) then
    (risk_factors,
     recommendations
       ++ ["Monitor " +:+ agent +:+ " indicators (score: "
             +:+ format_2f score +:+ ")"])
  else acc.

(** [result.get("agent_scores", {}).get("scores")], an absent or empty
    dictionary giving no iteration at all. *)
Definition scores_of (result : CorgiAgentSystem.report)
    : list (string * Q) :=
  match CorgiAgentSystem.agent_scores result with
  | Some (MCPIntegration.Detail scores _ _ _ _) => items scores
  | _ => []
  end.

(** [analyze_single_claim]; [fraud_system] is the truth value of the
    global, the other arguments those of [process_claim]. *)
Definition analyze_single_claim (fraud_system : bool) (cfg : Config.t)
    (chat : M MCPIntegration.t unit) (claim_id t : string) (elapsed : Q)
    : M MCPIntegration.t ClaimResponse :=
  if negb fraud_system
  then raise (Backend.HTTPException "503"
                "Fraud detection system not available")
  else
    try_except
      (result ← CorgiAgentSystem.process_claim str_exn round2 cfg chat
                  claim_id t elapsed;
       let '(risk_factors, recommendations) :=
         foldl sort_score ([], []) (scores_of result) in
       let recommendations :=
         if String.eqb (CorgiAgentSystem.decision result) "REJECT"
         then recommendations
                ++ ["Recommend manual review";
                    "Contact claimant for additional documentation"]
         else recommendations in
       match CorgiAgentSystem.agent_scores result with
       | None => raise (Exn "KeyError" "'agent_scores'")
       | Some scores =>
           mret {| claim_id := CorgiAgentSystem.claim_id result;
                   decision := CorgiAgentSystem.decision result;
                   confidence :=
                     match scores with
                     | MCPIntegration.Detail _ average_score _ _ _ =>
                         average_score
                     | MCPIntegration.EmptyDetail => 0%Q
                     end;
                   processing_time :=
                     default 0%Q
                       (CorgiAgentSystem.processing_time_seconds result);
                   agent_scores := scores;
                   risk_factors := risk_factors;
                   recommendations := recommendations |}
       end)
      (fun e => raise (Backend.HTTPException "500" (str_exn e))).

End Formatting.

(** A stand-in for the format of a score. *)
Definition sample_format_2f (q : Q) : string := "0.00".

End ClaimRoute.

(** ** backend/main.py: the statistics route *)

Module StatsRoute.
Import Py.

(** The dictionary the route returns, without [agent_versions], which
    is a constant of [CorgiAgentSystem]. *)
Record stats : Type := {
  total_processed : nat;
  recent_activity : list MCPIntegration.history_entry;
  system_status : string;
  last_updated : string
}.

Section Formatting.

Variable str_exn : exn -> string.

(** [get_system_stats]; [fraud_system] is the truth value of the global,
    whose [mcp] is the state, and [now] the time read. *)
Definition get_system_stats (fraud_system : bool) (now : string)
    : M MCPIntegration.t stats :=
  try_except
    (if negb fraud_system
     then raise (Exn "AttributeError"
                   "'NoneType' object has no attribute 'agent_versions'")
     else
       history ← gets MCPIntegration.history;
       mret {| total_processed := length history;
               recent_activity :=
                 match history with
                 | [] => []
                 | _ => last_n 10 history
                 end;
               system_status := "operational";
               last_updated := now |})
    (fun e => raise (Backend.HTTPException "500" (str_exn e))).

End Formatting.

End StatsRoute.


(** * Properties *)

(** Unfolds the monad's operations. *)
Ltac py_unfold :=
  unfold mbind, M_bind, Py.bind, mret, M_ret, Py.ret, Py.gets, Py.modify,
    Py.try_except, Py.raise in *.

(** ** The score store *)

Module MCPIntegrationSpec.
Import Py MCPIntegration.

Lemma valid_score_iff (s : Q) :
  valid_score s = true <-> (0 <= s)%Q /\ (s <= 1)%Q.
Proof.
  unfold valid_score. rewrite andb_true_iff, !Qle_bool_iff. reflexivity.
Qed.

Lemma invalid_score_iff (s : Q) :
  valid_score s = false <-> (s < 0)%Q \/ (1 < s)%Q.
Proof.
  rewrite <- not_true_iff_false, valid_score_iff. split.
  - intros Hn. destruct (Qlt_le_dec s 0) as [?|H0]; [by left|].
    destruct (Qlt_le_dec 1 s) as [?|H1]; [by right|]. tauto.
  - intros [H|H] [H0 H1].
    + exact (Qlt_not_le _ _ H H0).
    + exact (Qlt_not_le _ _ H H1).
Qed.

Lemma update_score_accepts claim_id agent s md now self :
  valid_score s = true ->
  update_score claim_id agent s md now self
  = (Ret true, store_vote claim_id agent s md now self).
Proof. intros Hv. unfold update_score, try_except. by rewrite Hv. Qed.

Lemma update_score_rejects claim_id agent s md now self :
  valid_score s = false ->
  update_score claim_id agent s md now self = (Ret false, self).
Proof. intros Hv. unfold update_score, try_except. by rewrite Hv. Qed.

Lemma store_vote_scores claim_id agent s md now self :
  scores (store_vote claim_id agent s md now self) !! claim_id
  = Some (<[agent := {| score := s; timestamp := now;
                        metadata := default ∅ md |}]>
            (default ∅ (scores self !! claim_id))).
Proof.
  unfold store_vote; cbn [scores].
  rewrite lookup_insert_eq. do 2 f_equal.
  destruct (scores self !! claim_id) as [m|] eqn:E; cbn.
  - by rewrite E.
  - by rewrite lookup_insert_eq.
Qed.

Lemma store_vote_latest claim_id agent s md now self :
  latest_score (store_vote claim_id agent s md now self) claim_id agent
  = Some s.
Proof.
  unfold latest_score. rewrite store_vote_scores; cbn.
  by rewrite lookup_insert_eq.
Qed.

(** In the items of a dictionary a key occurs once. *)
Lemma filter_key_unique {A} (l : list (string * A)) (k : string) (x : A) :
  NoDup l.*1 -> (k, x) ∈ l ->
  List.filter (fun kv => String.eqb kv.1 k) l = [(k, x)].
Proof.
  induction l as [|[k' y] l IH]; intros Hnd Hin.
  - by apply elem_of_nil in Hin.
  - cbn in Hnd. apply NoDup_cons in Hnd as [Hk' Hnd].
    assert (Hrest : forall z, (k', z) ∈ l -> False).
    { intros z Hz. apply Hk'. apply list_elem_of_fmap. by exists (k', z). }
    cbn [List.filter fst]. apply elem_of_cons in Hin as [Heq|Hin].
    + injection Heq as <- <-. rewrite String.eqb_refl. f_equal.
      clear IH Hnd Hk'. induction l as [|[k'' z] l IH]; [done|].
      cbn [List.filter fst]. destruct (String.eqb_spec k'' k) as [->|_].
      * exfalso. apply (Hrest z). left.
      * apply IH. intros z' Hz'. apply (Hrest z'). by right.
    + destruct (String.eqb_spec k' k) as [->|_].
      * exfalso. by apply (Hrest x).
      * by apply IH.
Qed.

Lemma active_votes_lookup self claim_id agent m v :
  scores self !! claim_id = Some m -> m !! agent = Some v ->
  active_votes self claim_id agent = [v].
Proof.
  intros Hm Hv. unfold active_votes. rewrite Hm; cbn [default].
  rewrite (filter_key_unique _ agent v); [done| |].
  - apply NoDup_fst_map_to_list.
  - by apply elem_of_map_to_list.
Qed.

(** A claim has an entry in [scores] exactly when a vote for it has been
    recorded, and such an entry is never the empty dictionary. *)
Lemma reachable_scores self :
  reachable self ->
  forall claim_id m, scores self !! claim_id = Some m ->
    m <> ∅ /\ exists e, e ∈ history self /\ h_claim_id e = claim_id.
Proof.
  induction 1 as [|self c a s md now Hr IH]; intros claim_id m Hm.
  - cbn in Hm. by rewrite lookup_empty in Hm.
  - destruct (valid_score s) eqn:Hv.
    + rewrite update_score_accepts in Hm |- * by done. cbn [snd] in *.
      destruct (decide (c = claim_id)) as [->|Hne].
      * rewrite store_vote_scores in Hm. injection Hm as <-. split.
        { apply insert_non_empty. }
        exists {| h_claim_id := claim_id; h_agent := a; h_score := s;
                  h_timestamp := now; h_metadata := md |}.
        split; [|reflexivity]. cbn [store_vote history].
        apply elem_of_app. right. by apply list_elem_of_singleton.
      * assert (scores self !! claim_id = Some m) as Hm'.
        { revert Hm. unfold store_vote; cbn [scores].
          rewrite lookup_insert_ne by done.
          destruct (scores self !! c); [done|].
          by rewrite lookup_insert_ne. }
        destruct (IH _ _ Hm') as [Hne' (e & He & Hc)]. split; [done|].
        exists e. split; [|done]. cbn [store_vote history].
        apply elem_of_app. by left.
    + rewrite update_score_rejects in Hm |- * by done. by apply IH.
Qed.

(** C6: [update_score] rejects a score below 0 or above 1 by returning
    [False] with the store (latest votes and history) untouched; a score
    in [0, 1] makes it return [True], become the latest score of
    [(claim_id, agent)] and add exactly one entry at the end of
    [history]. *)
Theorem update_score_validates claim_id agent s md now self :
  ((s < 0)%Q \/ (1 < s)%Q ->
     update_score claim_id agent s md now self = (Ret false, self)) /\
  ((0 <= s)%Q /\ (s <= 1)%Q ->
     exists self',
       update_score claim_id agent s md now self = (Ret true, self') /\
       latest_score self' claim_id agent = Some s /\
       history self'
       = history self ++ [{| h_claim_id := claim_id; h_agent := agent;
                             h_score := s; h_timestamp := now;
                             h_metadata := md |}]).
Proof.
  split.
  - intros Hs. apply update_score_rejects. by apply invalid_score_iff.
  - intros Hs. apply valid_score_iff in Hs.
    exists (store_vote claim_id agent s md now self).
    split; [by apply update_score_accepts|].
    split; [apply store_vote_latest|reflexivity].
Qed.

Lemma update_score_validates_witness :
  update_score "X" "A" (3 # 2) None "t0" init = (Ret false, init) /\
  exists self',
    update_score "X" "A" (1 # 2) None "t0" init = (Ret true, self') /\
    latest_score self' "X" "A" = Some (1 # 2)%Q /\
    history self'
    = history init ++ [{| h_claim_id := "X"; h_agent := "A";
                          h_score := (1 # 2)%Q; h_timestamp := "t0";
                          h_metadata := None |}].
Proof.
  split.
  - apply (update_score_validates "X" "A" (3 # 2) None "t0" init).
    right. reflexivity.
  - apply (update_score_validates "X" "A" (1 # 2) None "t0" init).
    split; discriminate.
Defined.

(** C8: two accepted votes of the same agent for the same claim leave one
    stored vote for that agent, carrying the second score, while
    [history] has gained both entries, in order. *)
Theorem revote_overwrites claim_id agent s1 s2 md1 md2 t1 t2 self :
  (0 <= s1)%Q /\ (s1 <= 1)%Q ->
  (0 <= s2)%Q /\ (s2 <= 1)%Q ->
  let self1 := (update_score claim_id agent s1 md1 t1 self).2 in
  let self2 := (update_score claim_id agent s2 md2 t2 self1).2 in
  score <$> active_votes self2 claim_id agent = [s2] /\
  latest_score self2 claim_id agent = Some s2 /\
  history self2
  = history self ++ [{| h_claim_id := claim_id; h_agent := agent;
                        h_score := s1; h_timestamp := t1;
                        h_metadata := md1 |};
                     {| h_claim_id := claim_id; h_agent := agent;
                        h_score := s2; h_timestamp := t2;
                        h_metadata := md2 |}].
Proof.
  intros H1%valid_score_iff H2%valid_score_iff self1 self2.
  subst self1 self2. rewrite !update_score_accepts by done. cbn [snd].
  split; [|split].
  - rewrite (active_votes_lookup _ _ _ _ _ (store_vote_scores _ _ _ _ _ _)
               (lookup_insert_eq _ _ _)).
    reflexivity.
  - apply store_vote_latest.
  - cbn [store_vote history]. by rewrite <- app_assoc.
Qed.

Lemma revote_overwrites_witness :
  let self1 := (update_score "X" "A" (2 # 10) None "t1" init).2 in
  let self2 := (update_score "X" "A" (9 # 10) None "t2" self1).2 in
  score <$> active_votes self2 "X" "A" = [(9 # 10)%Q] /\
  latest_score self2 "X" "A" = Some (9 # 10)%Q /\
  length (history self2) = 2.
Proof.
  destruct (revote_overwrites "X" "A" (2 # 10) (9 # 10) None None "t1" "t2"
              init) as (Ha & Hl & Hh); [split; discriminate ..|].
  cbv zeta. split; [exact Ha|]. split; [exact Hl|].
  rewrite Hh. reflexivity.
Defined.

Section Rounding.

Variable round2 : Q -> Q.

Abbreviation consensus_of := (MCPIntegration.consensus_of round2).
Abbreviation get_consensus := (MCPIntegration.get_consensus round2).

(** C9: for a claim no vote has been recorded for, [get_consensus]
    returns [(False, {})] normally, without raising and without touching
    the store. *)
Theorem get_consensus_no_votes cfg claim_id self :
  reachable self ->
  (forall e, e ∈ history self -> h_claim_id e <> claim_id) ->
  get_consensus cfg claim_id self = (Ret (false, EmptyDetail), self).
Proof.
  intros Hr Hnone.
  unfold MCPIntegration.get_consensus, try_except, gets,
    MCPIntegration.consensus_of.
  destruct (scores self !! claim_id) as [m|] eqn:Hm; [|done].
  destruct (reachable_scores self Hr claim_id m Hm) as [_ (e & He & Hc)].
  by destruct (Hnone e He).
Qed.

(** *** Consensus *)

Lemma values_fmap (votes : gmap string agent_vote) :
  values (score <$> votes)
  = (fun kv : string * agent_vote => score kv.2) <$> map_to_list votes.
Proof.
  unfold values. rewrite map_to_list_fmap, <- list_fmap_compose.
  apply list_fmap_ext. by intros _ [k v] _.
Qed.

Lemma values_length (votes : gmap string agent_vote) :
  length (values (score <$> votes)) = size votes.
Proof. by rewrite values_fmap, length_fmap, length_map_to_list. Qed.

Lemma values_nil (votes : gmap string agent_vote) :
  values (score <$> votes) = [] -> votes = ∅.
Proof.
  intros H. apply map_size_empty_inv. by rewrite <- values_length, H.
Qed.

(** The number of scores at or above the threshold is the number of
    agents whose stored score is at or above it. *)
Lemma count_above_voters thr (votes : gmap string agent_vote) :
  count_above thr (values (score <$> votes))
  = size (filter (fun kv : string * agent_vote =>
                    Qle_bool thr (score kv.2) = true) votes).
Proof.
  rewrite values_fmap. unfold count_above.
  induction votes as [|k v m Hk IH] using map_ind.
  - by rewrite map_filter_empty, map_to_list_empty, map_size_empty.
  - rewrite <- length_map_to_list in IH |- *.
    assert (Hperm : forall l l' : list (string * agent_vote), l ≡ₚ l' ->
      length (List.filter (fun s => Qle_bool thr s)
                ((fun kv : string * agent_vote => score kv.2) <$> l))
      = length (List.filter (fun s => Qle_bool thr s)
                ((fun kv : string * agent_vote => score kv.2) <$> l'))).
    { induction 1 as [|x l l' _ IHp|x y l|l l' l'' _ IH1 _ IH2]; cbn.
      - done.
      - destruct (Qle_bool thr (score x.2)); cbn; by rewrite IHp.
      - destruct (Qle_bool thr (score x.2)), (Qle_bool thr (score y.2)); done.
      - by rewrite IH1. }
    rewrite (Hperm _ _ (map_to_list_insert m k v Hk)). cbn.
    destruct (Qle_bool thr (score v)) eqn:Hv.
    + rewrite map_filter_insert_True by done.
      rewrite map_to_list_insert by (by rewrite map_lookup_filter_None; left).
      cbn. by rewrite IH.
    + rewrite map_filter_insert_not'; [by rewrite IH|cbn; congruence|].
      intros y Hy. congruence.
Qed.

(** The fold that computes [max] returns an element that dominates. *)
Lemma Qmax_fold_spec (l : list Q) (x : Q) :
  let m := foldl (fun m y => if Qle_bool y m then m else y) x l in
  (m = x \/ m ∈ l) /\ (x <= m)%Q /\ forall y, y ∈ l -> (y <= m)%Q.
Proof.
  revert x. induction l as [|z l IH]; intros x; cbn.
  - split; [by left|]. split; [apply Qle_refl|].
    intros y Hy. by apply elem_of_nil in Hy.
  - destruct (Qle_bool z x) eqn:Hzx.
    + destruct (IH x) as (Hin & Hx & Hall). apply Qle_bool_iff in Hzx.
      split; [destruct Hin as [->|Hin]; [by left|right; by right]|].
      split; [done|]. intros y [->|Hy]%elem_of_cons; [|by apply Hall].
      by apply Qle_trans with x.
    + destruct (IH z) as (Hin & Hz & Hall).
      assert (x <= z)%Q as Hxz.
      { destruct (Qlt_le_dec x z) as [H|H]; [by apply Qlt_le_weak|].
        apply Qle_bool_iff in H. congruence. }
      split; [right; destruct Hin as [->|Hin]; [left|by right]|].
      split; [by apply Qle_trans with z|].
      intros y [->|Hy]%elem_of_cons; [done|by apply Hall].
Qed.

Lemma Qmax_list_spec (l : list Q) :
  l <> [] -> Qmax_list l ∈ l /\ forall y, y ∈ l -> (y <= Qmax_list l)%Q.
Proof.
  destruct l as [|x l]; [done|intros _]. cbn [Qmax_list].
  destruct (Qmax_fold_spec l x) as (Hin & Hx & Hall). split.
  - destruct Hin as [->|Hin]; [left|by right].
  - intros y [->|Hy]%elem_of_cons; [done|by apply Hall].
Qed.

(** What [get_consensus] returns for a claim that has votes. *)
Lemma get_consensus_some cfg claim_id self votes :
  scores self !! claim_id = Some votes -> votes <> ∅ ->
  get_consensus cfg claim_id self
  = (Ret ((Config.CONSENSUS_THRESHOLD cfg
             <=? count_above (Config.FRAUD_THRESHOLD cfg)
                   (values (score <$> votes)))%nat,
          Detail (score <$> votes)
            (round2 (Qsum (values (score <$> votes))
                     / inject_Z (Z.of_nat (size votes))))
            (round2 (Qmax_list (values (score <$> votes))))
            (count_above (Config.FRAUD_THRESHOLD cfg)
               (values (score <$> votes)))
            votes), self).
Proof.
  intros Hv Hne.
  unfold MCPIntegration.get_consensus, try_except, gets,
    MCPIntegration.consensus_of.
  rewrite Hv, <- values_length.
  destruct (values (score <$> votes)) eqn:E; [|done].
  by apply values_nil in E.
Qed.

(** Where one hundredth is nearer than half a hundredth, that is the
    value of [round(_, 2)], whichever way ties go. *)
Lemma rounds_to_nearest (x : Q) (k : Z) :
  rounds_to_hundredths round2 ->
  (inject_Z k / 100 - (1 # 200) < x)%Q ->
  (x < inject_Z k / 100 + (1 # 200))%Q ->
  round2 x = (inject_Z k / 100)%Q.
Proof.
  intros Hround Hlo Hhi. destruct (Hround x) as (k' & -> & Hclose).
  apply Qabs_Qle_condition in Hclose as [Hlo' Hhi'].
  assert (inject_Z k' < inject_Z k + 1)%Q as Hlt.
  { unfold Qdiv in *. change (/ 100)%Q with (1 # 100)%Q in *.
    set (a := inject_Z k) in *. set (a' := inject_Z k') in *.
    clearbody a a'. lra. }
  assert (inject_Z k < inject_Z k' + 1)%Q as Hgt.
  { unfold Qdiv in *. change (/ 100)%Q with (1 # 100)%Q in *.
    set (a := inject_Z k) in *. set (a' := inject_Z k') in *.
    clearbody a a'. lra. }
  change 1%Q with (inject_Z 1) in Hlt, Hgt.
  rewrite <- inject_Z_plus in Hlt, Hgt.
  rewrite <- Zlt_Qlt in Hlt, Hgt.
  by replace k' with k by lia.
Qed.

Hypothesis round2_spec : rounds_to_hundredths round2.

(** The votes [{A: 0.8, B: 0.75, C: 0.9, D: 0.2}] under the default
    thresholds: their mean 0.6625 and their maximum 0.9 are each nearer
    to one hundredth than half a hundredth. *)
Lemma four_votes_consensus :
  exists scores_data,
    get_consensus Config.default "X" four_votes
    = (Ret (true, Detail (list_to_map [("A", 8 # 10); ("B", 75 # 100);
                                       ("C", 9 # 10); ("D", 2 # 10)]%Q)
                    (66 # 100) (90 # 100) 3 scores_data), four_votes).
Proof.
  eexists. unfold MCPIntegration.get_consensus, try_except, gets.
  f_equal. vm_compute.
  repeat match goal with
         | |- context [round2 ?x] =>
             first
               [ rewrite (rounds_to_nearest x 66 round2_spec
                            ltac:(vm_compute; reflexivity)
                            ltac:(vm_compute; reflexivity))
               | rewrite (rounds_to_nearest x 90 round2_spec
                            ltac:(vm_compute; reflexivity)
                            ltac:(vm_compute; reflexivity)) ]
         end.
  reflexivity.
Qed.


End Rounding.

(** *** The stand-in for [round(_, 2)] and concrete stores *)

Lemma sample_round2_rounds : rounds_to_hundredths sample_round2.
Proof.
  intros x. exists (round_half_even (x * 100)). split; [reflexivity|].
  unfold sample_round2, round_half_even.
  pose proof (Qfloor_le (x * 100)) as Hlo.
  pose proof (Qlt_floor (x * 100)) as Hhi.
  rewrite inject_Z_plus in Hhi.
  change (inject_Z 1) with 1%Q in Hhi.
  set (f := Qfloor (x * 100)) in *. clearbody f.
  apply Qabs_Qle_condition. unfold Qdiv.
  change (/ 100)%Q with (1 # 100)%Q.
  destruct (Qcompare_spec (x * 100 - inject_Z f) (1 # 2)) as [He|Hl|Hg].
  - destruct (Z.even f); [|rewrite inject_Z_plus; change (inject_Z 1) with 1%Q];
      split; lra.
  - split; lra.
  - rewrite inject_Z_plus. change (inject_Z 1) with 1%Q. split; lra.
Qed.

Lemma get_consensus_no_votes_witness :
  get_consensus sample_round2 Config.default "Y" four_votes
  = (Ret (false, EmptyDetail), four_votes).
Proof.
  apply (get_consensus_no_votes sample_round2 Config.default "Y"
           four_votes).
  - unfold four_votes. repeat apply reachable_update. apply reachable_init.
  - intros e He. vm_compute in He.
    repeat (apply elem_of_cons in He as [->|He]; [discriminate|]).
    by apply elem_of_nil in He.
Defined.



End MCPIntegrationSpec.

(** ** The connection manager *)

Module ConnectionManagerSpec.
Import Py ConnectionManager.

(** *** List slicing *)

Lemma last_n_short {A} (n : nat) (l : list A) :
  length l <= n -> last_n n l = l.
Proof.
  intros H. unfold last_n. by replace (length l - n) with 0 by lia.
Qed.

Lemma last_n_length {A} (n : nat) (l : list A) :
  length (last_n n l) = length l `min` n.
Proof. unfold last_n. rewrite length_drop. lia. Qed.

Lemma last_n_app_last_n {A} (n : nat) (l l' : list A) :
  last_n n (last_n n l ++ l') = last_n n (l ++ l').
Proof.
  unfold last_n. rewrite !length_app, length_drop, !drop_app, drop_drop,
    length_drop.
  f_equal; f_equal; lia.
Qed.

Lemma last_n_app_long {A} (n : nat) (l l' : list A) :
  n <= length l' -> last_n n (l ++ l') = last_n n l'.
Proof.
  intros H. unfold last_n. rewrite length_app, drop_app.
  rewrite drop_ge by lia. cbn. f_equal. lia.
Qed.

Lemma last_n_Forall {A} (P : A -> Prop) (n : nat) (l : list A) :
  Forall P l -> Forall P (last_n n l).
Proof. apply Forall_drop. Qed.

(** *** [_store_pending_update] and [disconnect] *)

Lemma store_pending_sockets task_id data self :
  sockets (_store_pending_update task_id data self) = sockets self.
Proof.
  unfold _store_pending_update.
  destruct (pending_updates self !! task_id), (is_heartbeat data); done.
Qed.

Lemma store_pending_active task_id data self :
  active_connections (_store_pending_update task_id data self)
  = active_connections self.
Proof.
  unfold _store_pending_update.
  destruct (pending_updates self !! task_id), (is_heartbeat data); done.
Qed.

(** The buffer of [task_id] receives [data] unless it is a heartbeat, and
    keeps its last ten entries; it exists afterwards in either case. *)
Lemma store_pending_updates task_id data self :
  pending_updates (_store_pending_update task_id data self)
  = <[task_id := if is_heartbeat data then buffer self task_id
                 else last_n 10 (buffer self task_id ++ [data])]>
      (pending_updates self).
Proof.
  unfold _store_pending_update, buffer.
  destruct (pending_updates self !! task_id) as [l|] eqn:E,
    (is_heartbeat data); cbn.
  - by rewrite insert_id.
  - by rewrite E.
  - done.
  - by rewrite lookup_insert_eq, insert_insert_eq.
Qed.

Lemma store_pending_buffer task_id data self :
  buffer (_store_pending_update task_id data self) task_id
  = if is_heartbeat data then buffer self task_id
    else last_n 10 (buffer self task_id ++ [data]).
Proof.
  unfold buffer at 1. by rewrite store_pending_updates, lookup_insert_eq.
Qed.

Lemma disconnect_active task_id self :
  active_connections (disconnect task_id self)
  = delete task_id (active_connections self).
Proof.
  unfold disconnect.
  destruct (active_connections self !! task_id) eqn:E; [done|].
  by rewrite delete_id.
Qed.

Lemma disconnect_pending task_id self :
  pending_updates (disconnect task_id self) = pending_updates self.
Proof.
  unfold disconnect. by destruct (active_connections self !! task_id).
Qed.

Lemma disconnect_sockets task_id self :
  sockets (disconnect task_id self) = sockets self.
Proof.
  unfold disconnect. by destruct (active_connections self !! task_id).
Qed.

(** *** The socket primitives leave the manager's dictionaries alone *)

Lemma send_text_frame ws data self :
  active_connections (send_text ws data self).2 = active_connections self /\
  pending_updates (send_text ws data self).2 = pending_updates self.
Proof.
  unfold send_text. destruct (sockets self !! ws) as [w|]; [|done].
  by destruct (WebSocket.script w) as [|[] ?].
Qed.

Lemma accept_frame ws self :
  active_connections (accept ws self).2 = active_connections self /\
  pending_updates (accept ws self).2 = pending_updates self.
Proof.
  unfold accept. destruct (sockets self !! ws) as [w|]; [|done].
  by destruct (WebSocket.client_state w).
Qed.

Lemma client_state_frame ws self : (client_state ws self).2 = self.
Proof. unfold client_state. by destruct (sockets self !! ws). Qed.

Lemma replay_frame ws updates self :
  active_connections (replay ws updates self).2 = active_connections self /\
  pending_updates (replay ws updates self).2 = pending_updates self.
Proof.
  revert self. induction updates as [|u updates IH]; intros self; [done|].
  cbn [replay]. py_unfold.
  destruct (send_text_frame ws u self) as [Ha Hp].
  destruct (send_text ws u self) as [[[]|e] self1]; cbn in *.
  - destruct (IH self1) as [Ha' Hp']. by rewrite Ha', Hp'.
  - done.
Qed.

Lemma replay_returns ws updates self :
  (replay ws updates self).1 = Ret tt.
Proof.
  revert self. induction updates as [|u updates IH]; intros self; [done|].
  cbn [replay]. py_unfold.
  destruct (send_text ws u self) as [[[]|e] self1]; cbn; [apply IH|done].
Qed.

(** *** Emitting: [send_progress_update] *)

Lemma buffer_same_pending self self' task_id :
  pending_updates self' = pending_updates self ->
  buffer self' task_id = buffer self task_id.
Proof. unfold buffer. by intros ->. Qed.

(** The send goes through: the socket receives the update. *)
Lemma send_progress_update_delivers task_id data self ws :
  active_connections self !! task_id = Some ws ->
  can_deliver self ws = true ->
  exists self',
    send_progress_update task_id data self = (Ret tt, self') /\
    sent_to self' ws = sent_to self ws ++ [data] /\
    active_connections self' = active_connections self /\
    pending_updates self' = pending_updates self.
Proof.
  intros Hws. unfold send_progress_update, can_deliver, sent_to.
  py_unfold. rewrite Hws. unfold client_state, send_text.
  destruct (sockets self !! ws) as [w|] eqn:Hw; [|done].
  destruct (WebSocket.client_state w); [done| |done]. rewrite Hw.
  destruct (WebSocket.script w) as [|[] rest]; [| |done]; intros _;
    (eexists; split; [reflexivity|]; cbn; by rewrite lookup_insert_eq).
Qed.

(** No observer, or a failing send: the update goes to the buffer and
    the task is left without a registered observer. *)
Lemma send_progress_update_fallback task_id data self :
  observer_gone self task_id ->
  exists self',
    send_progress_update task_id data self = (Ret tt, self') /\
    active_connections self' !! task_id = None /\
    pending_updates self'
    = pending_updates (_store_pending_update task_id data self).
Proof.
  assert (Hfail : forall self1,
    pending_updates self1 = pending_updates self ->
    let self' := disconnect task_id (_store_pending_update task_id data self1)
    in active_connections self' !! task_id = None /\
       pending_updates self'
       = pending_updates (_store_pending_update task_id data self)).
  { intros self1 Hp self'. subst self'. split.
    - rewrite disconnect_active. apply lookup_delete_eq.
    - rewrite disconnect_pending, !store_pending_updates.
      by rewrite (buffer_same_pending self self1), Hp. }
  unfold send_progress_update, observer_gone, can_deliver. py_unfold.
  destruct (active_connections self !! task_id) as [ws|] eqn:Hws.
  - unfold client_state, send_text.
    destruct (sockets self !! ws) as [w|] eqn:Hw.
    + destruct (WebSocket.client_state w).
      * intros _. eexists. split; [reflexivity|]. by apply Hfail.
      * rewrite Hw. destruct (WebSocket.script w) as [|[] rest]; try done.
        intros _. eexists. split; [reflexivity|]. by apply Hfail.
      * intros _. eexists. split; [reflexivity|]. by apply Hfail.
    + intros _. eexists. split; [reflexivity|]. by apply Hfail.
  - intros _. eexists. split; [reflexivity|]. split; [|done].
    by rewrite store_pending_active.
Qed.

Lemma observer_gone_dec task_id self :
  observer_gone self task_id \/
  exists ws, active_connections self !! task_id = Some ws /\
             can_deliver self ws = true.
Proof.
  unfold observer_gone.
  destruct (active_connections self !! task_id) as [ws|]; [|by left].
  destruct (can_deliver self ws) eqn:Hcd.
  - right. by exists ws.
  - by left.
Qed.

Lemma send_progress_update_returns task_id data self :
  exists self', send_progress_update task_id data self = (Ret tt, self').
Proof.
  destruct (observer_gone_dec task_id self) as [Hgone|(ws & Hws & Hcd)].
  - destruct (send_progress_update_fallback task_id data self Hgone)
      as (self' & Hrun & _). by exists self'.
  - destruct (send_progress_update_delivers task_id data self ws Hws Hcd)
      as (self' & Hrun & _). by exists self'.
Qed.

(** C7: [send_progress_update] never raises.  When no observer is
    registered for the task, or the send to the registered one fails (the
    socket is not [CONNECTED], or [send_text] raises), the update is
    appended to the task's pending buffer, which keeps its last ten
    entries, unless it is a heartbeat, and the task has no registered
    observer afterwards.  When the send goes through, the socket receives
    the update and nothing else changes. *)
Theorem send_progress_update_degrades task_id data self :
  exists self',
    send_progress_update task_id data self = (Ret tt, self') /\
    (observer_gone self task_id ->
       active_connections self' !! task_id = None /\
       pending_updates self' !! task_id
       = Some (if is_heartbeat data then buffer self task_id
               else last_n 10 (buffer self task_id ++ [data]))) /\
    (forall ws,
       active_connections self !! task_id = Some ws ->
       can_deliver self ws = true ->
       sent_to self' ws = sent_to self ws ++ [data] /\
       active_connections self' = active_connections self /\
       pending_updates self' = pending_updates self).
Proof.
  destruct (observer_gone_dec task_id self) as [Hgone|(ws & Hws & Hcd)].
  - destruct (send_progress_update_fallback task_id data self Hgone)
      as (self' & Hrun & Hnone & Hpend).
    exists self'. split; [exact Hrun|]. split.
    + intros _. split; [exact Hnone|].
      by rewrite Hpend, store_pending_updates, lookup_insert_eq.
    + intros ws Hws Hcd. unfold observer_gone in Hgone.
      rewrite Hws in Hgone. congruence.
  - destruct (send_progress_update_delivers task_id data self ws Hws Hcd)
      as (self' & Hrun & Hsent).
    exists self'. split; [exact Hrun|]. split.
    + unfold observer_gone. rewrite Hws. congruence.
    + intros ws' Hws' _. by replace ws' with ws by congruence.
Qed.

Lemma send_progress_update_degrades_witness :
  exists self',
    send_progress_update "t" {["type" := VStr "progress"]} init
    = (Ret tt, self') /\
    active_connections self' !! "t" = None /\
    pending_updates self' !! "t" = Some [{["type" := VStr "progress"]}].
Proof.
  destruct (send_progress_update_degrades "t" {["type" := VStr "progress"]}
              init) as (self' & Hrun & Hgone & _).
  exists self'. split; [exact Hrun|]. apply Hgone. exact I.
Defined.

(** The pending buffers after [send_progress_update] are those before,
    or those [_store_pending_update] produces. *)
Lemma send_progress_update_pending task_id data self :
  let self' := (send_progress_update task_id data self).2 in
  pending_updates self' = pending_updates self \/
  pending_updates self'
  = pending_updates (_store_pending_update task_id data self).
Proof.
  destruct (observer_gone_dec task_id self) as [Hgone|(ws & Hws & Hcd)].
  - destruct (send_progress_update_fallback task_id data self Hgone)
      as (self' & -> & _ & Hp). by right.
  - destruct (send_progress_update_delivers task_id data self ws Hws Hcd)
      as (self' & -> & _ & _ & Hp). by left.
Qed.

(** *** Connecting: replay of the pending buffer *)

Lemma deliverable_reliable (n : nat) : WebSocket.deliverable [] n = n.
Proof. by destruct n. Qed.

Lemma deliverable_le (script : list bool) (n : nat) :
  WebSocket.deliverable script n <= n.
Proof.
  revert script. induction n as [|n IH]; intros [|[] rest]; cbn; try lia.
  specialize (IH rest). lia.
Qed.

(** All [n] sends are delivered exactly when none of the first [n]
    outcomes is a failure. *)
Lemma deliverable_all (script : list bool) (n : nat) :
  WebSocket.deliverable script n = n <->
  forall i, i < n -> script !! i <> Some false.
Proof.
  revert script. induction n as [|n IH]; intros script.
  - split; [intros _ i Hi; lia|intros _; by destruct script as [|[] ?]].
  - destruct script as [|[] rest]; cbn.
    + split; [by intros _ i _|done].
    + rewrite Nat.succ_inj_wd, IH. split.
      * intros H [|i] Hi; [done|]. apply H. lia.
      * intros H i Hi. apply (H (S i)). lia.
    + split; [done|]. intros H. by destruct (H 0); [lia|].
Qed.

Lemma replay_sent ws updates self w :
  sockets self !! ws = Some w ->
  exists w',
    sockets (replay ws updates self).2 !! ws = Some w' /\
    WebSocket.sent w'
    = WebSocket.sent w
      ++ take (WebSocket.deliverable (WebSocket.script w) (length updates))
           updates.
Proof.
  revert self w. induction updates as [|u updates IH]; intros self w Hw.
  - exists w. split; [done|]. by rewrite take_nil, app_nil_r.
  - cbn [replay]. py_unfold. unfold send_text. rewrite Hw.
    destruct (WebSocket.script w) as [|[] rest] eqn:Hsc; cbn [length].
    + match goal with
      | |- context [replay ws updates (set_socket ws ?W self)] =>
          destruct (IH (set_socket ws W self) W (lookup_insert_eq _ _ _))
            as (w' & Hw' & Hsent)
      end.
      exists w'. split; [exact Hw'|]. rewrite Hsent. cbn.
      rewrite <- app_assoc. by destruct (length updates).
    + match goal with
      | |- context [replay ws updates (set_socket ws ?W self)] =>
          destruct (IH (set_socket ws W self) W (lookup_insert_eq _ _ _))
            as (w' & Hw' & Hsent)
      end.
      exists w'. split; [exact Hw'|]. rewrite Hsent. cbn.
      by rewrite <- app_assoc.
    + eexists. split; [apply lookup_insert_eq|]. cbn. by rewrite app_nil_r.
Qed.

(** C3 (amended): [connect] on a socket awaiting acceptance registers it
    for the task and sends it the task's pending updates in their stored
    order, one send per update, up to the first send that fails: the
    socket has received the first [k] of them, [k] being the number of
    sends delivered before the first failure.  When no send fails, every
    pending update has been sent exactly once, in order, and the task's
    entry is gone from [pending_updates]. *)
Theorem connect_replays ws task_id self w updates :
  sockets self !! ws = Some w ->
  WebSocket.client_state w = WebSocket.CONNECTING ->
  pending_updates self !! task_id = Some updates ->
  let k := WebSocket.deliverable (WebSocket.script w) (length updates) in
  exists self',
    connect ws task_id self = (Ret tt, self') /\
    active_connections self' !! task_id = Some ws /\
    sent_to self' ws = WebSocket.sent w ++ take k updates /\
    (k = length updates ->
       sent_to self' ws = WebSocket.sent w ++ updates /\
       pending_updates self' !! task_id = None).
Proof.
  intros Hw Hst Hp k. unfold connect. py_unfold. unfold accept.
  rewrite Hw, Hst. cbn [pending_updates set_active set_socket]. rewrite Hp.
  set (self1 := set_active _ (set_socket _ _ _)).
  pose proof (replay_returns ws updates self1) as Hret.
  destruct (replay_frame ws updates self1) as [Ha Hpe].
  edestruct (replay_sent ws updates self1) as (w' & Hw' & Hsent);
    [apply lookup_insert_eq|]. cbn in Hsent. fold k in Hsent.
  destruct (replay ws updates self1) as [r self2]. cbn in *. subst r.
  eexists. split; [reflexivity|]. unfold sent_to. cbn. rewrite Hw'.
  split; [by rewrite Ha, lookup_insert_eq|]. split; [done|].
  intros Hk. split; [|apply lookup_delete_eq].
  by rewrite Hsent, Hk, firstn_all.
Qed.

Lemma connect_replays_witness :
  let e1 : dict := {["type" := VStr "progress"]} in
  let e2 : dict := {["type" := VStr "completed"]} in
  let self :=
    {| sockets := {[ 0 := {| WebSocket.client_state := WebSocket.CONNECTING;
                             WebSocket.sent := [];
                             WebSocket.script := [] |} ]};
       active_connections := ∅;
       pending_updates := {[ "t" := [e1; e2] ]} |} in
  exists self',
    connect 0 "t" self = (Ret tt, self') /\
    sent_to self' 0 = [e1; e2] /\
    pending_updates self' !! "t" = None.
Proof.
  intros e1 e2 self.
  destruct (connect_replays 0 "t" self
              {| WebSocket.client_state := WebSocket.CONNECTING;
                 WebSocket.sent := []; WebSocket.script := [] |}
              [e1; e2] eq_refl eq_refl eq_refl)
    as (self' & Hrun & _ & _ & Hall).
  exists self'. split; [exact Hrun|]. exact (Hall eq_refl).
Defined.

(** C3 as stated fails when a send fails during the replay: with three
    pending updates and a socket whose second send raises, the observer
    receives the first update only, the other two are skipped, and the
    entry is removed all the same. *)
Lemma connect_skips_after_failure :
  let e1 : dict := {["type" := VStr "progress"; "progress" := VInt 10]} in
  let e2 : dict := {["type" := VStr "progress"; "progress" := VInt 20]} in
  let e3 : dict := {["type" := VStr "completed"]} in
  let self :=
    {| sockets := {[ 0 := {| WebSocket.client_state := WebSocket.CONNECTING;
                             WebSocket.sent := [];
                             WebSocket.script := [true; false] |} ]};
       active_connections := ∅;
       pending_updates := {[ "t" := [e1; e2; e3] ]} |} in
  exists self',
    connect 0 "t" self = (Ret tt, self') /\
    sent_to self' 0 = [e1] /\
    sent_to self' 0 <> buffer self "t" /\
    pending_updates self' !! "t" = None.
Proof.
  intros e1 e2 e3 self. eexists. split; [reflexivity|].
  split; [reflexivity|]. split; [|reflexivity].
  vm_compute. discriminate.
Qed.

(** *** The pending buffers stay bounded and free of heartbeats *)

Lemma buffers_ok_frame self self' :
  pending_updates self' = pending_updates self ->
  buffers_ok self -> buffers_ok self'.
Proof. unfold buffers_ok. by intros ->. Qed.

Lemma buffers_ok_buffer self task_id :
  buffers_ok self ->
  length (buffer self task_id) <= 10 /\
  Forall (fun data => is_heartbeat data = false) (buffer self task_id).
Proof.
  intros Hok. unfold buffer.
  destruct (pending_updates self !! task_id) as [l|] eqn:E; cbn.
  - by apply (Hok task_id).
  - split; [lia|constructor].
Qed.

Lemma buffers_ok_store task_id data self :
  buffers_ok self -> buffers_ok (_store_pending_update task_id data self).
Proof.
  intros Hok tid l. rewrite store_pending_updates.
  destruct (decide (task_id = tid)) as [<-|Hne].
  - rewrite lookup_insert_eq. intros [= <-].
    destruct (buffers_ok_buffer self task_id Hok) as [Hlen Hall].
    destruct (is_heartbeat data) eqn:Hhb; [done|]. split.
    + rewrite last_n_length. lia.
    + apply last_n_Forall, Forall_app. split; [done|].
      by repeat constructor.
  - rewrite lookup_insert_ne by done. apply Hok.
Qed.

Lemma buffers_ok_delete task_id self :
  buffers_ok self -> buffers_ok (set_pending (delete task_id) self).
Proof.
  intros Hok tid l. cbn. intros [_ H]%lookup_delete_Some.
  by apply (Hok tid).
Qed.

Lemma buffers_ok_connect ws task_id self :
  buffers_ok self -> buffers_ok (connect ws task_id self).2.
Proof.
  intros Hok. unfold connect. py_unfold.
  destruct (accept_frame ws self) as [_ Hp0].
  destruct (accept ws self) as [[[]|e] self0]; cbn in *;
    [|by apply (buffers_ok_frame self)].
  rewrite Hp0.
  destruct (pending_updates self !! task_id) as [updates|];
    [|by apply (buffers_ok_frame self)].
  set (self1 := set_active _ self0).
  destruct (replay_frame ws updates self1) as [_ Hp1].
  pose proof (replay_returns ws updates self1) as Hret.
  destruct (replay ws updates self1) as [r self2]. cbn in *. subst r.
  apply buffers_ok_delete. apply (buffers_ok_frame self); [|done].
  by rewrite Hp1.
Qed.

Lemma buffers_ok_send task_id data self :
  buffers_ok self -> buffers_ok (send_progress_update task_id data self).2.
Proof.
  intros Hok.
  destruct (send_progress_update_pending task_id data self) as [Hp|Hp].
  - by apply (buffers_ok_frame self).
  - apply (buffers_ok_frame (_store_pending_update task_id data self));
      [done|by apply buffers_ok_store].
Qed.

Lemma broadcast_sends_frame items data acc self :
  pending_updates (broadcast_sends items data acc self).2
  = pending_updates self.
Proof.
  revert acc self. induction items as [|[task_id ws] items IH];
    intros acc self; [done|].
  cbn [broadcast_sends]. py_unfold.
  pose proof (client_state_frame ws self) as Hcs.
  destruct (client_state ws self) as [[st|e] self0]; cbn in Hcs; subst self0.
  - destruct st; try (cbn; by rewrite IH).
    destruct (send_text_frame ws data self) as [_ Hp].
    destruct (send_text ws data self) as [[[]|e] self1]; cbn in *;
      by rewrite IH.
  - cbn. by rewrite IH.
Qed.

Lemma buffers_ok_cleanup tasks data self :
  buffers_ok self -> buffers_ok (broadcast_cleanup tasks data self).
Proof.
  revert self. induction tasks as [|task_id tasks IH]; intros self Hok;
    [done|].
  cbn. apply IH.
  apply (buffers_ok_frame (_store_pending_update task_id data self));
    [apply disconnect_pending|by apply buffers_ok_store].
Qed.

Lemma buffers_ok_broadcast data self :
  buffers_ok self -> buffers_ok (broadcast_to_all data self).2.
Proof.
  intros Hok. unfold broadcast_to_all. py_unfold.
  pose proof (broadcast_sends_frame
                (map_to_list (active_connections self)) data [] self) as Hp.
  destruct (broadcast_sends _ data [] self) as [[tasks|e] self1]; cbn in *.
  - apply buffers_ok_cleanup. by apply (buffers_ok_frame self).
  - by apply (buffers_ok_frame self).
Qed.

Lemma buffers_ok_step self self' :
  step self self' -> buffers_ok self -> buffers_ok self'.
Proof.
  destruct 1; intros Hok.
  - by apply buffers_ok_connect.
  - by apply (buffers_ok_frame self); [apply disconnect_pending|].
  - by apply buffers_ok_send.
  - by apply buffers_ok_broadcast.
  - by apply (buffers_ok_frame self).
Qed.

Lemma reachable_buffers_ok self : reachable self -> buffers_ok self.
Proof.
  induction 1 as [|self self' _ IH Hstep].
  - intros tid l. cbn. by rewrite lookup_empty.
  - by apply (buffers_ok_step self).
Qed.

(** Emitting while no observer is registered only feeds the buffer. *)
Lemma emit_all_disconnected task_id events self :
  active_connections self !! task_id = None ->
  exists self',
    emit_all task_id events self = (Ret tt, self') /\
    active_connections self' !! task_id = None /\
    buffer self' task_id
    = match important events with
      | [] => buffer self task_id
      | _ => last_n 10 (buffer self task_id ++ important events)
      end.
Proof.
  revert self. induction events as [|data events IH]; intros self Hnone.
  - by exists self.
  - cbn [emit_all]. py_unfold.
    assert (send_progress_update task_id data self
            = (Ret tt, _store_pending_update task_id data self)) as ->.
    { unfold send_progress_update. py_unfold. by rewrite Hnone. }
    destruct (IH (_store_pending_update task_id data self))
      as (self' & Hrun & Ha & Hb).
    { by rewrite store_pending_active. }
    exists self'. split; [exact Hrun|]. split; [exact Ha|].
    rewrite Hb, store_pending_buffer. unfold important. cbn [List.filter].
    destruct (is_heartbeat data); cbn [negb]; [done|].
    destruct (List.filter _ events) as [|d l]; [done|].
    by rewrite last_n_app_last_n, <- app_assoc.
Qed.

Lemma important_all (events : list dict) :
  Forall (fun data => is_heartbeat data = false) events ->
  important events = events.
Proof.
  induction 1 as [|d l Hd _ IH]; [done|].
  unfold important in *. cbn. by rewrite Hd, IH.
Qed.

(** C4: in every reachable state of the manager each pending buffer has
    at most ten updates and no heartbeat.  After ten or more
    non-heartbeat updates have been emitted for a task without a
    registered observer, its buffer is the last ten of them, in emission
    order; fifteen such updates leave the sixth to the fifteenth. *)
Theorem pending_buffer_bounded :
  (forall self, reachable self ->
     forall task_id updates,
       pending_updates self !! task_id = Some updates ->
       length updates <= 10 /\
       Forall (fun data => is_heartbeat data = false) updates) /\
  (forall self task_id events,
     active_connections self !! task_id = None ->
     10 <= length (important events) ->
     exists self',
       emit_all task_id events self = (Ret tt, self') /\
       buffer self' task_id = last_n 10 (important events)) /\
  (forall self task_id events,
     active_connections self !! task_id = None ->
     length events = 15 ->
     Forall (fun data => is_heartbeat data = false) events ->
     exists self',
       emit_all task_id events self = (Ret tt, self') /\
       buffer self' task_id = drop 5 events).
Proof.
  assert (Hlast : forall self task_id events,
    active_connections self !! task_id = None ->
    10 <= length (important events) ->
    exists self',
      emit_all task_id events self = (Ret tt, self') /\
      buffer self' task_id = last_n 10 (important events)).
  { intros self task_id events Hnone Hlen.
    destruct (emit_all_disconnected task_id events self Hnone)
      as (self' & Hrun & _ & Hb).
    exists self'. split; [exact Hrun|]. rewrite Hb.
    destruct (important events) as [|d l] eqn:E; [cbn in Hlen; lia|].
    by apply last_n_app_long. }
  split; [exact reachable_buffers_ok|]. split; [exact Hlast|].
  intros self task_id events Hnone Hlen Hall.
  destruct (Hlast self task_id events Hnone) as (self' & Hrun & Hb).
  { rewrite important_all by done. lia. }
  exists self'. split; [exact Hrun|].
  rewrite Hb, important_all by done. unfold last_n. by rewrite Hlen.
Qed.

Lemma pending_buffer_bounded_witness :
  let ev (n : Z) : dict := {["type" := VStr "progress"; "progress" := VInt n]}
  in
  let events := ev <$> [1; 2; 3; 4; 5; 6; 7; 8; 9; 10; 11; 12; 13; 14; 15]%Z in
  exists self',
    emit_all "t" events init = (Ret tt, self') /\
    buffer self' "t" = ev <$> [6; 7; 8; 9; 10; 11; 12; 13; 14; 15]%Z.
Proof.
  intros ev events.
  destruct (proj2 (proj2 pending_buffer_bounded) init "t" events)
    as (self' & Hrun & Hb).
  - reflexivity.
  - reflexivity.
  - subst events. repeat constructor.
  - exists self'. split; [exact Hrun|]. rewrite Hb. reflexivity.
Defined.

End ConnectionManagerSpec.

(** ** The endpoint and the runner *)

Module BackendSpec.
Import Py Backend.

Section Formatting.

Variable isoformat : nat -> string.
Variable format_2f : value -> string.
Variable str : value -> string.

Abbreviation send := (Backend.send isoformat).
Abbreviation websocket_endpoint :=
  (Backend.websocket_endpoint isoformat format_2f str).
Abbreviation snapshot_event := (Backend.snapshot_event format_2f str).

(** *** A socket that never fails *)

Lemma replay_reliable ws updates socks act pend st sent0 :
  socks !! ws = Some {| WebSocket.client_state := st;
                        WebSocket.sent := sent0;
                        WebSocket.script := [] |} ->
  ConnectionManager.replay ws updates
    {| ConnectionManager.sockets := socks;
       ConnectionManager.active_connections := act;
       ConnectionManager.pending_updates := pend |}
  = (Ret tt,
     {| ConnectionManager.sockets :=
          <[ws := {| WebSocket.client_state := st;
                     WebSocket.sent := sent0 ++ updates;
                     WebSocket.script := [] |}]> socks;
        ConnectionManager.active_connections := act;
        ConnectionManager.pending_updates := pend |}).
Proof.
  revert socks sent0. induction updates as [|u updates IH];
    intros socks sent0 Hw.
  - cbn. by rewrite app_nil_r, insert_id.
  - cbn [ConnectionManager.replay]. py_unfold.
    unfold ConnectionManager.send_text. cbn. rewrite Hw. cbn.
    unfold ConnectionManager.set_socket. cbn.
    erewrite IH; [|apply lookup_insert_eq].
    by rewrite insert_insert_eq, <- app_assoc.
Qed.

Lemma connect_reliable ws task_id socks act pend sent0 :
  socks !! ws = Some {| WebSocket.client_state := WebSocket.CONNECTING;
                        WebSocket.sent := sent0;
                        WebSocket.script := [] |} ->
  ConnectionManager.connect ws task_id
    {| ConnectionManager.sockets := socks;
       ConnectionManager.active_connections := act;
       ConnectionManager.pending_updates := pend |}
  = (Ret tt,
     {| ConnectionManager.sockets :=
          <[ws := {| WebSocket.client_state := WebSocket.CONNECTED;
                     WebSocket.sent := sent0 ++ default [] (pend !! task_id);
                     WebSocket.script := [] |}]> socks;
        ConnectionManager.active_connections := <[task_id := ws]> act;
        ConnectionManager.pending_updates := delete task_id pend |}).
Proof.
  intros Hw. unfold ConnectionManager.connect. py_unfold.
  unfold ConnectionManager.accept. cbn. rewrite Hw. cbn.
  unfold ConnectionManager.set_socket, ConnectionManager.set_active. cbn.
  destruct (pend !! task_id) as [updates|] eqn:Hp; cbn.
  - erewrite replay_reliable; [|apply lookup_insert_eq]. cbn.
    by rewrite insert_insert_eq.
  - by rewrite app_nil_r, delete_id.
Qed.

Lemma send_progress_update_reliable ws task_id data socks act pend sent0 :
  act !! task_id = Some ws ->
  socks !! ws = Some {| WebSocket.client_state := WebSocket.CONNECTED;
                        WebSocket.sent := sent0;
                        WebSocket.script := [] |} ->
  ConnectionManager.send_progress_update task_id data
    {| ConnectionManager.sockets := socks;
       ConnectionManager.active_connections := act;
       ConnectionManager.pending_updates := pend |}
  = (Ret tt,
     {| ConnectionManager.sockets :=
          <[ws := {| WebSocket.client_state := WebSocket.CONNECTED;
                     WebSocket.sent := sent0 ++ [data];
                     WebSocket.script := [] |}]> socks;
        ConnectionManager.active_connections := act;
        ConnectionManager.pending_updates := pend |}).
Proof.
  intros Ha Hw. unfold ConnectionManager.send_progress_update. py_unfold.
  cbn. rewrite Ha. unfold ConnectionManager.client_state. cbn. rewrite Hw.
  cbn. unfold ConnectionManager.send_text. cbn. by rewrite Hw.
Qed.

(** The event [snapshot_event] picks has the type that goes with the
    stored status. *)
Lemma snapshot_event_kind task_id task_data :
  (task_data !! "status" = Some (VStr "completed") ->
     exists event, snapshot_event task_id task_data = Some event /\
       forall t, event t !! "type" = Some (VStr "completed") /\
                 event t !! "progress" = Some (VInt 100)) /\
  (task_data !! "status" = Some (VStr "failed") ->
     exists event, snapshot_event task_id task_data = Some event /\
       forall t, event t !! "type" = Some (VStr "error")) /\
  (task_data !! "status" = Some (VStr "processing") ->
     exists event, snapshot_event task_id task_data = Some event /\
       forall t, event t !! "type" = Some (VStr "progress") /\
                 event t !! "progress"
                 = Some (default (VInt 0) (task_data !! "progress"))).
Proof.
  unfold snapshot_event, Backend.snapshot_event.
  split; [|split]; intros ->; cbn; eexists; (split; [reflexivity|]);
    intros t; by vm_compute.
Qed.

(** C10: on a socket that accepts and never fails, [websocket_endpoint]
    first replays the task's pending updates (inside [connect]), then
    sends an event of type [connection_established] that names the task,
    then, if the task is in [batch_tasks], one event made from its stored
    status: a [completed] event with progress 100 for [completed], an
    [error] event for [failed], a [progress] event with the stored
    progress for [processing]; for a task that is not in [batch_tasks]
    nothing follows.  A [completed] event waiting in the buffer is
    therefore followed by a second, synthesized one. *)
Theorem websocket_endpoint_sends ws task_id s w :
  ConnectionManager.sockets (manager s) !! ws = Some w ->
  WebSocket.client_state w = WebSocket.CONNECTING ->
  WebSocket.script w = [] ->
  exists s' established snapshot,
    websocket_endpoint ws task_id s = (Ret tt, s') /\
    ConnectionManager.sent_to (manager s') ws
    = WebSocket.sent w
      ++ ConnectionManager.buffer (manager s) task_id
      ++ established :: snapshot /\
    (established !! "type" = Some (VStr "connection_established") /\
     established !! "task_id" = Some (VStr task_id) /\
     established !! "message"
     = Some (VStr "Connected to batch processing updates") /\
     established !! "timestamp" = Some (VStr (isoformat (clock s))) /\
     dom established
     = list_to_set ["type"; "task_id"; "message"; "timestamp"]) /\
    ConnectionManager.pending_updates (manager s') !! task_id = None /\
    snapshot
    = match batch_tasks s !! task_id ≫= snapshot_event task_id with
      | Some event => [event (isoformat (S (clock s)))]
      | None => []
      end /\
    (batch_tasks s !! task_id = None -> snapshot = []) /\
    forall task_data,
      batch_tasks s !! task_id = Some task_data ->
      (task_data !! "status" = Some (VStr "completed") ->
         exists event, snapshot = [event] /\
           event !! "type" = Some (VStr "completed") /\
           event !! "progress" = Some (VInt 100)) /\
      (task_data !! "status" = Some (VStr "failed") ->
         exists event, snapshot = [event] /\
           event !! "type" = Some (VStr "error")) /\
      (task_data !! "status" = Some (VStr "processing") ->
         exists event, snapshot = [event] /\
           event !! "type" = Some (VStr "progress") /\
           event !! "progress"
           = Some (default (VInt 0) (task_data !! "progress"))).
Proof.
  destruct s as [[socks act pend] tasks c]. destruct w as [st sent0 sc].
  cbn. intros Hw -> ->.
  assert (Hrun : websocket_endpoint ws task_id
                   {| manager :=
                        {| ConnectionManager.sockets := socks;
                           ConnectionManager.active_connections := act;
                           ConnectionManager.pending_updates := pend |};
                      batch_tasks := tasks; clock := c |}
    = (Ret tt,
       {| manager :=
            {| ConnectionManager.sockets :=
                 <[ws := {| WebSocket.client_state := WebSocket.CONNECTED;
                            WebSocket.sent :=
                              sent0 ++ default [] (pend !! task_id)
                              ++ connection_established task_id (isoformat c)
                              :: match tasks !! task_id
                                       ≫= snapshot_event task_id with
                                 | Some event => [event (isoformat (S c))]
                                 | None => []
                                 end;
                            WebSocket.script := [] |}]> socks;
               ConnectionManager.active_connections := <[task_id := ws]> act;
               ConnectionManager.pending_updates := delete task_id pend |};
          batch_tasks := tasks;
          clock := match tasks !! task_id ≫= snapshot_event task_id with
                   | Some _ => S (S c)
                   | None => S c
                   end |})).
  { unfold websocket_endpoint, Backend.websocket_endpoint. py_unfold.
    unfold on_manager at 1. cbn.
    rewrite (connect_reliable _ _ _ _ _ _ Hw).
    unfold Backend.send at 1, now, on_manager. py_unfold. cbn.
    erewrite (send_progress_update_reliable ws);
      [|apply lookup_insert_eq|apply lookup_insert_eq].
    cbn. unfold status_snapshot. rewrite insert_insert_eq.
    destruct (tasks !! task_id) as [task_data|]; cbn;
      [|by rewrite <- app_assoc].
    fold (snapshot_event task_id task_data).
    destruct (snapshot_event task_id task_data) as [event|];
      [|by rewrite <- app_assoc].
    unfold Backend.send, now, on_manager. py_unfold. cbn.
    erewrite (send_progress_update_reliable ws);
      [|apply lookup_insert_eq|apply lookup_insert_eq].
    by rewrite insert_insert_eq, <- !app_assoc. }
  eexists _, (connection_established task_id (isoformat c)), _.
  split; [exact Hrun|]. cbn [manager batch_tasks clock].
  unfold ConnectionManager.sent_to, ConnectionManager.buffer.
  cbn [ConnectionManager.sockets ConnectionManager.pending_updates].
  rewrite lookup_insert_eq, lookup_delete_eq. cbn [WebSocket.sent].
  split; [reflexivity|]. split.
  { split_and!; by vm_compute. }
  split; [reflexivity|]. split; [reflexivity|].
  split; [by intros ->|].
  intros task_data ->. cbn [mbind option_bind].
  destruct (snapshot_event_kind task_id task_data) as (Hc & Hf & Hp).
  split; [|split]; intros Hst.
  - destruct (Hc Hst) as (event & -> & Hev). eexists. split; [done|].
    apply Hev.
  - destruct (Hf Hst) as (event & -> & Hev). eexists. split; [done|].
    apply Hev.
  - destruct (Hp Hst) as (event & -> & Hev). eexists. split; [done|].
    apply Hev.
Qed.

(** *** The runner, statement by statement *)

Abbreviation body := (Backend.body isoformat format_2f str).
Abbreviation handler := (Backend.handler isoformat).
Abbreviation process_excel_background :=
  (Backend.process_excel_background isoformat format_2f str).
Abbreviation lifetime := (Backend.lifetime isoformat format_2f str).
Abbreviation upload_excel_file := (Backend.upload_excel_file isoformat).
Abbreviation now := (Backend.now isoformat).

Lemma send_runs task_id data s :
  exists s', send task_id data s = (Ret tt, s') /\
             batch_tasks s' = batch_tasks s.
Proof.
  unfold Backend.send, Backend.now, on_manager. py_unfold. cbn.
  destruct (ConnectionManagerSpec.send_progress_update_returns task_id
              (data (isoformat (clock s))) (manager s)) as (m' & ->).
  by eexists.
Qed.

Lemma view_same_tasks task_id s s' :
  batch_tasks s' = batch_tasks s -> view task_id s' = view task_id s.
Proof. unfold view, status_of, progress_of. by intros ->. Qed.

Lemma effect_skip task_id : effect_on task_id (mret tt) id.
Proof. intros s Hs. by exists s. Qed.

Lemma effect_send task_id task_id' data :
  effect_on task_id (send task_id' data) id.
Proof.
  intros s Hs. destruct (send_runs task_id' data s) as (s' & Hrun & Hb).
  exists s'. split; [done|]. split; [by rewrite Hb|].
  by apply view_same_tasks.
Qed.

Lemma effect_setitem_status task_id v :
  effect_on task_id (setitem task_id "status" (VStr v)) (set_status v).
Proof.
  intros s [d Hd]. unfold setitem. rewrite Hd. eexists. split; [done|].
  unfold view, status_of, progress_of. cbn. rewrite lookup_insert_eq, Hd.
  split; [done|]. cbn. by rewrite lookup_insert_eq, lookup_insert_ne.
Qed.

Lemma effect_setitem_progress task_id n :
  effect_on task_id (setitem task_id "progress" (VInt n)) (set_progress n).
Proof.
  intros s [d Hd]. unfold setitem. rewrite Hd. eexists. split; [done|].
  unfold view, status_of, progress_of. cbn. rewrite lookup_insert_eq, Hd.
  split; [done|]. cbn. by rewrite lookup_insert_eq, lookup_insert_ne.
Qed.

Lemma effect_update_task task_id (e : string -> dict) g :
  (forall t d, (update (e t) d !! "status", update (e t) d !! "progress")
               = g (d !! "status", d !! "progress")) ->
  effect_on task_id (t ← now; update_task task_id (e t)) g.
Proof.
  intros Hg s [d Hd]. unfold Backend.now, update_task. py_unfold. cbn.
  rewrite Hd. eexists. split; [done|].
  unfold view, status_of, progress_of. cbn. rewrite lookup_insert_eq, Hd.
  split; [done|]. cbn. apply Hg.
Qed.

Lemma effect_read_excel env task_id :
  effect_on task_id
    (try_except
       (match read_excel env with
        | Ret total_rows =>
            send task_id (found_event str task_id total_rows)
        | Raise e => raise e
        end)
       (fun _ => send task_id
                   (progress_event task_id "processing" (VInt 20)
                      "Processing Excel file..."))) id.
Proof.
  intros s Hs. py_unfold. destruct (read_excel env) as [n|e].
  - destruct (effect_send task_id task_id (found_event str task_id n) s Hs)
      as (s' & Hrun & Hres). exists s'. by rewrite Hrun.
  - by apply effect_send.
Qed.

Lemma raises_raise task_id e : raises_on task_id (raise e) e.
Proof. intros s Hs. by exists s. Qed.

Lemma raises_send_raise task_id data e :
  raises_on task_id (send task_id data ;; raise e) e.
Proof.
  intros s Hs. destruct (send_runs task_id data s) as (s' & Hrun & Hb).
  py_unfold. rewrite Hrun. exists s'. split; [done|].
  split; [by rewrite Hb|]. by apply view_same_tasks.
Qed.

(** *** Sequences of statements *)

Lemma last_cons {A} (x : A) (l : list A) (d : A) :
  List.last (x :: l) d = List.last l x.
Proof.
  revert x d. induction l as [|y l IH]; intros x d; [done|].
  change (List.last (x :: y :: l) d) with (List.last (y :: l) d).
  by rewrite !IH.
Qed.

Lemma states_of_effects task_id stmts gs s :
  Forall2 (effect_on task_id) stmts gs ->
  is_Some (batch_tasks s !! task_id) ->
  exists tr,
    states_of stmts s = (Ret tt, tr) /\
    view task_id <$> tr = scan gs (view task_id s) /\
    is_Some (batch_tasks (List.last tr s) !! task_id).
Proof.
  intros H. revert s. induction H as [|stmt g stmts gs Hg _ IH]; intros s Hs.
  - by exists [].
  - destruct (Hg s Hs) as (s' & Hrun & Hs' & Hv).
    destruct (IH s' Hs') as (tr & Htr & Hvs & Hlast).
    exists (s' :: tr). cbn. rewrite Hrun, Htr. split; [done|].
    rewrite Hvs, Hv. split; [done|].
    change (is_Some (batch_tasks (List.last (s' :: tr) s) !! task_id)).
    by rewrite last_cons.
Qed.

Lemma states_of_app stmts1 stmts2 s :
  states_of (stmts1 ++ stmts2) s
  = match states_of stmts1 s with
    | (Ret _, tr) =>
        let '(r, tr2) := states_of stmts2 (List.last tr s) in (r, tr ++ tr2)
    | (Raise e, tr) => (Raise e, tr)
    end.
Proof.
  revert s. induction stmts1 as [|stmt stmts1 IH]; intros s; cbn.
  - by destruct (states_of stmts2 s).
  - destruct (stmt s) as [[[]|e] s']; [|done]. rewrite IH.
    destruct (states_of stmts1 s') as [[[]|e] tr]; [|done].
    rewrite last_cons. by destruct (states_of stmts2 _).
Qed.

Lemma run_states_of stmts s :
  run stmts s = ((states_of stmts s).1, List.last (states_of stmts s).2 s).
Proof.
  revert s. induction stmts as [|stmt stmts IH]; intros s; [done|].
  cbn [run states_of]. py_unfold.
  destruct (stmt s) as [[[]|e] s']; [|done]. rewrite IH.
  destruct (states_of stmts s') as [r tr]. cbn [fst snd].
  by rewrite last_cons.
Qed.

Lemma last_fmap_view task_id tr s :
  view task_id (List.last tr s)
  = List.last (view task_id <$> tr) (view task_id s).
Proof.
  revert s. induction tr as [|s' tr IH]; intros s; [done|].
  rewrite fmap_cons, !last_cons. apply IH.
Qed.

Lemma last_app {A} (l l' : list A) (d : A) :
  List.last (l ++ l') d = List.last l' (List.last l d).
Proof.
  revert d. induction l as [|x l IH]; intros d; [done|].
  change ((x :: l) ++ l') with (x :: (l ++ l')). by rewrite !last_cons, IH.
Qed.

Lemma scan_app {A} (gs1 gs2 : list (A -> A)) (a : A) :
  scan (gs1 ++ gs2) a = scan gs1 a ++ scan gs2 (List.last (scan gs1 a) a).
Proof.
  revert a. induction gs1 as [|g gs1 IH]; intros a; [done|].
  cbn [scan app]. by rewrite IH, last_cons.
Qed.

(** A run in which a statement raises after a prefix of statements that
    complete, followed by the statements of the handler. *)
Lemma states_of_raising task_id pre gs stmt e rest hs hgs s :
  Forall2 (effect_on task_id) pre gs ->
  raises_on task_id stmt e ->
  Forall2 (effect_on task_id) hs hgs ->
  is_Some (batch_tasks s !! task_id) ->
  exists tr tr',
    states_of (pre ++ stmt :: rest) s = (Raise e, tr) /\
    states_of hs (List.last tr s) = (Ret tt, tr') /\
    view task_id <$> (tr ++ tr')
    = scan (gs ++ [id] ++ hgs) (view task_id s).
Proof.
  intros Hpre Hraise Hh Hs.
  destruct (states_of_effects _ _ _ s Hpre Hs) as (tr1 & Htr1 & Hv1 & Hl1).
  destruct (Hraise _ Hl1) as (s2 & Hrun2 & Hs2 & Hv2).
  destruct (states_of_effects _ _ _ s2 Hh Hs2) as (tr3 & Htr3 & Hv3 & _).
  exists (tr1 ++ [s2]), tr3. rewrite states_of_app, Htr1. cbn.
  rewrite Hrun2, last_app. cbn [List.last]. split; [done|]. split; [done|].
  rewrite !fmap_app, Hv1, Hv3, !scan_app. cbn.
  by rewrite <- Hv1, <- last_fmap_view, Hv2, <- app_assoc.
Qed.

Lemma body_effects env task_id :
  fraud_system env = true ->
  exists pre,
    body env task_id
    = pre ++ match process_excel env with
             | Raise e => [raise e]
             | Ret output_path =>
                 [mret tt;
                  send task_id
                    (completed_event task_id
                       (format_2f (VFloat (processing_time env))
                          +:+ " seconds") output_path);
                  (t ← now;
                   update_task task_id
                     (list_to_map
                        [("status", VStr "completed");
                         ("output_path", VStr output_path);
                         ("completed_at", VStr t);
                         ("progress", VInt 100);
                         ("processing_time",
                          VFloat (processing_time env))]))]
             end /\
    Forall2 (effect_on task_id) pre effects_before_processing.
Proof.
  intros Hfs. eexists. split.
  - unfold body, Backend.body. rewrite Hfs, app_assoc. reflexivity.
  - unfold effects_before_processing. apply Forall2_app.
    + repeat first
        [ apply Forall2_nil_2 | apply Forall2_cons_2
        | apply effect_skip | apply effect_send
        | apply effect_setitem_status | apply effect_setitem_progress
        | apply effect_read_excel ].
    + cbn. repeat first
        [ apply Forall2_nil_2 | apply Forall2_cons_2
        | apply effect_skip | apply effect_send
        | apply effect_setitem_progress ].
Qed.

Lemma handler_effects task_id e :
  Forall2 (effect_on task_id) (handler task_id e) [id; set_status "failed"].
Proof.
  unfold handler, Backend.handler. destruct e as [cls msg].
  apply Forall2_cons_2; [apply effect_send|].
  apply Forall2_cons_2; [|apply Forall2_nil_2].
  apply (effect_update_task task_id
           (fun t => list_to_map [("status", VStr "failed");
                                  ("error", VStr msg);
                                  ("completed_at", VStr t)])).
  intros t d. unfold update. cbn. f_equal.
  - by apply lookup_union_Some_l.
  - by apply lookup_union_r.
Qed.

(** What one run of the runner does to the stored status and progress of
    its task; the run itself always completes normally. *)
Lemma lifetime_views env task_id s :
  is_Some (batch_tasks s !! task_id) ->
  exists s',
    process_excel_background env task_id s = (Ret tt, s') /\
    view task_id <$> lifetime env task_id s
    = view task_id s :: scan (effects env) (view task_id s) /\
    view task_id s'
    = List.last (scan (effects env) (view task_id s)) (view task_id s).
Proof.
  intros Hs. unfold process_excel_background, lifetime,
    Backend.process_excel_background, Backend.lifetime, effects.
  unfold try_except. rewrite run_states_of.
  destruct (fraud_system env) eqn:Hfs.
  - destruct (body_effects env task_id Hfs) as (pre & -> & Hpre).
    destruct (process_excel env) as [output_path|e].
    + edestruct (states_of_effects task_id) as (tr & Htr & Hv & _);
        [apply Forall2_app; [exact Hpre|]|exact Hs|].
      { apply Forall2_cons_2; [apply effect_skip|].
        apply Forall2_cons_2; [apply effect_send|].
        apply Forall2_cons_2; [|apply Forall2_nil_2].
        apply (effect_update_task task_id
                 (fun t => list_to_map
                    [("status", VStr "completed");
                     ("output_path", VStr output_path);
                     ("completed_at", VStr t);
                     ("progress", VInt 100);
                     ("processing_time", VFloat (processing_time env))])
                 (fun _ => (Some (VStr "completed"), Some (VInt 100)))).
        intros t d. unfold update. f_equal; by apply lookup_union_Some_l. }
      rewrite Htr. cbn [fst snd]. eexists. split; [reflexivity|].
      rewrite fmap_cons, Hv. split; [done|].
      by rewrite last_fmap_view, Hv.
    + destruct (states_of_raising task_id pre _ (raise e) e [] _ _ s Hpre
                  (raises_raise task_id e) (handler_effects task_id e) Hs)
        as (tr & tr' & Htr & Htr' & Hv).
      rewrite Htr. cbn [fst snd]. rewrite run_states_of, Htr'. cbn [fst snd].
      eexists. split; [reflexivity|]. rewrite fmap_cons, Hv.
      split; [done|]. rewrite <- last_app, last_fmap_view.
      by rewrite Hv.
  - edestruct (states_of_raising task_id
                 [sleep;
                  send task_id (progress_event task_id "starting" (VInt 0)
                                  "Initializing batch processing...");
                  setitem task_id "status" (VStr "processing");
                  setitem task_id "progress" (VInt 5)]
                 [id; id; set_status "processing"; set_progress 5])
      as (tr & tr' & Htr & Htr' & Hv);
      [| apply (raises_send_raise task_id)
       | apply (handler_effects task_id) | exact Hs |].
    { repeat first
        [ apply Forall2_nil_2 | apply Forall2_cons_2
        | apply effect_skip | apply effect_send
        | apply effect_setitem_status | apply effect_setitem_progress ]. }
    unfold body, Backend.body. rewrite Hfs. cbn [app].
    cbn [app] in Htr. rewrite Htr. cbn [fst snd].
    rewrite run_states_of, Htr'. cbn [fst snd].
    eexists. split; [reflexivity|]. rewrite fmap_cons, Hv.
    split; [done|]. rewrite <- last_app, last_fmap_view.
    by rewrite Hv.
Qed.

Lemma upload_view task_id file_path s0 :
  let s := (upload_excel_file task_id file_path s0).2 in
  is_Some (batch_tasks s !! task_id) /\
  view task_id s = (Some (VStr "processing"), Some (VInt 0)).
Proof.
  unfold Backend.upload_excel_file, Backend.now. py_unfold. cbn.
  unfold view, status_of, progress_of. cbn. rewrite lookup_insert_eq.
  split; [by eexists|done].
Qed.

(** An assignment to a field of an existing task stores the value,
    whatever was stored before. *)
Lemma setitem_overwrites task_id key v s d :
  batch_tasks s !! task_id = Some d ->
  exists s',
    setitem task_id key v s = (Ret tt, s') /\
    (batch_tasks s' !! task_id ≫= (.!! key)) = Some v.
Proof.
  intros Hd. unfold setitem. rewrite Hd. eexists. split; [done|].
  cbn. rewrite lookup_insert_eq. cbn. apply lookup_insert_eq.
Qed.

(** In a list made of copies of [a] followed by one [b], an element that
    has a successor is [a]. *)
Lemma replicate_then_last {A} (n : nat) (a b : A) (l : list A) i x y :
  l = replicate (S n) a ++ [b] ->
  l !! i = Some x -> l !! S i = Some y ->
  x = a /\ (y = a \/ y = b).
Proof.
  intros -> Hx Hy.
  pose proof (lookup_lt_Some _ _ _ Hy) as Hlen.
  rewrite length_app, length_replicate in Hlen. cbn in Hlen.
  rewrite lookup_app_l in Hx by (rewrite length_replicate; lia).
  apply lookup_replicate in Hx as [-> _]. split; [done|].
  destruct (decide (S i < S n)) as [Hlt|Hge].
  - rewrite lookup_app_l in Hy by (rewrite length_replicate; lia).
    apply lookup_replicate in Hy as [-> _]. by left.
  - rewrite lookup_app_r in Hy by (rewrite length_replicate; lia).
    rewrite length_replicate in Hy.
    replace (S i - S n) with 0 in Hy by lia. injection Hy as <-. by right.
Qed.

(** The [except] block completes normally, stores [failed] and leaves the
    stored progress as it was. *)
Lemma handler_keeps_progress task_id e st :
  is_Some (batch_tasks st !! task_id) ->
  exists st',
    run (handler task_id e) st = (Ret tt, st') /\
    status_of st' task_id = Some (VStr "failed") /\
    progress_of st' task_id = progress_of st task_id.
Proof.
  intros Hst.
  destruct (states_of_effects task_id (handler task_id e)
              [id; set_status "failed"] st (handler_effects task_id e) Hst)
    as (tr & Htr & Hv & _).
  exists (List.last tr st). rewrite run_states_of, Htr. split; [done|].
  assert (view task_id (List.last tr st)
          = set_status "failed" (view task_id st)) as Hlast.
  { by rewrite last_fmap_view, Hv. }
  unfold view in Hlast.
  destruct (status_of st task_id), (progress_of st task_id);
    by injection Hlast as -> ->.
Qed.



End Formatting.

(** *** Concrete runs *)



Lemma websocket_endpoint_sends_witness :
  exists s',
    Backend.websocket_endpoint sample_isoformat sample_format_2f sample_str
      0 "t" reconnecting = (Ret tt, s') /\
    length (List.filter (has_type "completed")
              (ConnectionManager.sent_to (manager s') 0)) = 2 /\
    length (ConnectionManager.sent_to (manager s') 0) = 12.
Proof.
  destruct (websocket_endpoint_sends sample_isoformat sample_format_2f
              sample_str 0 "t" reconnecting
              {| WebSocket.client_state := WebSocket.CONNECTING;
                 WebSocket.sent := []; WebSocket.script := [] |})
    as (s' & established & snapshot & Hrun & Hsent & Hest & _ & Hsnap & _);
    [vm_compute; reflexivity|reflexivity|reflexivity|].
  assert (has_type "completed" established = false) as Hother.
  { unfold has_type. by rewrite (proj1 Hest). }
  exists s'. split; [exact Hrun|]. rewrite Hsent, Hsnap. split.
  - rewrite !List.filter_app. cbn [List.filter]. rewrite Hother.
    vm_compute. reflexivity.
  - rewrite !length_app. cbn [length]. vm_compute. reflexivity.
Defined.

End BackendSpec.

(** ** More on the score store *)

Module MCPIntegrationMore.
Import Py MCPIntegration MCPIntegrationSpec.

(** [update_score] either stores the vote or leaves the store alone. *)
Lemma update_score_cases claim_id agent s md now self :
  update_score claim_id agent s md now self
  = if valid_score s
    then (Ret true, store_vote claim_id agent s md now self)
    else (Ret false, self).
Proof.
  destruct (valid_score s) eqn:Hv.
  - by apply update_score_accepts.
  - by apply update_score_rejects.
Qed.

Lemma store_vote_other_claim claim_id agent s md now self claim_id' :
  claim_id <> claim_id' ->
  scores (store_vote claim_id agent s md now self) !! claim_id'
  = scores self !! claim_id'.
Proof.
  intros Hne. unfold store_vote; cbn [scores].
  rewrite lookup_insert_ne by done.
  destruct (scores self !! claim_id); [done|].
  by rewrite lookup_insert_ne.
Qed.

(** A call of [update_score], accepted or not, leaves the latest score of
    every other (claim, agent) pair as it was and keeps the earlier
    history entries, in order, at the front of [history]. *)
Theorem update_score_frame claim_id agent s md now self :
  let self' := (update_score claim_id agent s md now self).2 in
  (forall claim_id' agent',
     (claim_id', agent') <> (claim_id, agent) ->
     latest_score self' claim_id' agent' = latest_score self claim_id' agent')
  /\ history self `prefix_of` history self'.
Proof.
  rewrite update_score_cases. destruct (valid_score s); cbn [snd].
  - split; [|by apply prefix_app_r].
    intros claim_id' agent' Hne. unfold latest_score.
    destruct (decide (claim_id = claim_id')) as [<-|Hc].
    + rewrite store_vote_scores. cbn.
      rewrite lookup_insert_ne by congruence.
      by destruct (scores self !! claim_id).
    + by rewrite store_vote_other_claim.
  - done.
Qed.

Lemma update_score_frame_witness :
  latest_score (update_score "X" "E" (1 # 2) None "t5" four_votes).2 "X" "A"
  = Some (8 # 10)%Q.
Proof.
  rewrite (proj1 (update_score_frame "X" "E" (1 # 2) None "t5" four_votes)
             "X" "A"); [vm_compute; reflexivity|discriminate].
Defined.

Section Rounding.

Variable round2 : Q -> Q.

Abbreviation consensus_of := (MCPIntegration.consensus_of round2).
Abbreviation get_consensus := (MCPIntegration.get_consensus round2).

(** An accepted vote is what the next [get_consensus] for that claim
    reports for that agent: the score in [scores], and the score, time and
    metadata in [agent_details]. *)
Theorem vote_then_consensus cfg claim_id agent s md now self :
  (0 <= s)%Q /\ (s <= 1)%Q ->
  let self' := (update_score claim_id agent s md now self).2 in
  exists reached d_scores avg mx n agent_details,
    get_consensus cfg claim_id self'
    = (Ret (reached, Detail d_scores avg mx n agent_details), self') /\
    d_scores !! agent = Some s /\
    agent_details !! agent
    = Some {| score := s; timestamp := now; metadata := default ∅ md |}.
Proof.
  intros Hs%valid_score_iff self'. subst self'.
  rewrite update_score_accepts by done. cbn [snd].
  eexists _, _, _, _, _, _. split.
  - apply get_consensus_some; [apply store_vote_scores|].
    apply insert_non_empty.
  - split; [|apply lookup_insert_eq].
    by rewrite lookup_fmap, lookup_insert_eq.
Qed.

(** The answer of [get_consensus] for a claim depends on that claim's
    votes only: a vote recorded for another claim does not change it. *)
Theorem consensus_per_claim cfg claim_id claim_id' agent s md now self :
  claim_id' <> claim_id ->
  (get_consensus cfg claim_id
     (update_score claim_id' agent s md now self).2).1
  = (get_consensus cfg claim_id self).1.
Proof.
  intros Hne. rewrite update_score_cases.
  destruct (valid_score s); cbn [snd]; [|done].
  unfold MCPIntegration.get_consensus, try_except, gets,
    MCPIntegration.consensus_of. cbn [fst].
  by rewrite store_vote_other_claim.
Qed.

(** The count of votes at or above the threshold never exceeds the number
    of agents that voted, so consensus is never reached on a claim with
    fewer voters than [CONSENSUS_THRESHOLD], whatever their scores. *)
Theorem consensus_needs_quorum cfg claim_id self votes :
  scores self !! claim_id = Some votes ->
  size votes < Config.CONSENSUS_THRESHOLD cfg ->
  exists detail,
    get_consensus cfg claim_id self = (Ret (false, detail), self).
Proof.
  intros Hv Hlt. unfold MCPIntegration.get_consensus, try_except, gets,
    MCPIntegration.consensus_of.
  rewrite Hv.
  assert ((Config.CONSENSUS_THRESHOLD cfg
             <=? count_above (Config.FRAUD_THRESHOLD cfg)
                   (values (score <$> votes)))%nat = false) as ->.
  { apply Nat.leb_gt. eapply Nat.le_lt_trans; [|exact Hlt].
    rewrite <- values_length. unfold count_above.
    apply List.filter_length_le. }
  by eexists.
Qed.

(** *** Every stored score, and what is computed from them, is in [0, 1] *)

Lemma reachable_scores_valid self :
  reachable self ->
  forall claim_id votes agent v,
    scores self !! claim_id = Some votes -> votes !! agent = Some v ->
    in_unit (score v).
Proof.
  induction 1 as [|self c a s md now Hr IH]; intros claim_id votes agent v.
  - cbn. by rewrite lookup_empty.
  - rewrite update_score_cases. destruct (valid_score s) eqn:Hs;
      cbn [snd]; [|exact (IH claim_id votes agent v)].
    destruct (decide (c = claim_id)) as [<-|Hc].
    + rewrite store_vote_scores. intros [= <-].
      destruct (decide (a = agent)) as [<-|Ha].
      * rewrite lookup_insert_eq. intros [= <-]. by apply valid_score_iff.
      * rewrite lookup_insert_ne by done.
        destruct (scores self !! c) as [m|] eqn:Hm; cbn.
        -- by apply (IH c m).
        -- by rewrite lookup_empty.
    + rewrite store_vote_other_claim by done.
      exact (IH claim_id votes agent v).
Qed.

Hypothesis round2_spec : rounds_to_hundredths round2.

Lemma round2_unit (x : Q) : in_unit x -> in_unit (round2 x).
Proof.
  intros [H0 H1]. destruct (round2_spec x) as (k & -> & Hclose).
  apply Qabs_Qle_condition in Hclose as [Hlo Hhi].
  assert (inject_Z (-1) < inject_Z k)%Q as Hk0.
  { change (inject_Z (-1)) with (-1)%Q. unfold Qdiv in *.
    change (/ 100)%Q with (1 # 100)%Q in *.
    set (a := inject_Z k) in *. clearbody a. lra. }
  assert (inject_Z k < inject_Z 101)%Q as Hk1.
  { change (inject_Z 101) with 101%Q. unfold Qdiv in *.
    change (/ 100)%Q with (1 # 100)%Q in *.
    set (a := inject_Z k) in *. clearbody a. lra. }
  rewrite <- Zlt_Qlt in Hk0, Hk1.
  assert (0 <= k <= 100)%Z as [Hz0 Hz1] by lia.
  rewrite Zle_Qle in Hz0, Hz1.
  change (inject_Z 0) with 0%Q in Hz0.
  change (inject_Z 100) with 100%Q in Hz1.
  unfold in_unit, Qdiv. change (/ 100)%Q with (1 # 100)%Q.
  set (a := inject_Z k) in *. clearbody a. lra.
Qed.

Lemma Qsum_unit (l : list Q) :
  Forall in_unit l ->
  (0 <= Qsum l)%Q /\ (Qsum l <= inject_Z (Z.of_nat (length l)))%Q.
Proof.
  induction 1 as [|x l [Hx0 Hx1] _ [IH0 IH1]]; cbn [Qsum foldr length].
  - split; apply Qle_refl.
  - fold (Qsum l). rewrite Nat2Z.inj_succ, <- Z.add_1_r, inject_Z_plus.
    change (inject_Z 1) with 1%Q. split; lra.
Qed.

(** In a store built by [update_score] calls every stored score lies in
    [0, 1], and so do the [average_score] and the [max_score] that
    [get_consensus] returns. *)
Theorem consensus_within_unit cfg claim_id self :
  reachable self ->
  (forall votes agent v,
     scores self !! claim_id = Some votes -> votes !! agent = Some v ->
     (0 <= score v)%Q /\ (score v <= 1)%Q) /\
  (forall reached d_scores avg mx n agent_details,
     get_consensus cfg claim_id self
     = (Ret (reached, Detail d_scores avg mx n agent_details), self) ->
     ((0 <= avg)%Q /\ (avg <= 1)%Q) /\ ((0 <= mx)%Q /\ (mx <= 1)%Q)).
Proof.
  intros Hr. split.
  - intros votes agent v. apply (reachable_scores_valid self Hr).
  - intros reached ds avg mx n det.
    unfold MCPIntegration.get_consensus, try_except, gets,
    MCPIntegration.consensus_of.
    destruct (scores self !! claim_id) as [votes|] eqn:Hv; [|done].
    intros Heq. injection Heq as _ _ <- <- _ _.
    assert (Forall in_unit (values (score <$> votes))) as Hall.
    { rewrite values_fmap. apply Forall_fmap, Forall_forall.
      intros [a v] Hin%elem_of_map_to_list. cbn.
      by apply (reachable_scores_valid self Hr claim_id votes a). }
    destruct (values (score <$> votes)) as [|x l] eqn:E.
    { split; apply (round2_unit 0); split; discriminate. }
    rewrite <- E in *. split.
    + apply round2_unit. destruct (Qsum_unit _ Hall) as [H0 H1].
      assert (0 < inject_Z (Z.of_nat (length (values (score <$> votes)))))%Q
        as Hpos.
      { rewrite E. cbn [length].
        change 0%Q with (inject_Z 0). rewrite <- Zlt_Qlt. lia. }
      split.
      * apply Qle_shift_div_l; [done|]. lra.
      * apply Qle_shift_div_r; [done|]. lra.
    + apply round2_unit.
      assert (values (score <$> votes) <> []) as Hne by (by rewrite E).
      destruct (Qmax_list_spec _ Hne) as [Hin _].
      rewrite Forall_forall in Hall. by apply Hall.
Qed.

End Rounding.

(** *** Concrete stores *)

Lemma vote_then_consensus_witness :
  let self' := (update_score "X" "A" (8 # 10) None "t0" init).2 in
  exists reached d_scores avg mx n agent_details,
    get_consensus sample_round2 Config.default "X" self'
    = (Ret (reached, Detail d_scores avg mx n agent_details), self') /\
    d_scores !! "A" = Some (8 # 10)%Q.
Proof.
  destruct (vote_then_consensus sample_round2 Config.default "X" "A" (8 # 10) None "t0"
              init) as (r & ds & avg & mx & n & det & Hg & Hs & _);
    [split; discriminate|].
  cbv zeta. by exists r, ds, avg, mx, n, det.
Defined.

Lemma consensus_per_claim_witness :
  (get_consensus sample_round2 Config.default "X"
     (update_score "Y" "A" (9 # 10) None "t9" four_votes).2).1
  = (get_consensus sample_round2 Config.default "X" four_votes).1.
Proof.
  apply (consensus_per_claim sample_round2 Config.default "X" "Y" "A"
           (9 # 10) None "t9" four_votes).
  discriminate.
Defined.

Lemma consensus_needs_quorum_witness :
  let self :=
    (update_score "X" "B" 1 None "t2"
       (update_score "X" "A" 1 None "t1" init).2).2 in
  exists detail,
    get_consensus sample_round2 Config.default "X" self
    = (Ret (false, detail), self).
Proof.
  intros self.
  destruct (scores self !! "X") as [votes|] eqn:Hv;
    [|vm_compute in Hv; discriminate].
  apply (consensus_needs_quorum sample_round2 Config.default "X" self votes
           Hv).
  vm_compute in Hv. injection Hv as <-. vm_compute. lia.
Defined.

Lemma consensus_within_unit_witness :
  exists reached d_scores avg mx n agent_details,
    get_consensus sample_round2 Config.default "X" four_votes
    = (Ret (reached, Detail d_scores avg mx n agent_details), four_votes) /\
    (0 <= avg)%Q /\ (avg <= 1)%Q /\ (0 <= mx)%Q /\ (mx <= 1)%Q.
Proof.
  assert (reachable four_votes) as Hr.
  { unfold four_votes. repeat apply reachable_update. apply reachable_init. }
  destruct (get_consensus sample_round2 Config.default "X" four_votes) as [r s] eqn:Hg.
  vm_compute in Hg.
  injection Hg as <- <-.
  eexists _, _, _, _, _, _. split; [vm_compute; reflexivity|].
  destruct (proj2 (consensus_within_unit sample_round2 sample_round2_rounds
                     Config.default "X" four_votes Hr)
              _ _ _ _ _ _ ltac:(vm_compute; reflexivity))
    as [[Ha0 Ha1] [Hm0 Hm1]].
  by repeat split.
Defined.

End MCPIntegrationMore.

(** ** More on the connection manager *)

Module ConnectionManagerMore.
Import Py ConnectionManager ConnectionManagerSpec.

(** *** Broadcasting *)

(** One iteration of the first loop of [broadcast_to_all]. *)
Lemma broadcast_step task_id ws data (acc : list string) self :
  exists self1,
    try_except
      (st ← client_state ws;
       match st with
       | WebSocket.CONNECTED => send_text ws data ;; mret acc
       | _ => mret (acc ++ [task_id])
       end)
      (fun _ => mret (acc ++ [task_id])) self
    = (Ret (if delivers self ws then acc else acc ++ [task_id]), self1) /\
    active_connections self1 = active_connections self /\
    pending_updates self1 = pending_updates self /\
    (forall ws', ws' <> ws -> sockets self1 !! ws' = sockets self !! ws') /\
    sent_to self1 ws
    = sent_to self ws ++ (if delivers self ws then [data] else []).
Proof.
  py_unfold. unfold client_state, send_text, delivers, sent_to.
  destruct (sockets self !! ws) as [w|] eqn:Hw; cbn.
  - destruct (WebSocket.client_state w) eqn:Hst.
    + exists self. rewrite ?Hw, ?app_nil_r. by split_and!.
    + rewrite Hw. destruct (WebSocket.script w) as [|[] rest] eqn:Hsc.
      * eexists. split; [reflexivity|]. cbn. split_and!; try done.
        -- intros ws' Hne. by rewrite lookup_insert_ne.
        -- by rewrite lookup_insert_eq.
      * eexists. split; [reflexivity|]. cbn. split_and!; try done.
        -- intros ws' Hne. by rewrite lookup_insert_ne.
        -- by rewrite lookup_insert_eq.
      * eexists. split; [reflexivity|]. cbn. split_and!; try done.
        -- intros ws' Hne. by rewrite lookup_insert_ne.
        -- by rewrite lookup_insert_eq, ?app_nil_r.
    + exists self. rewrite ?Hw, ?app_nil_r. by split_and!.
  - exists self. rewrite ?Hw, ?app_nil_r. by split_and!.
Qed.

Lemma delivers_same_socket self self' ws :
  sockets self' !! ws = sockets self !! ws ->
  delivers self' ws = delivers self ws.
Proof. unfold delivers. by intros ->. Qed.

Lemma sent_to_same_socket self self' ws :
  sockets self' !! ws = sockets self !! ws ->
  sent_to self' ws = sent_to self ws.
Proof. unfold sent_to. by intros ->. Qed.

(** The first loop, over items with distinct tasks and distinct sockets:
    it reports the tasks whose socket does not deliver and sends the
    update once to each socket that does. *)
Lemma broadcast_sends_spec items data (acc : list string) self :
  NoDup items.*1 -> NoDup items.*2 ->
  exists dropped self',
    broadcast_sends items data acc self = (Ret (acc ++ dropped), self') /\
    dropped `sublist_of` items.*1 /\
    (forall task_id ws,
       (task_id, ws) ∈ items ->
       task_id ∈ dropped <-> delivers self ws = false) /\
    active_connections self' = active_connections self /\
    pending_updates self' = pending_updates self /\
    (forall ws, ws ∉ items.*2 -> sockets self' !! ws = sockets self !! ws) /\
    (forall ws, ws ∈ items.*2 ->
       sent_to self' ws
       = sent_to self ws ++ (if delivers self ws then [data] else [])).
Proof.
  revert acc self. induction items as [|[task_id ws] items IH];
    intros acc self Hkeys Hsocks.
  - exists [], self. rewrite app_nil_r. split_and!; try done.
    + intros tid ws' Hin. by apply elem_of_nil in Hin.
    + intros ws' Hin. by apply elem_of_nil in Hin.
  - cbn [fmap list_fmap fst snd] in Hkeys, Hsocks.
    apply NoDup_cons in Hkeys as [Hkey Hkeys].
    apply NoDup_cons in Hsocks as [Hsock Hsocks].
    cbn [broadcast_sends].
    destruct (broadcast_step task_id ws data acc self)
      as (self1 & Hstep & Ha1 & Hp1 & Hs1 & Hsent1).
    unfold mbind at 1, M_bind at 1, Py.bind at 1. rewrite Hstep.
    destruct (IH (if delivers self ws then acc else acc ++ [task_id]) self1
                Hkeys Hsocks)
      as (dropped & self' & Hrun & Hsub & Hiff & Ha & Hp & Hs & Hsent).
    exists ((if delivers self ws then [] else [task_id]) ++ dropped), self'.
    assert (forall ws', ws' ∈ items.*2 -> ws' <> ws) as Hother.
    { intros ws' Hin ->. by apply Hsock. }
    split_and!.
    + rewrite Hrun. f_equal. f_equal. destruct (delivers self ws); [done|].
      by rewrite <- app_assoc.
    + cbn [fmap list_fmap fst]. destruct (delivers self ws); cbn.
      * by apply sublist_cons.
      * by apply sublist_skip.
    + intros tid ws' [Heq|Hin]%elem_of_cons.
      * injection Heq as -> ->. destruct (delivers self ws) eqn:Hd; cbn.
        -- split; [|done]. intros Hin. exfalso. apply Hkey.
           by apply (elem_of_sublist _ _ _ Hin).
        -- split; [done|]. intros _. by left.
      * assert (tid <> task_id) as Hne.
        { intros ->. apply Hkey. apply list_elem_of_fmap.
          by exists (task_id, ws'). }
        assert (ws' ∈ items.*2) as Hin2.
        { apply list_elem_of_fmap. by exists (tid, ws'). }
        rewrite <- (delivers_same_socket self self1 ws')
          by (apply Hs1; by apply Hother).
        rewrite <- (Hiff tid ws' Hin). rewrite elem_of_app.
        destruct (delivers self ws).
        -- rewrite elem_of_nil. tauto.
        -- rewrite list_elem_of_singleton. tauto.
    + by rewrite Ha.
    + by rewrite Hp.
    + cbn [fmap list_fmap snd]. intros ws' Hnot.
      apply not_elem_of_cons in Hnot as [Hne Hnot].
      rewrite Hs by done. by apply Hs1.
    + cbn [fmap list_fmap snd]. intros ws' [->|Hin]%elem_of_cons.
      * rewrite (sent_to_same_socket self1 self' ws) by (by apply Hs).
        exact Hsent1.
      * rewrite Hsent by done.
        rewrite (delivers_same_socket self self1 ws'),
          (sent_to_same_socket self self1 ws');
          by (try done; apply Hs1; by apply Hother).
Qed.

Lemma stored_same_pending self self' task_id data :
  pending_updates self' = pending_updates self ->
  stored self' task_id data = stored self task_id data.
Proof.
  intros Hp. unfold stored. by rewrite (buffer_same_pending self self').
Qed.

(** The second loop, on a list of distinct tasks. *)
Lemma broadcast_cleanup_spec tasks data self :
  NoDup tasks ->
  let self' := broadcast_cleanup tasks data self in
  sockets self' = sockets self /\
  (forall task_id,
     active_connections self' !! task_id
     = if decide (task_id ∈ tasks) then None
       else active_connections self !! task_id) /\
  (forall task_id,
     pending_updates self' !! task_id
     = if decide (task_id ∈ tasks) then Some (stored self task_id data)
       else pending_updates self !! task_id).
Proof.
  intros Hnd. revert self.
  induction Hnd as [|t tasks Hnotin Hnd IH]; intros self; cbn.
  - repeat split; intros; by rewrite decide_False by apply not_elem_of_nil.
  - set (self1 := disconnect t (_store_pending_update t data self)).
    destruct (IH self1) as (Hs & Ha & Hp). split; [|split].
    + rewrite Hs. subst self1.
      by rewrite disconnect_sockets, store_pending_sockets.
    + intros tid. rewrite Ha. subst self1.
      rewrite disconnect_active, store_pending_active.
      destruct (decide (tid ∈ tasks)) as [Hin|Hnin].
      * rewrite decide_True; [done|by right].
      * destruct (decide (tid = t)) as [->|Hne].
        -- rewrite decide_True by left. apply lookup_delete_eq.
        -- rewrite decide_False, lookup_delete_ne by
             (try done; by intros [?|?]%elem_of_cons).
           done.
    + intros tid. rewrite Hp. subst self1.
      rewrite disconnect_pending, store_pending_updates.
      destruct (decide (tid ∈ tasks)) as [Hin|Hnin].
      * rewrite decide_True by (by right). f_equal.
        assert (tid <> t) as Hne by congruence.
        unfold stored, buffer.
        rewrite disconnect_pending, store_pending_updates.
        by rewrite lookup_insert_ne.
      * destruct (decide (tid = t)) as [->|Hne].
        -- rewrite decide_True by left. by rewrite lookup_insert_eq.
        -- rewrite decide_False by (by intros [?|?]%elem_of_cons).
           by rewrite lookup_insert_ne.
Qed.

(** [broadcast_to_all] never raises.  Where no socket is registered for
    two tasks, a task whose socket is [CONNECTED] and takes the update
    keeps its registration and its buffer, and the socket receives the
    update once; every other registered task, its socket missing, not
    [CONNECTED] or raising on the send, loses its registration and has
    the update put in its buffer as [_store_pending_update] does, and
    its socket receives nothing.  Tasks without a registration and
    sockets that are not registered are not touched. *)
Theorem broadcast_isolates_failures data self :
  (forall task_id1 task_id2 ws,
     active_connections self !! task_id1 = Some ws ->
     active_connections self !! task_id2 = Some ws ->
     task_id1 = task_id2) ->
  exists self',
    broadcast_to_all data self = (Ret tt, self') /\
    (forall task_id,
       active_connections self' !! task_id
       = match active_connections self !! task_id with
         | Some ws => if delivers self ws then Some ws else None
         | None => None
         end) /\
    (forall task_id,
       pending_updates self' !! task_id
       = match active_connections self !! task_id with
         | Some ws =>
             if delivers self ws then pending_updates self !! task_id
             else Some (stored self task_id data)
         | None => pending_updates self !! task_id
         end) /\
    (forall task_id ws,
       active_connections self !! task_id = Some ws ->
       sent_to self' ws
       = sent_to self ws ++ (if delivers self ws then [data] else [])) /\
    (forall ws,
       (forall task_id, active_connections self !! task_id <> Some ws) ->
       sent_to self' ws = sent_to self ws).
Proof.
  intros Hinj. unfold broadcast_to_all. py_unfold.
  set (items := map_to_list (active_connections self)).
  assert (NoDup items.*1) as Hkeys by apply NoDup_fst_map_to_list.
  assert (NoDup items.*2) as Hsocks.
  { apply NoDup_fmap_2_strong; [|apply NoDup_map_to_list].
    intros [t1 ws1] [t2 ws2] Hin1%elem_of_map_to_list
      Hin2%elem_of_map_to_list Heq. cbn in Heq. subst ws2.
    by rewrite (Hinj t1 t2 ws1). }
  destruct (broadcast_sends_spec items data [] self Hkeys Hsocks)
    as (dropped & self1 & Hrun & Hsub & Hiff & Ha & Hp & Hs & Hsent).
  rewrite Hrun. cbn [app].
  assert (NoDup dropped) as Hnd by exact (sublist_NoDup _ _ Hkeys Hsub).
  destruct (broadcast_cleanup_spec dropped data self1 Hnd)
    as (Hs2 & Ha2 & Hp2).
  assert (forall task_id,
    task_id ∈ dropped
    <-> exists ws, active_connections self !! task_id = Some ws /\
                   delivers self ws = false) as Hdropped.
  { intros tid. split.
    - intros Hin. pose proof (elem_of_sublist _ _ _ Hin Hsub) as Hreg.
      apply list_elem_of_fmap in Hreg as ([tid' ws] & -> & Hreg).
      exists ws. split; [by apply elem_of_map_to_list|].
      by apply (Hiff tid' ws).
    - intros (ws & Hreg%elem_of_map_to_list & Hd). by apply (Hiff tid ws). }
  exists (broadcast_cleanup dropped data self1).
  split; [done|]. split_and!.
  - intros tid. rewrite Ha2, Ha.
    destruct (active_connections self !! tid) as [ws|] eqn:Hreg.
    + destruct (delivers self ws) eqn:Hd.
      * rewrite decide_False; [done|]. rewrite Hdropped.
        intros (ws' & Hreg' & Hd'). congruence.
      * rewrite decide_True; [done|]. apply Hdropped. by exists ws.
    + rewrite decide_False; [done|]. rewrite Hdropped.
      intros (ws' & Hreg' & _). congruence.
  - intros tid. rewrite Hp2, Hp, (stored_same_pending self self1) by done.
    destruct (active_connections self !! tid) as [ws|] eqn:Hreg.
    + destruct (delivers self ws) eqn:Hd.
      * rewrite decide_False; [done|]. rewrite Hdropped.
        intros (ws' & Hreg' & Hd'). congruence.
      * rewrite decide_True; [done|]. apply Hdropped. by exists ws.
    + rewrite decide_False; [done|]. rewrite Hdropped.
      intros (ws' & Hreg' & _). congruence.
  - intros tid ws Hreg%elem_of_map_to_list.
    rewrite (sent_to_same_socket self1 _ ws) by (by rewrite Hs2).
    apply Hsent. apply list_elem_of_fmap. by exists (tid, ws).
  - intros ws Hfree.
    rewrite (sent_to_same_socket self1 _ ws) by (by rewrite Hs2).
    apply sent_to_same_socket, Hs.
    intros ([tid ws'] & -> & Hin%elem_of_map_to_list)%list_elem_of_fmap.
    by apply (Hfree tid).
Qed.

Lemma broadcast_isolates_failures_witness :
  let data : dict := {["type" := VStr "progress"]} in
  let idle st script :=
    {| WebSocket.client_state := st; WebSocket.sent := [];
       WebSocket.script := script |} in
  let self :=
    {| sockets :=
         {[ 0 := idle WebSocket.CONNECTED [];
            1 := idle WebSocket.DISCONNECTED [];
            2 := idle WebSocket.CONNECTED [false] ]};
       active_connections := {[ "a" := 0; "b" := 1; "c" := 2 ]};
       pending_updates := ∅ |} in
  exists self',
    broadcast_to_all data self = (Ret tt, self') /\
    active_connections self' = {[ "a" := 0 ]} /\
    pending_updates self' = {[ "b" := [data]; "c" := [data] ]} /\
    sent_to self' 0 = [data] /\ sent_to self' 1 = [] /\ sent_to self' 2 = [].
Proof.
  intros data idle self.
  destruct (broadcast_isolates_failures data self)
    as (self' & Hrun & Ha & Hp & Hsent & _).
  { intros t1 t2 ws H1%elem_of_map_to_list H2%elem_of_map_to_list.
    vm_compute in H1, H2.
    repeat (apply elem_of_cons in H1 as [H1|H1];
            [injection H1 as -> ->|]);
      try (by apply elem_of_nil in H1);
      repeat (apply elem_of_cons in H2 as [H2|H2];
              [by injection H2 as ->|]);
      by apply elem_of_nil in H2. }
  exists self'. split; [exact Hrun|]. split_and!.
  - apply map_eq. intros tid. rewrite Ha.
    destruct (decide (tid = "a")) as [->|Ha'];
      [reflexivity|].
    destruct (decide (tid = "b")) as [->|Hb']; [reflexivity|].
    destruct (decide (tid = "c")) as [->|Hc']; [reflexivity|].
    subst self. cbn [active_connections].
    by rewrite !lookup_insert_ne, !lookup_singleton_ne by done.
  - apply map_eq. intros tid. rewrite Hp.
    destruct (decide (tid = "a")) as [->|Ha'];
      [reflexivity|].
    destruct (decide (tid = "b")) as [->|Hb']; [reflexivity|].
    destruct (decide (tid = "c")) as [->|Hc']; [reflexivity|].
    subst self. cbn [active_connections pending_updates].
    by rewrite !lookup_insert_ne, !lookup_singleton_ne, ?lookup_empty by done.
  - exact (Hsent "a" 0 eq_refl).
  - exact (Hsent "b" 1 eq_refl).
  - exact (Hsent "c" 2 eq_refl).
Defined.

(** *** Disconnecting, connecting and emitting together *)

(** After [disconnect] an update for the task goes to its buffer and to
    no socket. *)
Theorem emit_after_disconnect task_id data self :
  exists self',
    send_progress_update task_id data (disconnect task_id self)
    = (Ret tt, self') /\
    sockets self' = sockets self /\
    active_connections self' !! task_id = None /\
    buffer self' task_id = stored self task_id data.
Proof.
  assert (active_connections (disconnect task_id self) !! task_id = None)
    as Hnone by (rewrite disconnect_active; apply lookup_delete_eq).
  unfold send_progress_update. py_unfold. rewrite Hnone.
  eexists. split; [reflexivity|]. split; [|split].
  - by rewrite store_pending_sockets, disconnect_sockets.
  - by rewrite store_pending_active.
  - rewrite store_pending_buffer. unfold stored.
    by rewrite (buffer_same_pending self) by apply disconnect_pending.
Qed.

Lemma emit_all_sockets task_id events self :
  active_connections self !! task_id = None ->
  sockets (emit_all task_id events self).2 = sockets self.
Proof.
  revert self. induction events as [|data events IH]; intros self Hnone;
    [done|].
  cbn [emit_all]. py_unfold.
  assert (send_progress_update task_id data self
          = (Ret tt, _store_pending_update task_id data self)) as ->.
  { unfold send_progress_update. py_unfold. by rewrite Hnone. }
  rewrite IH by (by rewrite store_pending_active).
  apply store_pending_sockets.
Qed.

(** Updates emitted for a task that nobody observes and that has no
    buffer yet come back when an observer connects on a socket that does
    not fail: it receives the last ten non-heartbeat updates, in the order
    of emission, the buffer entry is removed, and the next update is
    delivered to it directly, after the replayed ones. *)
Theorem emit_connect_round_trip task_id events ws w data self :
  active_connections self !! task_id = None ->
  pending_updates self !! task_id = None ->
  sockets self !! ws = Some w ->
  WebSocket.client_state w = WebSocket.CONNECTING ->
  WebSocket.script w = [] ->
  exists self1 self2 self3,
    emit_all task_id events self = (Ret tt, self1) /\
    connect ws task_id self1 = (Ret tt, self2) /\
    sent_to self2 ws = WebSocket.sent w ++ last_n 10 (important events) /\
    pending_updates self2 !! task_id = None /\
    send_progress_update task_id data self2 = (Ret tt, self3) /\
    sent_to self3 ws
    = WebSocket.sent w ++ last_n 10 (important events) ++ [data] /\
    pending_updates self3 !! task_id = None.
Proof.
  intros Hnone Hpend Hw Hst Hsc.
  destruct (emit_all_disconnected task_id events self Hnone)
    as (self1 & Hrun1 & _ & Hbuf).
  pose proof (emit_all_sockets task_id events self Hnone) as Hsocks.
  rewrite Hrun1 in Hsocks. cbn in Hsocks.
  assert (buffer self1 task_id = last_n 10 (important events)) as Hb.
  { rewrite Hbuf. unfold buffer. rewrite Hpend. cbn.
    by destruct (important events). }
  clear Hbuf. destruct self1 as [socks1 act1 pend1]. cbn in Hsocks.
  subst socks1. destruct w as [st sent0 sc]. cbn in Hst, Hsc. subst st sc.
  unfold buffer in Hb. cbn in Hb.
  eexists _, _, _. split; [exact Hrun1|].
  rewrite (BackendSpec.connect_reliable ws task_id _ act1 pend1 sent0 Hw).
  split; [reflexivity|]. unfold sent_to. cbn [sockets pending_updates].
  rewrite lookup_insert_eq, Hb. cbn [WebSocket.sent].
  split; [reflexivity|]. split; [apply lookup_delete_eq|].
  erewrite (BackendSpec.send_progress_update_reliable ws);
    [|apply lookup_insert_eq|apply lookup_insert_eq].
  split; [reflexivity|]. cbn [sockets pending_updates].
  rewrite lookup_insert_eq. cbn [WebSocket.sent].
  split; [by rewrite <- app_assoc|apply lookup_delete_eq].
Qed.

Lemma emit_connect_round_trip_witness :
  let ev (n : Z) : dict := {["type" := VStr "progress"; "progress" := VInt n]}
  in
  let beat : dict := {["type" := VStr "heartbeat"]} in
  let self :=
    {| sockets := {[ 0 := {| WebSocket.client_state := WebSocket.CONNECTING;
                             WebSocket.sent := [];
                             WebSocket.script := [] |} ]};
       active_connections := ∅; pending_updates := ∅ |} in
  exists self1 self2,
    emit_all "t" [ev 10%Z; beat; ev 20%Z] self = (Ret tt, self1) /\
    connect 0 "t" self1 = (Ret tt, self2) /\
    sent_to self2 0 = [ev 10%Z; ev 20%Z].
Proof.
  intros ev beat self.
  destruct (emit_connect_round_trip "t" [ev 10%Z; beat; ev 20%Z] 0
              {| WebSocket.client_state := WebSocket.CONNECTING;
                 WebSocket.sent := []; WebSocket.script := [] |}
              beat self eq_refl eq_refl eq_refl eq_refl eq_refl)
    as (self1 & self2 & _ & Hrun1 & Hrun2 & Hsent & _).
  exists self1, self2. split; [exact Hrun1|]. split; [exact Hrun2|].
  rewrite Hsent. reflexivity.
Defined.

(** A new [connect] for a task takes the place of the observer that was
    registered: the new socket gets the replay and the later updates, the
    old one gets nothing more. *)
Theorem connect_replaces_observer task_id ws1 ws2 w2 data self :
  active_connections self !! task_id = Some ws1 ->
  ws1 <> ws2 ->
  sockets self !! ws2 = Some w2 ->
  WebSocket.client_state w2 = WebSocket.CONNECTING ->
  WebSocket.script w2 = [] ->
  exists self1 self2,
    connect ws2 task_id self = (Ret tt, self1) /\
    active_connections self1 !! task_id = Some ws2 /\
    send_progress_update task_id data self1 = (Ret tt, self2) /\
    sent_to self2 ws2 = WebSocket.sent w2 ++ buffer self task_id ++ [data] /\
    sent_to self2 ws1 = sent_to self ws1.
Proof.
  intros Hreg Hne Hw Hst Hsc. destruct self as [socks act pend].
  destruct w2 as [st sent0 sc]. cbn in *. subst st sc.
  eexists _, _.
  rewrite (BackendSpec.connect_reliable ws2 task_id _ act pend sent0 Hw).
  split; [reflexivity|]. cbn [active_connections].
  split; [apply lookup_insert_eq|].
  erewrite (BackendSpec.send_progress_update_reliable ws2);
    [|apply lookup_insert_eq|apply lookup_insert_eq].
  split; [reflexivity|]. unfold sent_to, buffer. cbn [sockets pending_updates].
  rewrite lookup_insert_eq, !lookup_insert_ne by done. cbn [WebSocket.sent].
  split; [by rewrite <- app_assoc|done].
Qed.

Lemma connect_replaces_observer_witness :
  let idle st := {| WebSocket.client_state := st; WebSocket.sent := [];
                    WebSocket.script := [] |} in
  let data : dict := {["type" := VStr "progress"]} in
  let self :=
    {| sockets := {[ 0 := idle WebSocket.CONNECTED;
                     1 := idle WebSocket.CONNECTING ]};
       active_connections := {[ "t" := 0 ]}; pending_updates := ∅ |} in
  exists self1 self2,
    connect 1 "t" self = (Ret tt, self1) /\
    send_progress_update "t" data self1 = (Ret tt, self2) /\
    sent_to self2 1 = [data] /\ sent_to self2 0 = [].
Proof.
  intros idle data self.
  destruct (connect_replaces_observer "t" 0 1 (idle WebSocket.CONNECTING)
              data self eq_refl ltac:(discriminate) eq_refl eq_refl eq_refl)
    as (self1 & self2 & Hrun1 & _ & Hrun2 & Hnew & Hold).
  exists self1, self2. split; [exact Hrun1|]. split; [exact Hrun2|].
  split; [exact Hnew|exact Hold].
Defined.

(** When [accept] raises, [connect] raises the same exception before it
    has registered the socket or touched a buffer. *)
Theorem connect_refused ws task_id self e :
  (accept ws self).1 = Raise e ->
  exists self',
    connect ws task_id self = (Raise e, self') /\
    active_connections self' = active_connections self /\
    pending_updates self' = pending_updates self.
Proof.
  intros Hacc. unfold connect. py_unfold.
  destruct (accept_frame ws self) as [Ha Hp].
  destruct (accept ws self) as [[[]|e'] self0]; cbn in *; [done|].
  injection Hacc as ->. by exists self0.
Qed.

Lemma connect_refused_witness :
  let self :=
    {| sockets := {[ 0 := {| WebSocket.client_state := WebSocket.CONNECTED;
                             WebSocket.sent := [];
                             WebSocket.script := [] |} ]};
       active_connections := ∅;
       pending_updates := {[ "t" := [{["type" := VStr "completed"]}] ]} |} in
  exists e self',
    connect 0 "t" self = (Raise e, self') /\
    active_connections self' !! "t" = None /\
    pending_updates self' !! "t" = Some [{["type" := VStr "completed"]}].
Proof.
  intros self.
  destruct (connect_refused 0 "t" self
              (Exn "RuntimeError" "accept in a wrong state") eq_refl)
    as (self' & Hrun & Ha & Hp).
  eexists _, self'. split; [exact Hrun|]. by rewrite Ha, Hp.
Defined.

End ConnectionManagerMore.

(** ** More on the endpoint, the routes and the runner *)

Module BackendMore.
Import Py Backend BackendSpec.

(** What a call of [send_progress_update] does to pending buffers and to
    what sockets have received. *)
Lemma send_progress_update_traces task_id data self :
  exists self',
    ConnectionManager.send_progress_update task_id data self
    = (Ret tt, self') /\
    (forall task_id',
       ConnectionManager.buffer self' task_id'
       = if decide (task_id' = task_id)
         then ConnectionManager.buffer self' task_id
         else ConnectionManager.buffer self task_id') /\
    (ConnectionManager.buffer self' task_id
     = ConnectionManager.buffer self task_id \/
     ConnectionManager.buffer self' task_id
     = ConnectionManager.stored self task_id data) /\
    (forall ws,
       ConnectionManager.sent_to self' ws = ConnectionManager.sent_to self ws
       \/ ConnectionManager.sent_to self' ws
          = ConnectionManager.sent_to self ws ++ [data]).
Proof.
  assert (Hstore : forall self1,
    ConnectionManager.pending_updates self1
    = ConnectionManager.pending_updates self ->
    let self' :=
      ConnectionManager.disconnect task_id
        (ConnectionManager._store_pending_update task_id data self1) in
    (forall task_id',
       ConnectionManager.buffer self' task_id'
       = if decide (task_id' = task_id)
         then ConnectionManager.buffer self' task_id
         else ConnectionManager.buffer self task_id') /\
    (ConnectionManager.buffer self' task_id
     = ConnectionManager.buffer self task_id \/
     ConnectionManager.buffer self' task_id
     = ConnectionManager.stored self task_id data)).
  { intros self1 Hp self'. subst self'. split.
    - intros tid. destruct (decide (tid = task_id)) as [->|Hne]; [done|].
      unfold ConnectionManager.buffer.
      rewrite ConnectionManagerSpec.disconnect_pending,
        ConnectionManagerSpec.store_pending_updates, Hp.
      by rewrite lookup_insert_ne.
    - right. unfold ConnectionManager.buffer at 1.
      rewrite ConnectionManagerSpec.disconnect_pending,
        ConnectionManagerSpec.store_pending_updates, lookup_insert_eq.
      unfold ConnectionManager.stored. cbn.
      by rewrite (ConnectionManagerSpec.buffer_same_pending self self1). }
  assert (Hsame : forall tid,
    ConnectionManager.buffer self tid
    = if decide (tid = task_id) then ConnectionManager.buffer self task_id
      else ConnectionManager.buffer self tid).
  { intros tid. by destruct (decide (tid = task_id)) as [->|]. }
  unfold ConnectionManager.send_progress_update. py_unfold.
  destruct (ConnectionManager.active_connections self !! task_id)
    as [ws|] eqn:Hws.
  - unfold ConnectionManager.client_state, ConnectionManager.send_text.
    destruct (ConnectionManager.sockets self !! ws) as [w|] eqn:Hw.
    + destruct (WebSocket.client_state w).
      * eexists. split; [reflexivity|].
        destruct (Hstore self eq_refl) as [H1 H2].
        split; [exact H1|]. split; [exact H2|]. intros ws'. left.
        unfold ConnectionManager.sent_to.
        by rewrite ConnectionManagerSpec.disconnect_sockets,
          ConnectionManagerSpec.store_pending_sockets.
      * rewrite Hw. destruct (WebSocket.script w) as [|[] rest].
        -- eexists. split; [reflexivity|]. split; [exact Hsame|].
           split; [by left|]. intros ws'.
           unfold ConnectionManager.sent_to. cbn.
           destruct (decide (ws = ws')) as [<-|Hne].
           ++ right. by rewrite lookup_insert_eq, Hw.
           ++ left. by rewrite lookup_insert_ne.
        -- eexists. split; [reflexivity|]. split; [exact Hsame|].
           split; [by left|]. intros ws'.
           unfold ConnectionManager.sent_to. cbn.
           destruct (decide (ws = ws')) as [<-|Hne].
           ++ right. by rewrite lookup_insert_eq, Hw.
           ++ left. by rewrite lookup_insert_ne.
        -- eexists. split; [reflexivity|].
           match goal with
           | |- context [ConnectionManager._store_pending_update _ _ ?s1] =>
               destruct (Hstore s1 eq_refl) as [H1 H2]
           end.
           split; [exact H1|]. split; [exact H2|]. intros ws'. left.
           unfold ConnectionManager.sent_to.
           rewrite ConnectionManagerSpec.disconnect_sockets,
             ConnectionManagerSpec.store_pending_sockets. cbn.
           destruct (decide (ws = ws')) as [<-|Hne].
           ++ by rewrite lookup_insert_eq, Hw.
           ++ by rewrite lookup_insert_ne.
      * eexists. split; [reflexivity|].
        destruct (Hstore self eq_refl) as [H1 H2].
        split; [exact H1|]. split; [exact H2|]. intros ws'. left.
        unfold ConnectionManager.sent_to.
        by rewrite ConnectionManagerSpec.disconnect_sockets,
          ConnectionManagerSpec.store_pending_sockets.
    + eexists. split; [reflexivity|].
      destruct (Hstore self eq_refl) as [H1 H2].
      split; [exact H1|]. split; [exact H2|]. intros ws'. left.
      unfold ConnectionManager.sent_to.
      by rewrite ConnectionManagerSpec.disconnect_sockets,
        ConnectionManagerSpec.store_pending_sockets.
  - eexists. split; [reflexivity|]. split; [|split].
    + intros tid. destruct (decide (tid = task_id)) as [->|Hne]; [done|].
      unfold ConnectionManager.buffer.
      rewrite ConnectionManagerSpec.store_pending_updates.
      by rewrite lookup_insert_ne.
    + right. apply ConnectionManagerSpec.store_pending_buffer.
    + intros ws'. left. unfold ConnectionManager.sent_to.
      by rewrite ConnectionManagerSpec.store_pending_sockets.
Qed.

Section Formatting.

Variable isoformat : nat -> string.
Variable format_2f : value -> string.
Variable str : value -> string.
Variable str_exn : exn -> string.

Abbreviation send := (Backend.send isoformat).
Abbreviation send_periodic_heartbeat :=
  (Backend.send_periodic_heartbeat isoformat).
Abbreviation heartbeat_loop := (Backend.heartbeat_loop isoformat).
Abbreviation process_excel_background :=
  (Backend.process_excel_background isoformat format_2f str).
Abbreviation lifetime := (Backend.lifetime isoformat format_2f str).
Abbreviation upload_excel_file := (Backend.upload_excel_file isoformat).
Abbreviation upload_excel_file_route :=
  (Backend.upload_excel_file_route isoformat str_exn).

(** *** Heartbeats *)

Lemma heartbeat_is_heartbeat task_id t :
  ConnectionManager.is_heartbeat (heartbeat_event task_id t) = true.
Proof. reflexivity. Qed.

Lemma heartbeat_loop_spec task_id ticks s :
  exists s',
    heartbeat_loop task_id ticks s = (Ret tt, s') /\
    batch_tasks s' = batch_tasks s /\
    (forall task_id',
       ConnectionManager.buffer (manager s') task_id'
       = ConnectionManager.buffer (manager s) task_id') /\
    (forall ws, exists beats,
       ConnectionManager.sent_to (manager s') ws
       = ConnectionManager.sent_to (manager s) ws ++ beats /\
       length beats <= ticks /\
       Forall (fun ev => ConnectionManager.is_heartbeat ev = true) beats).
Proof.
  revert s. induction ticks as [|ticks IH]; intros s.
  - exists s. split; [done|]. split; [done|]. split; [done|].
    intros ws. exists []. by rewrite app_nil_r.
  - cbn [Backend.heartbeat_loop]. unfold sleep, Backend.send, now, on_manager.
    py_unfold. cbn [manager batch_tasks clock].
    destruct (send_progress_update_traces task_id
                (heartbeat_event task_id (isoformat (clock s))) (manager s))
      as (m' & Hrun & Hother & Hbuf & Hsent).
    rewrite Hrun.
    match goal with
    | |- context [Backend.heartbeat_loop _ _ _ ?s1] =>
        destruct (IH s1) as (s' & Hloop & Htasks & Hbufs & Hlogs)
    end.
    exists s'. split; [exact Hloop|].
    cbn [manager batch_tasks clock] in *.
    split; [exact Htasks|]. split.
    + intros tid. rewrite Hbufs, Hother.
      assert (ConnectionManager.buffer m' task_id
              = ConnectionManager.buffer (manager s) task_id) as Hsame.
      { destruct Hbuf as [->| ->]; [done|].
        unfold ConnectionManager.stored.
        by rewrite heartbeat_is_heartbeat. }
      destruct (decide (tid = task_id)) as [->|]; [exact Hsame|done].
    + intros ws. destruct (Hlogs ws) as (bs & Hbs & Hlen & Hall).
      destruct (Hsent ws) as [Heq|Heq]; rewrite Hbs, Heq.
      * exists bs. split; [done|]. split; [lia|done].
      * eexists (_ :: bs). rewrite <- app_assoc. split; [done|].
        split; [cbn; lia|]. by constructor.
Qed.

(** [send_periodic_heartbeat] never raises, whatever becomes of the
    observer, and however long it runs it leaves the contents of every
    pending buffer and the task dictionary as they were; sockets receive
    heartbeat events only, one per interval at most. *)
Theorem heartbeats_leave_buffers task_id ticks s :
  exists s',
    send_periodic_heartbeat task_id ticks s = (Ret tt, s') /\
    batch_tasks s' = batch_tasks s /\
    (forall task_id',
       ConnectionManager.buffer (manager s') task_id'
       = ConnectionManager.buffer (manager s) task_id') /\
    (forall ws, exists beats,
       ConnectionManager.sent_to (manager s') ws
       = ConnectionManager.sent_to (manager s) ws ++ beats /\
       length beats <= ticks /\
       Forall (fun ev => ConnectionManager.is_heartbeat ev = true) beats).
Proof.
  destruct (heartbeat_loop_spec task_id ticks s)
    as (s' & Hloop & Htasks & Hbufs & Hlogs).
  exists s'. unfold Backend.send_periodic_heartbeat, try_except.
  by rewrite Hloop.
Qed.

(** *** What an observer receives during a run *)

Lemma send_observed ws task_id data s :
  observed_by ws task_id s ->
  exists s',
    send task_id data s = (Ret tt, s') /\
    observed_by ws task_id s' /\
    batch_tasks s' = batch_tasks s /\
    ConnectionManager.sent_to (manager s') ws
    = ConnectionManager.sent_to (manager s) ws ++ [data (isoformat (clock s))].
Proof.
  destruct s as [[socks act pend] tasks c]. intros [Hreg [sent0 Hw]].
  cbn in Hreg, Hw. unfold Backend.send, now, on_manager. py_unfold. cbn.
  rewrite (send_progress_update_reliable ws task_id _ socks act pend sent0
             Hreg Hw).
  eexists. split; [reflexivity|]. unfold observed_by. cbn.
  split; [|split; [done|]].
  - split; [done|]. eexists. apply lookup_insert_eq.
  - unfold ConnectionManager.sent_to. cbn.
    by rewrite lookup_insert_eq, Hw.
Qed.

Lemma emits_skip ws task_id : emits ws task_id (mret tt) [].
Proof. intros s Ho Hs. exists s. by rewrite app_nil_r. Qed.

Lemma emits_send ws task_id data k :
  (forall t, kind (data t) = k) ->
  emits ws task_id (send task_id data) [k].
Proof.
  intros Hk s Ho Hs.
  destruct (send_observed ws task_id data s Ho) as (s' & Hrun & Ho' & Hb & Hl).
  exists s'. split; [done|]. split; [done|]. split; [by rewrite Hb|].
  unfold received. by rewrite Hl, fmap_app, <- (Hk (isoformat (clock s))).
Qed.

Lemma observed_same_manager ws task_id s s' :
  manager s' = manager s -> observed_by ws task_id s ->
  observed_by ws task_id s'.
Proof. unfold observed_by. by intros ->. Qed.

Lemma emits_setitem ws task_id key v :
  emits ws task_id (setitem task_id key v) [].
Proof.
  intros s Ho [d Hd]. unfold setitem. rewrite Hd. eexists.
  split; [reflexivity|]. split; [by apply (observed_same_manager _ _ s)|].
  split; [cbn; rewrite lookup_insert_eq; by eexists|].
  unfold received. cbn. by rewrite app_nil_r.
Qed.

Lemma emits_update_task ws task_id (e : string -> dict) :
  emits ws task_id (t ← Backend.now isoformat; update_task task_id (e t)) [].
Proof.
  intros s Ho [d Hd]. unfold Backend.now, update_task. py_unfold. cbn.
  rewrite Hd. eexists. split; [reflexivity|].
  split; [by apply (observed_same_manager _ _ s)|].
  split; [cbn; rewrite lookup_insert_eq; by eexists|].
  unfold received. cbn. by rewrite app_nil_r.
Qed.

Lemma emits_read_excel ws env task_id :
  emits ws task_id
    (try_except
       (match read_excel env with
        | Ret total_rows =>
            send task_id (found_event str task_id total_rows)
        | Raise e => raise e
        end)
       (fun _ => send task_id
                   (progress_event task_id "processing" (VInt 20)
                      "Processing Excel file...")))
    [progress_kind 20].
Proof.
  intros s Ho Hs. py_unfold. destruct (read_excel env) as [n|e].
  - destruct (emits_send ws task_id (found_event str task_id n)
                (progress_kind 20) ltac:(done) s Ho Hs)
      as (s' & Hrun & Hres). exists s'. by rewrite Hrun.
  - by apply (emits_send ws task_id).
Qed.

Lemma emits_raise ws task_id e : emits_raising ws task_id (raise e) e [].
Proof. intros s Ho Hs. exists s. by rewrite app_nil_r. Qed.

Lemma emits_send_raise ws task_id data k e :
  (forall t, kind (data t) = k) ->
  emits_raising ws task_id (send task_id data ;; raise e) e [k].
Proof.
  intros Hk s Ho Hs.
  destruct (emits_send ws task_id data k Hk s Ho Hs) as (s' & Hrun & Hres).
  py_unfold. rewrite Hrun. by exists s'.
Qed.

(** Statements run in sequence deliver what each delivers, in order. *)
Lemma emits_run ws task_id stmts kss :
  Forall2 (emits ws task_id) stmts kss ->
  emits ws task_id (run stmts) (concat kss).
Proof.
  induction 1 as [|stmt ks stmts kss Hstmt _ IH]; cbn [run concat].
  - apply emits_skip.
  - intros s Ho Hs. py_unfold.
    destruct (Hstmt s Ho Hs) as (s1 & Hrun1 & Ho1 & Hs1 & Hl1).
    rewrite Hrun1.
    destruct (IH s1 Ho1 Hs1) as (s2 & Hrun2 & Ho2 & Hs2 & Hl2).
    exists s2. split; [done|]. split; [done|]. split; [done|].
    by rewrite Hl2, Hl1, <- app_assoc.
Qed.

Lemma emits_run_raising ws task_id pre kss stmt e ks rest :
  Forall2 (emits ws task_id) pre kss ->
  emits_raising ws task_id stmt e ks ->
  emits_raising ws task_id (run (pre ++ stmt :: rest)) e (concat kss ++ ks).
Proof.
  intros Hpre Hstmt. induction Hpre as [|st k pre kss Hst _ IH];
    cbn [run concat app].
  - intros s Ho Hs. py_unfold.
    destruct (Hstmt s Ho Hs) as (s1 & Hrun1 & Hres). rewrite Hrun1.
    by exists s1.
  - intros s Ho Hs. py_unfold.
    destruct (Hst s Ho Hs) as (s1 & Hrun1 & Ho1 & Hs1 & Hl1).
    rewrite Hrun1.
    destruct (IH s1 Ho1 Hs1) as (s2 & Hrun2 & Ho2 & Hs2 & Hl2).
    exists s2. split; [done|]. split; [done|]. split; [done|].
    by rewrite Hl2, Hl1, <- !app_assoc.
Qed.

Lemma emits_try ws task_id body e ks (handler : exn -> M state unit) ks' :
  emits_raising ws task_id body e ks ->
  emits ws task_id (handler e) ks' ->
  emits ws task_id (try_except body handler) (ks ++ ks').
Proof.
  intros Hbody Hh s Ho Hs. unfold try_except.
  destruct (Hbody s Ho Hs) as (s1 & Hrun1 & Ho1 & Hs1 & Hl1). rewrite Hrun1.
  destruct (Hh s1 Ho1 Hs1) as (s2 & Hrun2 & Ho2 & Hs2 & Hl2).
  exists s2. split; [done|]. split; [done|]. split; [done|].
  by rewrite Hl2, Hl1, <- app_assoc.
Qed.

Lemma emits_handler ws task_id e :
  emits ws task_id (run (Backend.handler isoformat task_id e))
    [(Some (VStr "error"), None)].
Proof.
  destruct e as [cls msg].
  apply (emits_run ws task_id _ [[(Some (VStr "error"), None)]; []]).
  apply Forall2_cons_2; [by apply emits_send|].
  apply Forall2_cons_2; [|apply Forall2_nil_2].
  apply (emits_update_task ws task_id
           (fun t => list_to_map [("status", VStr "failed");
                                  ("error", VStr msg);
                                  ("completed_at", VStr t)])).
Qed.

Lemma emits_before_processing ws env task_id :
  fraud_system env = true ->
  exists pre,
    Backend.body isoformat format_2f str env task_id
    = pre ++ match process_excel env with
             | Raise e => [raise e]
             | Ret output_path =>
                 [mret tt;
                  send task_id
                    (completed_event task_id
                       (format_2f (VFloat (processing_time env))
                          +:+ " seconds") output_path);
                  (t ← Backend.now isoformat;
                   update_task task_id
                     (list_to_map
                        [("status", VStr "completed");
                         ("output_path", VStr output_path);
                         ("completed_at", VStr t);
                         ("progress", VInt 100);
                         ("processing_time",
                          VFloat (processing_time env))]))]
             end /\
    Forall2 (emits ws task_id) pre
      ([[]; [progress_kind 0]; []; []; []; [progress_kind 10];
        [progress_kind 20]]
       ++ flat_map (fun '(progress, _) => [[]; []; [progress_kind progress]])
            processing_steps).
Proof.
  intros Hfs. eexists. split.
  - unfold Backend.body. rewrite Hfs, app_assoc. reflexivity.
  - apply Forall2_app.
    + repeat first
        [ apply Forall2_nil_2 | apply Forall2_cons_2
        | apply emits_skip | by apply emits_send
        | apply emits_setitem | apply emits_read_excel ].
    + cbn. repeat first
        [ apply Forall2_nil_2 | apply Forall2_cons_2
        | apply emits_skip | by apply emits_send | apply emits_setitem ].
Qed.

(** An observer connected throughout a run, on a socket that does not
    fail, receives [progress] events with the values 0, 10, 20, 30, 40,
    50, 70, 85, 95 followed by one [completed] event with progress 100
    when the processing returns, and by one [error] event when it raises.
    When [fraud_system] is missing it receives the [progress] event with
    value 0 followed by two [error] events. *)
Theorem run_events env task_id ws s :
  observed_by ws task_id s ->
  is_Some (batch_tasks s !! task_id) ->
  exists s',
    process_excel_background env task_id s = (Ret tt, s') /\
    received ws s'
    = received ws s
      ++ if fraud_system env then
           (progress_kind <$> [0; 10; 20; 30; 40; 50; 70; 85; 95]%Z)
           ++ match process_excel env with
              | Ret _ => [(Some (VStr "completed"), Some (VInt 100))]
              | Raise _ => [(Some (VStr "error"), None)]
              end
         else [progress_kind 0; (Some (VStr "error"), None);
               (Some (VStr "error"), None)].
Proof.
  intros Ho Hs. unfold Backend.process_excel_background.
  destruct (fraud_system env) eqn:Hfs.
  - destruct (emits_before_processing ws env task_id Hfs)
      as (pre & -> & Hpre).
    destruct (process_excel env) as [output_path|e].
    + match goal with
      | |- context [run (pre ++ ?tl)] =>
          match type of Hpre with
          | Forall2 _ _ ?kss =>
              assert (Forall2 (emits ws task_id) (pre ++ tl)
                        (kss ++ [[]; [(Some (VStr "completed"),
                                       Some (VInt 100))]; []])) as Hall
          end
      end.
      { apply Forall2_app; [exact Hpre|].
        apply Forall2_cons_2; [apply emits_skip|].
        apply Forall2_cons_2; [by apply emits_send|].
        apply Forall2_cons_2; [|apply Forall2_nil_2].
        apply (emits_update_task ws task_id
                 (fun t => list_to_map
                    [("status", VStr "completed");
                     ("output_path", VStr output_path);
                     ("completed_at", VStr t);
                     ("progress", VInt 100);
                     ("processing_time", VFloat (processing_time env))])). }
      destruct (emits_run ws task_id _ _ Hall s Ho Hs)
        as (s' & Hrun & _ & _ & Hl).
      unfold try_except. rewrite Hrun. exists s'. split; [done|].
      by rewrite Hl.
    + destruct (emits_try ws task_id _ e _
                  (fun e => run (Backend.handler isoformat task_id e)) _
                  (emits_run_raising ws task_id pre _ (raise e) e [] []
                     Hpre (emits_raise ws task_id e))
                  (emits_handler ws task_id e) s Ho Hs)
        as (s' & Hrun & _ & _ & Hl).
      exists s'. split; [exact Hrun|]. by rewrite Hl.
  - edestruct (emits_try ws task_id
                 (run (Backend.body isoformat format_2f str env task_id))
                 (Exn "Exception" unavailable)
                 [progress_kind 0; (Some (VStr "error"), None)]
                 (fun e => run (Backend.handler isoformat task_id e)))
      as (s' & Hrun & _ & _ & Hl);
      [| apply emits_handler | exact Ho | exact Hs |].
    { unfold Backend.body. rewrite Hfs.
      apply (emits_run_raising ws task_id
               [sleep;
                send task_id (progress_event task_id "starting" (VInt 0)
                                "Initializing batch processing...");
                setitem task_id "status" (VStr "processing");
                setitem task_id "progress" (VInt 5)]
               [[]; [progress_kind 0]; []; []]).
      - repeat first
          [ apply Forall2_nil_2 | apply Forall2_cons_2
          | apply emits_skip | by apply emits_send | apply emits_setitem ].
      - by eapply (emits_send_raise _ _ _ (Some (VStr "error"), None)). }
    exists s'. split; [exact Hrun|]. by rewrite Hl.
Qed.

(** *** The record of a task after a run *)

Lemma run_app stmts1 stmts2 s :
  run (stmts1 ++ stmts2) s
  = match run stmts1 s with
    | (Ret _, s1) => run stmts2 s1
    | (Raise e, s1) => (Raise e, s1)
    end.
Proof.
  revert s. induction stmts1 as [|stmt stmts1 IH]; intros s; [done|].
  cbn [run app]. py_unfold. destruct (stmt s) as [[[]|e] s1]; [|done].
  apply IH.
Qed.

Lemma keeps_skip task_id : keeps_fields task_id (mret tt).
Proof. intros s d Hd. by exists s, d. Qed.

Lemma keeps_send task_id data : keeps_fields task_id (send task_id data).
Proof.
  intros s d Hd. destruct (send_runs isoformat task_id data s)
    as (s' & Hrun & Hb).
  exists s', d. rewrite Hb. by split_and!.
Qed.

Lemma keeps_setitem task_id key v :
  key = "status" \/ key = "progress" ->
  keeps_fields task_id (setitem task_id key v).
Proof.
  intros Hkey s d Hd. unfold setitem. rewrite Hd. eexists _, _.
  split; [reflexivity|]. cbn. rewrite lookup_insert_eq.
  split; [reflexivity|]. split.
  - intros key' Hs Hp. apply lookup_insert_ne. by destruct Hkey as [->| ->].
  - intros other Hne. by apply lookup_insert_ne.
Qed.

Lemma keeps_read_excel env task_id :
  keeps_fields task_id
    (try_except
       (match read_excel env with
        | Ret total_rows =>
            send task_id (found_event str task_id total_rows)
        | Raise e => raise e
        end)
       (fun _ => send task_id
                   (progress_event task_id "processing" (VInt 20)
                      "Processing Excel file..."))).
Proof.
  intros s d Hd. py_unfold. destruct (read_excel env) as [n|e].
  - destruct (keeps_send task_id (found_event str task_id n) s d Hd)
      as (s' & d' & Hrun & Hres). exists s', d'. by rewrite Hrun.
  - by apply keeps_send.
Qed.

Lemma keeps_run task_id stmts :
  Forall (keeps_fields task_id) stmts -> keeps_fields task_id (run stmts).
Proof.
  induction 1 as [|stmt stmts Hstmt _ IH]; cbn [run].
  - apply keeps_skip.
  - intros s d Hd. py_unfold.
    destruct (Hstmt s d Hd) as (s1 & d1 & Hrun1 & Hd1 & Hk1 & Ho1).
    rewrite Hrun1.
    destruct (IH s1 d1 Hd1) as (s2 & d2 & Hrun2 & Hd2 & Hk2 & Ho2).
    exists s2, d2. split; [done|]. split; [done|]. split.
    + intros key Hs Hp. by rewrite Hk2, Hk1.
    + intros other Hne. by rewrite Ho2, Ho1.
Qed.

(** The [update] call that ends a run. *)
Lemma finish_record task_id (e : string -> dict) s d :
  batch_tasks s !! task_id = Some d ->
  (t ← Backend.now isoformat; update_task task_id (e t)) s
  = (Ret tt,
     {| manager := manager s;
        batch_tasks :=
          <[task_id := update (e (isoformat (clock s))) d]> (batch_tasks s);
        clock := S (clock s) |}).
Proof.
  intros Hd. unfold Backend.now, update_task. py_unfold. cbn. by rewrite Hd.
Qed.

(** A notification followed by that call. *)
Lemma notify_finish_record task_id data (e : string -> dict) s d :
  batch_tasks s !! task_id = Some d ->
  exists s' n,
    run [send task_id data;
         (t ← Backend.now isoformat; update_task task_id (e t))] s
    = (Ret tt, s') /\
    batch_tasks s' = <[task_id := update (e (isoformat n)) d]> (batch_tasks s).
Proof.
  intros Hd. destruct (send_runs isoformat task_id data s)
    as (s1 & Hrun & Hb). rewrite <- Hb in Hd.
  pose proof (finish_record task_id e s1 d Hd) as Hfin.
  eexists _, (clock s1). cbn [run].
  change (send task_id data ≫= _) with
    (fun s0 => match send task_id data s0 with
               | (Ret _, s') =>
                   match (t ← Backend.now isoformat;
                          update_task task_id (e t)) s' with
                   | (Ret _, s'') => (Ret tt, s'')
                   | (Raise x, s'') => (Raise x, s'')
                   end
               | (Raise x, s') => (Raise x, s')
               end).
  cbn beta. rewrite Hrun, Hfin. split; [reflexivity|]. cbn. by rewrite Hb.
Qed.

Lemma handler_record task_id e s d :
  batch_tasks s !! task_id = Some d ->
  exists s' n,
    run (Backend.handler isoformat task_id e) s = (Ret tt, s') /\
    batch_tasks s'
    = <[task_id :=
          update (list_to_map
                    [("status", VStr "failed");
                     ("error", VStr match e with Exn _ msg => msg end);
                     ("completed_at", VStr (isoformat n))]) d]>
        (batch_tasks s).
Proof.
  intros Hd.
  apply (notify_finish_record task_id
           (error_event task_id (VStr match e with Exn _ msg => msg end))
           (fun t => list_to_map
              [("status", VStr "failed");
               ("error", VStr match e with Exn _ msg => msg end);
               ("completed_at", VStr t)]) s d Hd).
Qed.

Lemma keeps_before_processing env task_id :
  fraud_system env = true ->
  exists pre,
    Backend.body isoformat format_2f str env task_id
    = pre ++ match process_excel env with
             | Raise e => [raise e]
             | Ret output_path =>
                 [mret tt;
                  send task_id
                    (completed_event task_id
                       (format_2f (VFloat (processing_time env))
                          +:+ " seconds") output_path);
                  (t ← Backend.now isoformat;
                   update_task task_id
                     (list_to_map
                        [("status", VStr "completed");
                         ("output_path", VStr output_path);
                         ("completed_at", VStr t);
                         ("progress", VInt 100);
                         ("processing_time",
                          VFloat (processing_time env))]))]
             end /\
    Forall (keeps_fields task_id) pre.
Proof.
  intros Hfs. eexists. split.
  - unfold Backend.body. rewrite Hfs, app_assoc. reflexivity.
  - apply Forall_app. split.
    + repeat first
        [ apply Forall_nil_2 | apply Forall_cons_2
        | apply keeps_skip | apply keeps_send
        | apply keeps_setitem; by auto | apply keeps_read_excel ].
    + cbn. repeat first
        [ apply Forall_nil_2 | apply Forall_cons_2
        | apply keeps_skip | apply keeps_send
        | apply keeps_setitem; by auto ].
Qed.

(** A run completes normally; the record it leaves is the one it found,
    with other values of [status] and [progress] at most, updated by
    [final_fields]; no other record changes. *)
Lemma run_final_record env task_id s d :
  batch_tasks s !! task_id = Some d ->
  exists s' d1 n,
    process_excel_background env task_id s = (Ret tt, s') /\
    (forall key, key <> "status" -> key <> "progress" ->
                 d1 !! key = d !! key) /\
    batch_tasks s' !! task_id
    = Some (update (final_fields env (isoformat n)) d1) /\
    (forall other, other <> task_id ->
                   batch_tasks s' !! other = batch_tasks s !! other).
Proof.
  intros Hd. unfold Backend.process_excel_background, final_fields, outcome.
  unfold try_except. destruct (fraud_system env) eqn:Hfs.
  - destruct (keeps_before_processing env task_id Hfs) as (pre & -> & Hpre).
    rewrite run_app.
    destruct (keeps_run task_id pre Hpre s d Hd)
      as (s1 & d1 & -> & Hd1 & Hk1 & Ho1).
    destruct (process_excel env) as [output_path|e].
    + change (run (mret tt :: ?l) s1) with (run l s1).
      destruct (notify_finish_record task_id
                  (completed_event task_id
                     (format_2f (VFloat (processing_time env))
                        +:+ " seconds") output_path)
                  (fun t => list_to_map
                     [("status", VStr "completed");
                      ("output_path", VStr output_path);
                      ("completed_at", VStr t);
                      ("progress", VInt 100);
                      ("processing_time", VFloat (processing_time env))])
                  s1 d1 Hd1) as (s' & n & Hrun & Hb).
      rewrite Hrun. exists s', d1, n.
      split; [reflexivity|]. split; [exact Hk1|]. rewrite Hb. split.
      * apply lookup_insert_eq.
      * intros other Hne. by rewrite lookup_insert_ne, Ho1.
    + change (run [raise e] s1) with (@Raise unit e, s1). cbn iota.
      destruct (handler_record task_id e s1 d1 Hd1) as (s' & n & Hrun & Hb).
      rewrite Hrun. exists s', d1, n.
      split; [reflexivity|]. split; [exact Hk1|]. rewrite Hb.
      destruct e as [cls msg]. split.
      * apply lookup_insert_eq.
      * intros other Hne. by rewrite lookup_insert_ne, Ho1.
  - unfold Backend.body. rewrite Hfs. cbn [app].
    change (run ?l) with
      (run ([sleep;
             send task_id (progress_event task_id "starting" (VInt 0)
                             "Initializing batch processing...");
             setitem task_id "status" (VStr "processing");
             setitem task_id "progress" (VInt 5)]
            ++ skipn 4 l)) at 1.
    rewrite run_app.
    edestruct (keeps_run task_id) as (s1 & d1 & -> & Hd1 & Hk1 & Ho1);
      [|exact Hd|].
    { repeat first
        [ apply Forall_nil_2 | apply Forall_cons_2
        | apply keeps_skip | apply keeps_send
        | apply keeps_setitem; by auto ]. }
    destruct (send_runs isoformat task_id
                (error_event task_id (VStr unavailable)) s1)
      as (s2 & Hrun2 & Hb2).
    match goal with
    | |- context [run (skipn 4 ?l) s1] =>
        assert (run (skipn 4 l) s1
                = (Raise (Exn "Exception" unavailable), s2)) as ->
    end.
    { cbn [skipn run]. py_unfold. by rewrite Hrun2. }
    rewrite <- Hb2 in Hd1.
    destruct (handler_record task_id (Exn "Exception" unavailable) s2 d1 Hd1)
      as (s' & n & Hrun & Hb).
    rewrite Hrun. exists s', d1, n.
    split; [reflexivity|]. split; [exact Hk1|]. rewrite Hb. split.
    + apply lookup_insert_eq.
    + intros other Hne. by rewrite lookup_insert_ne, Hb2, Ho1.
Qed.

(** After a run the status route returns the record of the task.  The
    run has left every key it does not write as it found it, and the
    records of the other tasks too.  When the processing returned a path
    the record says [completed], progress 100, and holds that path and
    the processing time; when it raised, or [fraud_system] is missing,
    the record says [failed] and holds the message of the exception,
    while [output_path] and [processing_time] are as they were. *)
Theorem status_after_run env task_id s d :
  batch_tasks s !! task_id = Some d ->
  exists s' d',
    process_excel_background env task_id s = (Ret tt, s') /\
    get_batch_status task_id s' = (Ret d', s') /\
    (forall key,
       key ∉ ["status"; "progress"; "output_path"; "completed_at";
              "processing_time"; "error"] ->
       d' !! key = d !! key) /\
    (forall other, other <> task_id ->
                   batch_tasks s' !! other = batch_tasks s !! other) /\
    (exists n, d' !! "completed_at" = Some (VStr (isoformat n))) /\
    match outcome env with
    | Ret output_path =>
        d' !! "status" = Some (VStr "completed") /\
        d' !! "progress" = Some (VInt 100) /\
        d' !! "output_path" = Some (VStr output_path) /\
        d' !! "processing_time" = Some (VFloat (processing_time env)) /\
        d' !! "error" = d !! "error"
    | Raise (Exn _ error_msg) =>
        d' !! "status" = Some (VStr "failed") /\
        d' !! "error" = Some (VStr error_msg) /\
        d' !! "output_path" = d !! "output_path" /\
        d' !! "processing_time" = d !! "processing_time"
    end.
Proof.
  intros Hd.
  destruct (run_final_record env task_id s d Hd)
    as (s' & d1 & n & Hrun & Hk & Hd' & Hothers).
  exists s', (update (final_fields env (isoformat n)) d1).
  split; [exact Hrun|]. split.
  { unfold get_batch_status. py_unfold. by rewrite Hd'. }
  unfold final_fields, update.
  destruct (outcome env) as [output_path|[cls msg]].
  - split.
    { intros key Hkey. rewrite !not_elem_of_cons in Hkey.
      destruct Hkey as (Hs & Hp & Ho & Hc & Ht & He & _).
      rewrite lookup_union_r; [by apply Hk|].
      apply not_elem_of_list_to_map_1. cbn. rewrite !not_elem_of_cons.
      split_and!; try done. apply not_elem_of_nil. }
    split; [exact Hothers|].
    split; [exists n; by apply lookup_union_Some_l|].
    split_and!; try by apply lookup_union_Some_l.
    by rewrite lookup_union_r, Hk.
  - split.
    { intros key Hkey. rewrite !not_elem_of_cons in Hkey.
      destruct Hkey as (Hs & Hp & Ho & Hc & Ht & He & _).
      rewrite lookup_union_r; [by apply Hk|].
      apply not_elem_of_list_to_map_1. cbn. rewrite !not_elem_of_cons.
      split_and!; try done. apply not_elem_of_nil. }
    split; [exact Hothers|].
    split; [exists n; by apply lookup_union_Some_l|].
    split_and!; try by apply lookup_union_Some_l.
    + by rewrite lookup_union_r, Hk.
    + by rewrite lookup_union_r, Hk.
Qed.

(** After a run the download route hands out the path the processing
    returned, provided the file exists; it answers 404 when the file is
    missing and 400 when the processing raised or [fraud_system] is
    missing, also where an earlier run had completed. *)
Theorem download_after_run path_exists env task_id s :
  is_Some (batch_tasks s !! task_id) ->
  exists s',
    process_excel_background env task_id s = (Ret tt, s') /\
    download_results path_exists task_id s'
    = (match outcome env with
       | Ret output_path =>
           if path_exists (VStr output_path) then Ret (VStr output_path)
           else Raise (HTTPException "404" "Results file not found")
       | Raise _ => Raise (HTTPException "400" "Task not completed")
       end, s').
Proof.
  intros [d Hd].
  destruct (run_final_record env task_id s d Hd)
    as (s' & d1 & n & Hrun & _ & Hd' & _).
  exists s'. split; [exact Hrun|].
  unfold download_results, getitem. py_unfold. rewrite Hd'.
  unfold final_fields, update.
  destruct (outcome env) as [output_path|[cls msg]].
  - rewrite (lookup_union_Some_l _ _ "status" (VStr "completed"))
      by reflexivity.
    rewrite (lookup_union_Some_l _ _ "output_path" (VStr output_path))
      by reflexivity.
    cbn. by destruct (path_exists (VStr output_path)).
  - by rewrite (lookup_union_Some_l _ _ "status" (VStr "failed"))
      by reflexivity.
Qed.

(** *** The upload route *)

(** The upload route raises nothing but a 503, when [fraud_system] is
    missing, and a 500: the 400 for a file name that ends in neither
    [.xlsx] nor [.xls] is raised inside the [try] block and reaches the
    caller as a 500, as does a failure to store the file.  In all these
    cases no task is created.  When the route returns, the task is
    registered as [processing] with progress 0 under the path
    [uploads/<task_id>_<filename>], the run is scheduled with that task
    and path, and a download asked for at once is answered 400. *)
Theorem upload_route_outcomes path_exists fraud_system filename task_id
    stored s :
  let reject :=
    HTTPException "400" "File must be an Excel file (.xlsx or .xls)" in
  let file_path := path_join "uploads" (task_id +:+ "_" +:+ filename) in
  exists s',
    (batch_tasks s' = batch_tasks s \/
     batch_tasks s' !! task_id
     = Some (list_to_map [("status", VStr "processing");
                          ("file_path", VStr file_path);
                          ("created_at", VStr (isoformat (clock s)));
                          ("progress", VInt 0)])) /\
    upload_excel_file_route fraud_system filename task_id stored s
    = (if negb fraud_system then
         Raise (HTTPException "503" unavailable)
       else if negb (endswith filename ".xlsx" || endswith filename ".xls")
       then Raise (HTTPException "500" (str_exn reject))
       else match stored with
            | Raise e => Raise (HTTPException "500" (str_exn e))
            | Ret _ =>
                Ret ({| task_id := task_id; status := "processing";
                        message :=
                          "File uploaded successfully. Processing started."
                     |}, (task_id, file_path))
            end, s') /\
    (forall r, upload_excel_file_route fraud_system filename task_id stored s
               = (Ret r, s') ->
       batch_tasks s' !! task_id
       = Some (list_to_map [("status", VStr "processing");
                            ("file_path", VStr file_path);
                            ("created_at", VStr (isoformat (clock s)));
                            ("progress", VInt 0)]) /\
       download_results path_exists task_id s'
       = (Raise (HTTPException "400" "Task not completed"), s')) /\
    (forall e, upload_excel_file_route fraud_system filename task_id stored s
               = (Raise e, s') ->
       s' = s).
Proof.
  intros reject file_path. unfold Backend.upload_excel_file_route.
  destruct fraud_system; cbn [negb].
  2:{ exists s. split; [by left|]. split; [done|].
      split; [intros r [=]|done]. }
  unfold try_except.
  destruct (endswith filename ".xlsx" || endswith filename ".xls");
    cbn [negb].
  2:{ exists s. split; [by left|]. split; [done|].
      split; [intros r [=]|done]. }
  destruct stored as [[]|e].
  2:{ exists s. split; [by left|]. split; [done|].
      split; [intros r [=]|done]. }
  exists {| manager := manager s;
            batch_tasks :=
              <[task_id :=
                  list_to_map [("status", VStr "processing");
                               ("file_path", VStr file_path);
                               ("created_at", VStr (isoformat (clock s)));
                               ("progress", VInt 0)]]> (batch_tasks s);
            clock := S (clock s) |}.
  cbn [batch_tasks]. rewrite lookup_insert_eq.
  split; [by right|]. split; [reflexivity|]. split; [|intros e [=]].
  intros r _. split; [done|].
  unfold download_results, getitem. py_unfold. cbn [batch_tasks].
  by rewrite lookup_insert_eq.
Qed.

(** *** A run that nobody observes *)

Lemma kind_last_n n (l : list dict) :
  kind <$> last_n n l = last_n n (kind <$> l).
Proof. unfold last_n. by rewrite fmap_drop, length_fmap. Qed.

Lemma last_n_all {A} n (l : list A) : length l <= n -> last_n n l = l.
Proof.
  intros Hle. unfold last_n. by replace (length l - n) with 0 by lia.
Qed.

Lemma stored_in_refl task_id s :
  unobserved task_id s -> stored_in task_id s s [].
Proof.
  intros Hu. split; [done|]. rewrite app_nil_r, last_n_all; [done|].
  unfold buffered. rewrite length_fmap. apply Hu.
Qed.

Lemma stored_in_trans task_id s0 s1 s2 k1 k2 :
  stored_in task_id s0 s1 k1 -> stored_in task_id s1 s2 k2 ->
  stored_in task_id s0 s2 (k1 ++ k2).
Proof.
  intros [Hs1 Hb1] [Hs2 Hb2]. split; [by rewrite Hs2|].
  by rewrite Hb2, Hb1, ConnectionManagerSpec.last_n_app_last_n, app_assoc.
Qed.

Lemma stores_skip task_id : stores task_id (mret tt) [].
Proof.
  intros s Hu. exists s. split; [done|]. split; [done|].
  by apply stored_in_refl.
Qed.

Lemma stores_send task_id data k :
  (forall t, kind (data t) = k) ->
  (forall t, ConnectionManager.is_heartbeat (data t) = false) ->
  stores task_id (send task_id data) [k].
Proof.
  intros Hk Hh s (Hnone & Hs & Hlen).
  unfold Backend.send, Backend.now, on_manager,
    ConnectionManager.send_progress_update. py_unfold.
  cbn [manager batch_tasks clock]. rewrite Hnone. eexists.
  split; [reflexivity|]. unfold unobserved, stored_in, buffered.
  cbn [manager batch_tasks clock].
  rewrite ConnectionManagerSpec.store_pending_active,
    ConnectionManagerSpec.store_pending_sockets,
    ConnectionManagerSpec.store_pending_buffer, Hh.
  split.
  - split; [done|]. split; [done|].
    rewrite ConnectionManagerSpec.last_n_length. lia.
  - split; [done|].
    by rewrite kind_last_n, fmap_app, <- (Hk (isoformat (clock s))).
Qed.

(** A statement that leaves [manager] alone stores nothing. *)
Lemma stores_same_manager task_id stmt :
  (forall s, is_Some (batch_tasks s !! task_id) ->
     exists s', stmt s = (Ret tt, s') /\ manager s' = manager s /\
                is_Some (batch_tasks s' !! task_id)) ->
  stores task_id stmt [].
Proof.
  intros Hstmt s Hu. destruct (Hstmt s) as (s' & Hrun & Hm & Hs');
    [apply Hu|].
  destruct (stored_in_refl task_id s Hu) as [_ Hb].
  destruct Hu as (Hnone & _ & Hlen).
  exists s'. split; [done|]. unfold unobserved, stored_in, buffered in *.
  rewrite Hm. by split_and!.
Qed.

Lemma stores_setitem task_id key v :
  stores task_id (setitem task_id key v) [].
Proof.
  apply stores_same_manager. intros s [d Hd]. unfold setitem. rewrite Hd.
  eexists. split; [reflexivity|]. split; [done|]. cbn.
  rewrite lookup_insert_eq. by eexists.
Qed.

Lemma stores_update_task task_id (e : string -> dict) :
  stores task_id (t ← Backend.now isoformat; update_task task_id (e t)) [].
Proof.
  apply stores_same_manager. intros s [d Hd].
  rewrite (finish_record task_id e s d Hd). eexists.
  split; [reflexivity|]. split; [done|]. cbn.
  rewrite lookup_insert_eq. by eexists.
Qed.

Lemma stores_read_excel env task_id :
  stores task_id
    (try_except
       (match read_excel env with
        | Ret total_rows =>
            send task_id (found_event str task_id total_rows)
        | Raise e => raise e
        end)
       (fun _ => send task_id
                   (progress_event task_id "processing" (VInt 20)
                      "Processing Excel file...")))
    [progress_kind 20].
Proof.
  intros s Hu. py_unfold. destruct (read_excel env) as [n|e].
  - destruct (stores_send task_id (found_event str task_id n)
                (progress_kind 20) ltac:(done) ltac:(done) s Hu)
      as (s' & Hrun & Hres). exists s'. by rewrite Hrun.
  - by apply (stores_send task_id).
Qed.

Lemma stores_raise task_id e : stores_raising task_id (raise e) e [].
Proof.
  intros s Hu. exists s. split; [done|]. split; [done|].
  by apply stored_in_refl.
Qed.

Lemma stores_send_raise task_id data k e :
  (forall t, kind (data t) = k) ->
  (forall t, ConnectionManager.is_heartbeat (data t) = false) ->
  stores_raising task_id (send task_id data ;; raise e) e [k].
Proof.
  intros Hk Hh s Hu.
  destruct (stores_send task_id data k Hk Hh s Hu) as (s' & Hrun & Hres).
  py_unfold. rewrite Hrun. by exists s'.
Qed.

Lemma stores_run task_id stmts kss :
  Forall2 (stores task_id) stmts kss ->
  stores task_id (run stmts) (concat kss).
Proof.
  induction 1 as [|stmt ks stmts kss Hstmt _ IH]; cbn [run concat].
  - apply stores_skip.
  - intros s Hu. py_unfold.
    destruct (Hstmt s Hu) as (s1 & Hrun1 & Hu1 & Hb1). rewrite Hrun1.
    destruct (IH s1 Hu1) as (s2 & Hrun2 & Hu2 & Hb2).
    exists s2. split; [done|]. split; [done|].
    by apply (stored_in_trans _ s s1).
Qed.

Lemma stores_run_raising task_id pre kss stmt e ks rest :
  Forall2 (stores task_id) pre kss ->
  stores_raising task_id stmt e ks ->
  stores_raising task_id (run (pre ++ stmt :: rest)) e (concat kss ++ ks).
Proof.
  intros Hpre Hstmt s Hu. rewrite run_app.
  destruct (stores_run task_id pre kss Hpre s Hu)
    as (s1 & -> & Hu1 & Hb1).
  cbn [run]. py_unfold.
  destruct (Hstmt s1 Hu1) as (s2 & Hrun2 & Hu2 & Hb2). rewrite Hrun2.
  exists s2. split; [done|]. split; [done|].
  by apply (stored_in_trans _ s s1).
Qed.

Lemma stores_try task_id body e ks (handler : exn -> M state unit) ks' :
  stores_raising task_id body e ks ->
  stores task_id (handler e) ks' ->
  stores task_id (try_except body handler) (ks ++ ks').
Proof.
  intros Hbody Hh s Hu. unfold try_except.
  destruct (Hbody s Hu) as (s1 & Hrun1 & Hu1 & Hb1). rewrite Hrun1.
  destruct (Hh s1 Hu1) as (s2 & Hrun2 & Hu2 & Hb2).
  exists s2. split; [done|]. split; [done|].
  by apply (stored_in_trans _ s s1).
Qed.

Lemma stores_handler task_id e :
  stores task_id (run (Backend.handler isoformat task_id e))
    [(Some (VStr "error"), None)].
Proof.
  destruct e as [cls msg].
  apply (stores_run task_id _ [[(Some (VStr "error"), None)]; []]).
  apply Forall2_cons_2; [by apply stores_send|].
  apply Forall2_cons_2; [|apply Forall2_nil_2].
  apply (stores_update_task task_id
           (fun t => list_to_map [("status", VStr "failed");
                                  ("error", VStr msg);
                                  ("completed_at", VStr t)])).
Qed.

Lemma stores_before_processing env task_id :
  fraud_system env = true ->
  exists pre,
    Backend.body isoformat format_2f str env task_id
    = pre ++ match process_excel env with
             | Raise e => [raise e]
             | Ret output_path =>
                 [mret tt;
                  send task_id
                    (completed_event task_id
                       (format_2f (VFloat (processing_time env))
                          +:+ " seconds") output_path);
                  (t ← Backend.now isoformat;
                   update_task task_id
                     (list_to_map
                        [("status", VStr "completed");
                         ("output_path", VStr output_path);
                         ("completed_at", VStr t);
                         ("progress", VInt 100);
                         ("processing_time",
                          VFloat (processing_time env))]))]
             end /\
    Forall2 (stores task_id) pre
      ([[]; [progress_kind 0]; []; []; []; [progress_kind 10];
        [progress_kind 20]]
       ++ flat_map (fun '(progress, _) => [[]; []; [progress_kind progress]])
            processing_steps).
Proof.
  intros Hfs. eexists. split.
  - unfold Backend.body. rewrite Hfs, app_assoc. reflexivity.
  - apply Forall2_app.
    + repeat first
        [ apply Forall2_nil_2 | apply Forall2_cons_2
        | apply stores_skip | by apply stores_send
        | apply stores_setitem | apply stores_read_excel ].
    + cbn. repeat first
        [ apply Forall2_nil_2 | apply Forall2_cons_2
        | apply stores_skip | by apply stores_send | apply stores_setitem ].
Qed.

(** The whole runner, as one statement. *)
Lemma stores_runner env task_id :
  stores task_id (process_excel_background env task_id) (run_kinds env).
Proof.
  unfold Backend.process_excel_background, run_kinds.
  destruct (fraud_system env) eqn:Hfs.
  - destruct (stores_before_processing env task_id Hfs)
      as (pre & -> & Hpre).
    destruct (process_excel env) as [output_path|e].
    + match goal with
      | |- context [run (pre ++ ?tl)] =>
          match type of Hpre with
          | Forall2 _ _ ?kss =>
              assert (Forall2 (stores task_id) (pre ++ tl)
                        (kss ++ [[]; [(Some (VStr "completed"),
                                       Some (VInt 100))]; []])) as Hall
          end
      end.
      { apply Forall2_app; [exact Hpre|].
        apply Forall2_cons_2; [apply stores_skip|].
        apply Forall2_cons_2; [by apply stores_send|].
        apply Forall2_cons_2; [|apply Forall2_nil_2].
        apply (stores_update_task task_id
                 (fun t => list_to_map
                    [("status", VStr "completed");
                     ("output_path", VStr output_path);
                     ("completed_at", VStr t);
                     ("progress", VInt 100);
                     ("processing_time", VFloat (processing_time env))])). }
      intros s0 Hu0.
      destruct (stores_run task_id _ _ Hall s0 Hu0) as (s' & Hrun & Hres).
      unfold try_except. rewrite Hrun. by exists s'.
    + apply (stores_try task_id _ e _
               (fun e => run (Backend.handler isoformat task_id e)) _
               (stores_run_raising task_id pre _ (raise e) e [] []
                  Hpre (stores_raise task_id e))
               (stores_handler task_id e)).
  - apply (stores_try task_id
             (run (Backend.body isoformat format_2f str env task_id))
             (Exn "Exception" unavailable)
             [progress_kind 0; (Some (VStr "error"), None)]
             (fun e => run (Backend.handler isoformat task_id e)));
      [|apply stores_handler].
    unfold Backend.body. rewrite Hfs.
    apply (stores_run_raising task_id
             [sleep;
              send task_id (progress_event task_id "starting" (VInt 0)
                              "Initializing batch processing...");
              setitem task_id "status" (VStr "processing");
              setitem task_id "progress" (VInt 5)]
             [[]; [progress_kind 0]; []; []]).
    + repeat first
        [ apply Forall2_nil_2 | apply Forall2_cons_2
        | apply stores_skip | by apply stores_send | apply stores_setitem ].
    + by apply (stores_send_raise _ _ (Some (VStr "error"), None)).
Qed.

(** A run of a task that has no observer sends nothing and registers
    nobody: every update it emits goes to the buffer of the task, which
    keeps the last ten.  A run emits ten updates at most, so a buffer
    that was empty holds all of them afterwards, in order. *)
Theorem run_unobserved env task_id s :
  ConnectionManager.active_connections (manager s) !! task_id = None ->
  is_Some (batch_tasks s !! task_id) ->
  length (ConnectionManager.buffer (manager s) task_id) <= 10 ->
  exists s',
    process_excel_background env task_id s = (Ret tt, s') /\
    ConnectionManager.sockets (manager s')
    = ConnectionManager.sockets (manager s) /\
    ConnectionManager.active_connections (manager s') !! task_id = None /\
    buffered task_id s' = last_n 10 (buffered task_id s ++ run_kinds env) /\
    (ConnectionManager.buffer (manager s) task_id = [] ->
     buffered task_id s' = run_kinds env).
Proof.
  intros Hnone Hs Hlen.
  destruct (stores_runner env task_id s)
    as (s' & Hrun & (Hnone' & _ & _) & Hsocks & Hbuf); [done|].
  exists s'. split; [exact Hrun|]. split; [exact Hsocks|].
  split; [exact Hnone'|]. split; [exact Hbuf|].
  intros Hempty. rewrite Hbuf. unfold buffered at 1. rewrite Hempty.
  cbn [fmap list_fmap app]. apply last_n_all. unfold run_kinds.
  destruct (fraud_system env); [|cbn; lia].
  destruct (process_excel env); cbn; lia.
Qed.

End Formatting.

(** *** Concrete runs *)

Lemma run_events_witness :
  exists s',
    Backend.process_excel_background sample_isoformat sample_format_2f
      sample_str env_ok "t" observed = (Ret tt, s') /\
    received 0 s'
    = (progress_kind <$> [0; 10; 20; 30; 40; 50; 70; 85; 95]%Z)
      ++ [(Some (VStr "completed"), Some (VInt 100))].
Proof.
  destruct (run_events sample_isoformat sample_format_2f sample_str
              env_ok "t" 0 observed) as (s' & Hrun & Hrecv).
  - split; [vm_compute; reflexivity|]. exists []. vm_compute. reflexivity.
  - eexists. vm_compute. reflexivity.
  - exists s'. split; [exact Hrun|]. rewrite Hrecv. vm_compute. reflexivity.
Defined.

Lemma status_after_run_witness :
  exists s' d',
    Backend.process_excel_background sample_isoformat sample_format_2f
      sample_str env_raising "t" (with_task "completed" 100)
    = (Ret tt, s') /\
    get_batch_status "t" s' = (Ret d', s') /\
    d' !! "status" = Some (VStr "failed") /\
    d' !! "error" = Some (VStr "Invalid Excel file structure").
Proof.
  destruct (status_after_run sample_isoformat sample_format_2f sample_str
              env_raising "t" (with_task "completed" 100)
              (list_to_map [("status", VStr "completed");
                            ("progress", VInt 100)]))
    as (s' & d' & Hrun & Hget & _ & _ & _ & Hout).
  - vm_compute. reflexivity.
  - unfold outcome, env_raising in Hout.
    cbn [fraud_system process_excel] in Hout.
    destruct Hout as (Hstatus & Herror & _).
    exists s', d'. split; [exact Hrun|]. split; [exact Hget|].
    split; [exact Hstatus|exact Herror].
Defined.

Lemma download_after_run_witness :
  exists s',
    Backend.process_excel_background sample_isoformat sample_format_2f
      sample_str env_ok "t" observed = (Ret tt, s') /\
    download_results sample_path_exists "t" s'
    = (Ret (VStr "uploads/claims_processed.xlsx"), s').
Proof.
  destruct (download_after_run sample_isoformat sample_format_2f sample_str
              sample_path_exists env_ok "t" observed)
    as (s' & Hrun & Hdl).
  - eexists. vm_compute. reflexivity.
  - exists s'. split; [exact Hrun|]. rewrite Hdl. vm_compute. reflexivity.
Defined.

Lemma run_unobserved_witness :
  exists s',
    Backend.process_excel_background sample_isoformat sample_format_2f
      sample_str env_ok "t"
      (Backend.upload_excel_file sample_isoformat "t" "uploads/claims.xlsx"
         init).2
    = (Ret tt, s') /\
    buffered "t" s'
    = (progress_kind <$> [0; 10; 20; 30; 40; 50; 70; 85; 95]%Z)
      ++ [(Some (VStr "completed"), Some (VInt 100))].
Proof.
  destruct (run_unobserved sample_isoformat sample_format_2f sample_str
              env_ok "t"
              (Backend.upload_excel_file sample_isoformat "t"
                 "uploads/claims.xlsx" init).2)
    as (s' & Hrun & _ & _ & _ & Hall).
  - reflexivity.
  - eexists. vm_compute. reflexivity.
  - vm_compute. lia.
  - exists s'. split; [exact Hrun|]. rewrite Hall; reflexivity.
Defined.

Lemma upload_route_outcomes_witness :
  exists s',
    Backend.upload_excel_file_route sample_isoformat sample_str_exn true
      "claims.xls" "t" (Ret tt) init
    = (Ret ({| task_id := "t"; status := "processing";
               message := "File uploaded successfully. Processing started."
            |}, ("t", "uploads/t_claims.xls")), s') /\
    download_results sample_path_exists "t" s'
    = (Raise (HTTPException "400" "Task not completed"), s').
Proof.
  pose proof (upload_route_outcomes sample_isoformat sample_str_exn
                sample_path_exists true "claims.xls" "t" (Ret tt) init)
    as Houtcomes.
  cbv zeta in Houtcomes. destruct Houtcomes as (s' & _ & Hrun & Hret & _).
  exists s'.
  assert (Backend.upload_excel_file_route sample_isoformat sample_str_exn
            true "claims.xls" "t" (Ret tt) init
          = (Ret ({| task_id := "t"; status := "processing";
                     message :=
                       "File uploaded successfully. Processing started."
                  |}, ("t", "uploads/t_claims.xls")), s')) as Hr.
  { rewrite Hrun. vm_compute. reflexivity. }
  split; [exact Hr|]. exact (proj2 (Hret _ Hr)).
Defined.

End BackendMore.

(** ** The path of the results *)

Module ExcelProcessorSpec.
Import Py ExcelProcessor.

Lemma prefix_empty s : String.prefix "" s = true.
Proof. by destruct s. Qed.

(** An occurrence of [.xlsx] that starts in front of a final [.xlsx]
    starts in front of a final [.xls] as well. *)
Lemma prefix_xlsx c stem :
  String.prefix ".xlsx" (String c (stem +:+ ".xlsx"))
  = String.prefix ".xlsx" (String c (stem +:+ ".xls")).
Proof.
  destruct stem as [|c1 [|c2 [|c3 [|c4 stem]]]];
    repeat first
      [ done
      | rewrite !prefix_empty
      | progress change (String ?a ?s +:+ ?x) with (String a (s +:+ x))
      | progress change ("" +:+ ?x) with x
      | progress cbn [String.prefix]
      | match goal with
        | |- context [Ascii.ascii_dec ?a ?b] =>
            destruct (Ascii.ascii_dec a b) as [?|?]
        end ].
Qed.

(** [save_results] writes to the input path itself when that path does
    not contain [.xlsx], as with an uploaded [.xls] file. *)
Theorem output_path_without_xlsx input_path :
  occurs ".xlsx" input_path = false ->
  output_path input_path = input_path.
Proof.
  unfold output_path, replace.
  induction input_path as [|c input_path IH]; [done|].
  cbn [occurs replace_from]. intros [Hhere Hlater]%orb_false_iff.
  rewrite Hhere. f_equal. by apply IH.
Qed.

Lemma output_path_without_xlsx_witness :
  output_path "uploads/t_claims.xls" = "uploads/t_claims.xls".
Proof. apply output_path_without_xlsx. vm_compute. reflexivity. Defined.

(** For a path that ends in [.xlsx] and has no other occurrence of it,
    [save_results] writes to the path with [_processed] put in front of
    the extension. *)
Theorem output_path_of_xlsx stem :
  occurs ".xlsx" (stem +:+ ".xls") = false ->
  output_path (stem +:+ ".xlsx") = stem +:+ "_processed.xlsx".
Proof.
  unfold output_path, replace. induction stem as [|c stem IH].
  - intros _. reflexivity.
  - change (String c stem +:+ ?x) with (String c (stem +:+ x)).
    cbn [occurs replace_from]. intros [Hhere Hlater]%orb_false_iff.
    rewrite prefix_xlsx, Hhere. f_equal. by apply IH.
Qed.

Lemma output_path_of_xlsx_witness :
  output_path "uploads/t_claims.xlsx" = "uploads/t_claims_processed.xlsx".
Proof.
  apply (output_path_of_xlsx "uploads/t_claims"). vm_compute. reflexivity.
Defined.

End ExcelProcessorSpec.

(** ** Processing one claim and a sheet of claims *)

Module CorgiAgentSystemSpec.
Import Py CorgiAgentSystem.

Lemma get_consensus_reads round2 cfg claim_id self :
  MCPIntegration.get_consensus round2 cfg claim_id self
  = (Ret (MCPIntegration.consensus_of round2 cfg claim_id self), self).
Proof. reflexivity. Qed.

(** The reply handler never raises and answers [False].  It records
    the score when that is a number in [0, 1]; a value that is no number
    and a number outside that range change nothing. *)
Theorem handler_drops_bad_scores agent_name claim_id score md now self :
  handler agent_name claim_id score md now self
  = (Ret false,
     match score with
     | Ret s =>
         if MCPIntegration.valid_score s
         then MCPIntegration.store_vote claim_id agent_name s (Some md) now
                self
         else self
     | Raise _ => self
     end).
Proof.
  unfold handler. py_unfold. destruct score as [s|e]; [|done].
  rewrite MCPIntegrationMore.update_score_cases.
  by destruct (MCPIntegration.valid_score s).
Qed.

Section Reporting.

Variable str_exn : exn -> string.
Variable round2 : Q -> Q.

Abbreviation consensus_of := (MCPIntegration.consensus_of round2).
Abbreviation process_claim :=
  (CorgiAgentSystem.process_claim str_exn round2).
Abbreviation process_rows := (CorgiAgentSystem.process_rows str_exn round2).
Abbreviation process_excel :=
  (CorgiAgentSystem.process_excel str_exn round2).

(** [process_claim] never raises: what the chat raises ends up in an
    [ERROR] report. *)
Lemma process_claim_report cfg chat claim_id t elapsed self :
  process_claim cfg chat claim_id t elapsed self
  = (Ret match (chat self).1 with
         | Ret _ =>
             let '(is_fraud, agent_scores) :=
               consensus_of cfg claim_id (chat self).2 in
             {| claim_id := claim_id;
                decision := if is_fraud then "REJECT" else "APPROVE";
                decision_timestamp := t;
                processing_time_seconds := Some elapsed;
                agent_scores := Some agent_scores;
                error := None |}
         | Raise e =>
             {| claim_id := claim_id;
                decision := "ERROR";
                decision_timestamp := t;
                processing_time_seconds := None;
                agent_scores := None;
                error := Some (str_exn e) |}
         end, (chat self).2).
Proof.
  unfold CorgiAgentSystem.process_claim. py_unfold.
  destruct (chat self) as [[[]|e] self1]; cbn [fst snd]; [|done].
  rewrite get_consensus_reads.
  by destruct (consensus_of cfg claim_id self1).
Qed.

Lemma process_rows_reports cfg rows results self :
  exists more self',
    process_rows cfg rows results self = (Ret (results ++ more), self') /\
    reported str_exn round2 cfg rows more self self'.
Proof.
  revert results self.
  induction rows as [|r rows IH]; intros results self.
  - exists [], self. by rewrite app_nil_r.
  - cbn [CorgiAgentSystem.process_rows]. py_unfold.
    rewrite process_claim_report.
    match goal with
    | |- context [CorgiAgentSystem.process_rows _ _ _ _ (_ ++ [?r1]) ?s1] =>
        destruct (IH (results ++ [r1]) s1) as (more & self' & Hrun & Hrep);
        exists (r1 :: more), self'
    end.
    rewrite Hrun, <- app_assoc. split; [done|].
    cbn [reported]. split_and!; try done.
    + destruct (r_chat r self).1; [|done].
      by destruct (consensus_of cfg (r_claim_id r) (r_chat r self).2).
    + destruct (r_chat r self).1; [|done].
      by destruct (consensus_of cfg (r_claim_id r) (r_chat r self).2).
    + destruct (r_chat r self).1; [|done].
      by destruct (consensus_of cfg (r_claim_id r) (r_chat r self).2).
Qed.

Lemma reported_ids cfg rows results self self' :
  reported str_exn round2 cfg rows results self self' ->
  claim_id <$> results = r_claim_id <$> rows /\
  Forall (fun r => decision r ∈ ["REJECT"; "APPROVE"; "ERROR"]) results.
Proof.
  revert results self. induction rows as [|r rows IH];
    intros [|result results] self; cbn [reported]; try done.
  intros (Hid & _ & Hcase & Hrest). destruct (IH _ _ Hrest) as [Hids Hdec].
  split; [by rewrite !fmap_cons, Hid, Hids|].
  apply Forall_cons. split; [|done].
  destruct (r_chat r self).1.
  - destruct Hcase as [-> _].
    destruct (consensus_of cfg (r_claim_id r) (r_chat r self).2).1;
      repeat constructor.
  - destruct Hcase as [-> _]. repeat constructor.
Qed.

(** [process_excel] raises when the validation fails, when the sheet
    cannot be read and when the results cannot be saved, and in no other
    case.  Every row gives one report, in the order of the rows: [ERROR]
    with the text of the exception for a row whose chat raises, which
    does not stop the batch, and otherwise [REJECT] or [APPROVE] as the
    consensus on its votes says.  The path returned is the one
    [save_results] derives from the input path. *)
Theorem process_excel_reports cfg valid rows save file_path self :
  (valid = false ->
     process_excel cfg false rows save file_path self
     = (Raise (Exn "ValueError" "Invalid Excel file structure"), self)) /\
  (forall e, valid = true -> rows = Raise e ->
     process_excel cfg true (Raise e) save file_path self = (Raise e, self)) /\
  (forall sheet, valid = true -> rows = Ret sheet ->
     exists results self',
       process_excel cfg true (Ret sheet) save file_path self
       = (match save results with
          | Ret _ => Ret (ExcelProcessor.output_path file_path)
          | Raise e => Raise e
          end, self') /\
       reported str_exn round2 cfg sheet results self self' /\
       claim_id <$> results = r_claim_id <$> sheet /\
       Forall (fun r => decision r ∈ ["REJECT"; "APPROVE"; "ERROR"])
         results).
Proof.
  split; [done|]. split; [done|]. intros sheet _ _.
  destruct (process_rows_reports cfg sheet [] self)
    as (results & self' & Hrun & Hrep).
  exists results, self'. split.
  - unfold CorgiAgentSystem.process_excel. py_unfold. cbn [negb].
    rewrite Hrun. cbn [app]. by destruct (save results) as [[]|e].
  - split; [exact Hrep|]. by apply (reported_ids cfg sheet results self self').
Qed.

End Reporting.

Lemma process_excel_reports_witness :
  let sheet :=
    [ {| r_claim_id := "X"; r_chat := sample_chat; r_time := "t5";
         r_elapsed := 1 |};
      {| r_claim_id := "Y"; r_chat := failing_chat; r_time := "t6";
         r_elapsed := 1 |} ] in
  exists first second self',
    CorgiAgentSystem.process_excel sample_str_exn
      MCPIntegration.sample_round2 Config.default true
      (Ret sheet) (fun _ => Ret tt) "uploads/t_claims.xlsx"
      MCPIntegration.init
    = (Ret "uploads/t_claims_processed.xlsx", self') /\
    reported sample_str_exn MCPIntegration.sample_round2 Config.default
      sheet [first; second] MCPIntegration.init self' /\
    decision first = "REJECT" /\
    decision second = "ERROR" /\
    error second = Some "Request timed out".
Proof.
  intros sheet.
  destruct (proj2 (proj2 (process_excel_reports sample_str_exn
                            MCPIntegration.sample_round2 Config.default true
                            (Ret sheet) (fun _ => Ret tt)
                            "uploads/t_claims.xlsx" MCPIntegration.init))
              sheet eq_refl eq_refl)
    as (results & self' & Hrun & Hrep & _).
  destruct results as [|first [|second [|third results]]];
    try (cbn in Hrep; tauto).
  exists first, second, self'. split; [rewrite Hrun; vm_compute; reflexivity|].
  split; [exact Hrep|].
  destruct Hrep as (_ & _ & Hfirst & _ & _ & Hsecond & _).
  vm_compute in Hfirst, Hsecond.
  destruct Hfirst as (Hd1 & _). destruct Hsecond as (Hd2 & He2 & _).
  by split_and!.
Defined.

End CorgiAgentSystemSpec.

(** ** The route that analyses one claim *)

Module ClaimRouteSpec.
Import Py ClaimRoute.

Lemma filter_length_le {A} (f g : A -> bool) l :
  (forall x, f x = true -> g x = true) ->
  length (List.filter f l) <= length (List.filter g l).
Proof.
  intros Hfg. induction l as [|x l IH]; [done|]. cbn.
  destruct (f x) eqn:Hf.
  - rewrite (Hfg x Hf). cbn. lia.
  - destruct (g x); cbn; lia.
Qed.

Lemma filter_length_split {A} (f g h : A -> bool) l :
  (forall x, f x = true -> g x || h x = true) ->
  length (List.filter f l)
  <= length (List.filter g l) + length (List.filter h l).
Proof.
  intros Hf. induction l as [|x l IH]; [done|]. cbn.
  specialize (Hf x). destruct (f x), (g x), (h x); cbn in *; lia.
Qed.

Lemma filter_length_perm {A} (f : A -> bool) l l' :
  l ≡ₚ l' -> length (List.filter f l) = length (List.filter f l').
Proof.
  induction 1 as [|x l l' _ IH|x y l|l l' l'' _ IH1 _ IH2]; cbn.
  - done.
  - destruct (f x); cbn; by rewrite IH.
  - by destruct (f x), (f y).
  - by rewrite IH1.
Qed.

Lemma filter_length_snd {A B} (f : B -> bool) (l : list (A * B)) :
  length (List.filter f l.*2) = length (List.filter (fun kv => f kv.2) l).
Proof.
  induction l as [|[a b] l IH]; [done|]. cbn.
  destruct (f b); cbn; by rewrite IH.
Qed.

Section Formatting.

Variable format_2f : Q -> string.
Variable str_exn : exn -> string.
Variable items : gmap string Q -> list (string * Q).
Variable round2 : Q -> Q.

Abbreviation consensus_of := (MCPIntegration.consensus_of round2).
Abbreviation sort_score := (ClaimRoute.sort_score format_2f).
Abbreviation analyze_single_claim :=
  (ClaimRoute.analyze_single_claim format_2f str_exn items round2).

(** The loop over the scores appends one risk factor for each score
    above 0.7 and one recommendation for each other score above 0.5, in
    the order of the entries. *)
Lemma sort_score_lists l risk_factors recommendations :
  foldl sort_score (risk_factors, recommendations) l
  = (risk_factors
       ++ ((fun kv : string * Q =>
              "High risk detected by " +:+ kv.1 +:+ " (score: "
                +:+ format_2f kv.2 +:+ ")")
             <$> List.filter (fun kv => gt kv.2 (7 # 10)) l),
     recommendations
       ++ ((fun kv : string * Q =>
              "Monitor " +:+ kv.1 +:+ " indicators (score: "
                +:+ format_2f kv.2 +:+ ")")
             <$> List.filter
                   (fun kv => negb (gt kv.2 (7 # 10)) && gt kv.2 (5 # 10))
                   l)).
Proof.
  revert risk_factors recommendations.
  induction l as [|[agent score] l IH]; intros rf rc.
  - by rewrite !app_nil_r.
  - cbn [foldl List.filter snd]. unfold ClaimRoute.sort_score at 2.
    destruct (gt score (7 # 10)); cbn [negb andb].
    + by rewrite IH, fmap_cons, <- app_assoc.
    + destruct (gt score (5 # 10)).
      * by rewrite IH, fmap_cons, <- app_assoc.
      * apply IH.
Qed.

(** The route raises a 503 when [fraud_system] is missing and a 500
    when the chat raises: the [ERROR] report of [process_claim] has no
    [agent_scores], so the route fails on that key and the message of
    the chat's exception is lost.  Otherwise it returns a response whose
    decision is [REJECT] or [APPROVE] as [get_consensus] says for the
    votes the chat has left; what the chat wrote stays in every case. *)
Theorem analyze_outcomes fraud_system cfg chat claim_id t elapsed self :
  (fraud_system = false ->
     analyze_single_claim false cfg chat claim_id t elapsed self
     = (Raise (Backend.HTTPException "503"
                 "Fraud detection system not available"), self)) /\
  (forall e, fraud_system = true -> (chat self).1 = Raise e ->
     analyze_single_claim true cfg chat claim_id t elapsed self
     = (Raise (Backend.HTTPException "500"
                 (str_exn (Exn "KeyError" "'agent_scores'"))),
        (chat self).2)) /\
  (fraud_system = true -> (chat self).1 = Ret tt ->
     exists response,
       analyze_single_claim true cfg chat claim_id t elapsed self
       = (Ret response, (chat self).2) /\
       ClaimRoute.claim_id response = claim_id /\
       processing_time response = elapsed /\
       agent_scores response
       = (consensus_of cfg claim_id (chat self).2).2 /\
       decision response
       = if (consensus_of cfg claim_id (chat self).2).1
         then "REJECT" else "APPROVE").
Proof.
  split; [done|]. split.
  - intros e _ Hchat. unfold ClaimRoute.analyze_single_claim. py_unfold.
    cbn [negb]. rewrite CorgiAgentSystemSpec.process_claim_report, Hchat.
    reflexivity.
  - intros _ Hchat. unfold ClaimRoute.analyze_single_claim. py_unfold.
    cbn [negb]. rewrite CorgiAgentSystemSpec.process_claim_report, Hchat.
    destruct (consensus_of cfg claim_id (chat self).2)
      as [is_fraud scores].
    cbn [fst snd]. destruct (foldl _ _ _) as [rf rc].
    eexists. split; [reflexivity|]. by split_and!.
Qed.

(** A claim on which no agent has voted when the chat ends is approved
    with confidence 0, no risk factor and no recommendation. *)
Theorem analyze_no_votes cfg chat claim_id t elapsed self :
  (chat self).1 = Ret tt ->
  MCPIntegration.scores (chat self).2 !! claim_id = None ->
  analyze_single_claim true cfg chat claim_id t elapsed self
  = (Ret {| claim_id := claim_id;
            decision := "APPROVE";
            confidence := 0;
            processing_time := elapsed;
            agent_scores := MCPIntegration.EmptyDetail;
            risk_factors := [];
            recommendations := [] |}, (chat self).2).
Proof.
  intros Hchat Hnone. unfold ClaimRoute.analyze_single_claim. py_unfold.
  cbn [negb]. rewrite CorgiAgentSystemSpec.process_claim_report, Hchat.
  unfold MCPIntegration.consensus_of. by rewrite Hnone.
Qed.

Hypothesis items_perm : forall scores, items scores ≡ₚ map_to_list scores.

(** The risk factors of a response are the entries of the loop for the
    scores above 0.7, in the order of the scores; its recommendations
    are the entries for the other scores above 0.5, followed in a
    [REJECT] response, and only there, by the two review
    recommendations.  With the thresholds of [Config] a [REJECT]
    response has at least three entries of the loop, risk factors and
    recommendations taken together, and an [APPROVE] response has at
    most two risk factors. *)
Theorem evidence_matches_decision chat claim_id t elapsed self response
    self' :
  analyze_single_claim true Config.default chat claim_id t elapsed self
  = (Ret response, self') ->
  let entries :=
    match agent_scores response with
    | MCPIntegration.Detail scores _ _ _ _ => items scores
    | MCPIntegration.EmptyDetail => []
    end in
  let high := List.filter (fun kv => gt kv.2 (7 # 10)) entries in
  let middle :=
    List.filter (fun kv => negb (gt kv.2 (7 # 10)) && gt kv.2 (5 # 10))
      entries in
  let monitors :=
    (fun kv : string * Q =>
       "Monitor " +:+ kv.1 +:+ " indicators (score: " +:+ format_2f kv.2
         +:+ ")") <$> middle in
  risk_factors response
  = ((fun kv : string * Q =>
        "High risk detected by " +:+ kv.1 +:+ " (score: "
          +:+ format_2f kv.2 +:+ ")") <$> high) /\
  ((decision response = "REJECT" /\
    recommendations response
    = monitors ++ ["Recommend manual review";
                   "Contact claimant for additional documentation"] /\
    3 <= length high + length middle) \/
   (decision response = "APPROVE" /\
    recommendations response = monitors /\
    length high <= 2)).
Proof.
  unfold ClaimRoute.analyze_single_claim. py_unfold. cbn [negb].
  rewrite CorgiAgentSystemSpec.process_claim_report.
  destruct (chat self).1 as [[]|e].
  2:{ intros [=]. }
  unfold MCPIntegration.consensus_of.
  destruct (MCPIntegration.scores (chat self).2 !! claim_id)
    as [votes|] eqn:Hvotes.
  2:{ cbn. intros [= <- _]. cbn. split; [done|]. right.
      by split_and!; cbn; try lia. }
  unfold scores_of. cbn [CorgiAgentSystem.agent_scores].
  set (scores := MCPIntegration.score <$> votes).
  rewrite sort_score_lists.
  cbn [app CorgiAgentSystem.decision CorgiAgentSystem.claim_id
       CorgiAgentSystem.processing_time_seconds].
  pose proof (filter_length_perm (fun kv : string * Q => gt kv.2 (7 # 10))
                _ _ (items_perm scores)) as Hhigh.
  pose proof (filter_length_perm
                (fun kv : string * Q =>
                   negb (gt kv.2 (7 # 10)) && gt kv.2 (5 # 10))
                _ _ (items_perm scores)) as Hmon.
  pose proof (filter_length_snd
                (fun s => Qle_bool (Config.FRAUD_THRESHOLD Config.default) s)
                (map_to_list scores)) as Hcount.
  fold (MCPIntegration.values scores) in Hcount.
  fold (MCPIntegration.count_above
          (Config.FRAUD_THRESHOLD Config.default)
          (MCPIntegration.values scores)) in Hcount.
  assert (forall s, Qle_bool (7 # 10) s = true ->
                    gt s (7 # 10)
                    || negb (gt s (7 # 10)) && gt s (5 # 10) = true)
    as Hsplit.
  { intros s Hs. unfold gt. destruct (Qle_bool s (7 # 10)); [|done].
    cbn. apply negb_true_iff. destruct (Qle_bool s (5 # 10)) eqn:Hle; [|done].
    apply Qle_bool_iff in Hs, Hle. lra. }
  assert (forall s, gt s (7 # 10) = true -> Qle_bool (7 # 10) s = true)
    as Hhigher.
  { intros s Hs. unfold gt in Hs. apply negb_true_iff in Hs.
    apply Qle_bool_iff. destruct (Qlt_le_dec s (7 # 10)) as [Hlt|Hle].
    - apply Qlt_le_weak in Hlt. apply Qle_bool_iff in Hlt. congruence.
    - done. }
  pose proof (filter_length_split
                (fun kv : string * Q => Qle_bool (7 # 10) kv.2)
                (fun kv => gt kv.2 (7 # 10))
                (fun kv => negb (gt kv.2 (7 # 10)) && gt kv.2 (5 # 10))
                (map_to_list scores) (fun kv => Hsplit kv.2)) as Hge.
  pose proof (filter_length_le
                (fun kv : string * Q => gt kv.2 (7 # 10))
                (fun kv => Qle_bool (7 # 10) kv.2)
                (map_to_list scores) (fun kv => Hhigher kv.2)) as Hle.
  change (Config.FRAUD_THRESHOLD Config.default) with (7 # 10)%Q in *.
  change (Config.CONSENSUS_THRESHOLD Config.default) with 3 in *.
  rewrite <- Hcount, <- Hhigh, <- Hmon in *.
  destruct (3 <=? MCPIntegration.count_above (7 # 10)
                    (MCPIntegration.values scores))%nat eqn:Hreached.
  - apply Nat.leb_le in Hreached. cbn. intros [= <- _]. cbn.
    split; [done|]. left. split_and!; [done|done|lia].
  - apply Nat.leb_gt in Hreached. cbn. intros [= <- _]. cbn.
    split; [done|]. right. split_and!; [done|done|lia].
Qed.

End Formatting.

Lemma analyze_outcomes_witness :
  analyze_single_claim sample_format_2f CorgiAgentSystem.sample_str_exn
    map_to_list MCPIntegration.sample_round2 true Config.default
    CorgiAgentSystem.failing_chat "X" "t5" 1 MCPIntegration.init
  = (Raise (Backend.HTTPException "500" "'agent_scores'"),
     MCPIntegration.init).
Proof.
  apply (proj1 (proj2 (analyze_outcomes sample_format_2f
                         CorgiAgentSystem.sample_str_exn map_to_list
                         MCPIntegration.sample_round2 true
                         Config.default CorgiAgentSystem.failing_chat "X"
                         "t5" 1 MCPIntegration.init))
           (Exn "TimeoutError" "Request timed out"));
    reflexivity.
Defined.

Lemma analyze_no_votes_witness :
  exists self',
    analyze_single_claim sample_format_2f CorgiAgentSystem.sample_str_exn
      map_to_list MCPIntegration.sample_round2 true Config.default
      CorgiAgentSystem.sample_chat "Y" "t5" 1 MCPIntegration.init
    = (Ret {| claim_id := "Y"; decision := "APPROVE"; confidence := 0;
              processing_time := 1;
              agent_scores := MCPIntegration.EmptyDetail;
              risk_factors := []; recommendations := [] |}, self').
Proof.
  eexists.
  apply (analyze_no_votes sample_format_2f CorgiAgentSystem.sample_str_exn
           map_to_list MCPIntegration.sample_round2 Config.default
           CorgiAgentSystem.sample_chat "Y" "t5" 1 MCPIntegration.init);
    vm_compute; reflexivity.
Defined.

Lemma evidence_matches_decision_witness :
  exists response self',
    analyze_single_claim sample_format_2f CorgiAgentSystem.sample_str_exn
      map_to_list MCPIntegration.sample_round2 true Config.default
      CorgiAgentSystem.sample_chat "X" "t5" 1 MCPIntegration.init
    = (Ret response, self') /\
    decision response = "REJECT" /\
    risk_factors response = ["High risk detected by social (score: 0.00)"] /\
    length (recommendations response) = 4.
Proof.
  destruct (analyze_single_claim sample_format_2f
              CorgiAgentSystem.sample_str_exn map_to_list
              MCPIntegration.sample_round2 true Config.default
              CorgiAgentSystem.sample_chat "X" "t5" 1 MCPIntegration.init)
    as [[response|e] self'] eqn:Hrun;
    [|vm_compute in Hrun; discriminate].
  pose proof (evidence_matches_decision sample_format_2f
                CorgiAgentSystem.sample_str_exn map_to_list
                MCPIntegration.sample_round2
                (fun scores => Permutation_refl _)
                CorgiAgentSystem.sample_chat "X" "t5" 1 MCPIntegration.init
                response self' Hrun) as Hevidence.
  cbv zeta in Hevidence.
  destruct Hevidence as [Hrisk [(Hdec & Hrec & _)|(Hdec & _)]].
  - exists response, self'. split; [reflexivity|].
    split; [exact Hdec|].
    vm_compute in Hrun. injection Hrun as <- _.
    split; reflexivity.
  - vm_compute in Hrun. injection Hrun as <- _. discriminate Hdec.
Defined.

End ClaimRouteSpec.

(** ** The statistics route *)

Module StatsRouteSpec.
Import Py MCPIntegration StatsRoute.

(** A sequence of [update_score] calls appends the entries of the
    accepted ones to the history, in order. *)
Lemma update_scores_history calls self :
  history (update_scores calls self)
  = history self
    ++ (entry_of <$> List.filter (fun c => valid_score (c_score c)) calls).
Proof.
  revert self. induction calls as [|c calls IH]; intros self.
  - by rewrite app_nil_r.
  - cbn [update_scores List.filter].
    rewrite IH, MCPIntegrationMore.update_score_cases.
    destruct (valid_score (c_score c)); cbn [snd]; [|done].
    unfold store_vote. cbn [history]. by rewrite fmap_cons, <- app_assoc.
Qed.

Section Formatting.

Variable str_exn : exn -> string.

Abbreviation get_system_stats := (StatsRoute.get_system_stats str_exn).

(** The statistics route answers 500, not 503, when [fraud_system] is
    missing.  Otherwise [total_processed] is the number of accepted
    votes, not of claims: after a sequence of [update_score] calls it has
    grown by the number of calls whose score is in [0, 1], and
    [recent_activity] holds the last ten history entries, those of the
    accepted calls last and in order.  The route leaves the store as it
    is. *)
Theorem stats_count_accepted_votes calls now self :
  let accepted := List.filter (fun c => valid_score (c_score c)) calls in
  let self' := update_scores calls self in
  get_system_stats false now self'
  = (Raise (Backend.HTTPException "500"
              (str_exn (Exn "AttributeError"
                          "'NoneType' object has no attribute 'agent_versions'"))),
     self') /\
  get_system_stats true now self'
  = (Ret {| total_processed := length (history self) + length accepted;
            recent_activity :=
              last_n 10 (history self ++ (entry_of <$> accepted));
            system_status := "operational";
            last_updated := now |}, self').
Proof.
  intros accepted self'. split; [done|].
  unfold StatsRoute.get_system_stats. py_unfold. cbn [negb].
  subst self'. rewrite update_scores_history. fold accepted.
  rewrite length_app, length_fmap. f_equal. f_equal.
  by destruct (history self ++ (entry_of <$> accepted)).
Qed.

End Formatting.

End StatsRouteSpec.
